(** * sunxifbsink: overlay presentation and hardware rotation

    A shallow embedding of [src/gstsunxifbsink.c] (the sunxi framebuffer
    video sink of gst-plugins-aw): the alignment query, the rotation
    accelerator protocol, the four presenters in both display backends,
    the dispatcher and the overlay layer operations, followed by the
    properties of the specification stated over them.

    Conventions.
    - C integers are [Z]; the wrap-around of every unsigned store is written
      out with [u32], [u64] and [ulong].
    - A device is modelled by the values its calls return, supplied by the
      caller of a function in a [frame_env]; the calls a function issues are
      recorded, in order, in a list of [event].
    - Logging ([g_print], [GST_*_OBJECT]) and [gst_memory_map]/[unmap] change
      nothing that is modelled and are left out. *)

From Stdlib Require Import ZArith List Bool Lia.
Import ListNotations.
Open Scope Z_scope.

(** ** C arithmetic *)

Module C.

(** [unsigned int]: 32 bits. *)
Definition u32 (x : Z) : Z := x mod 2 ^ 32.

(** [unsigned long long]: 64 bits. *)
Definition u64 (x : Z) : Z := x mod 2 ^ 64.

(** [int]: 32 bits, two's complement (used for the wrap of [++m]). *)
Definition s32 (x : Z) : Z := (x + 2 ^ 31) mod 2 ^ 32 - 2 ^ 31.

(** The data model of the target: [unsigned long] and pointers are 32 bits
    wide on the 32-bit boards and 64 bits wide on the 64-bit ones. *)
Inductive abi := ILP32 | LP64.

Definition long_bits (a : abi) : Z :=
  match a with ILP32 => 32 | LP64 => 64 end.

Definition ulong (a : abi) (x : Z) : Z := x mod 2 ^ long_bits a.

(** [#define ALIGN_32B(x) (((x) + (31)) & ~(31))] at type [unsigned int]. *)
Definition ALIGN_32B (x : Z) : Z :=
  Z.land (u32 (x + 31)) (u32 (Z.lnot 31)).

(** [#define ALIGN_16B(x) (((x) + (15)) & ~(15))] at type [unsigned int]. *)
Definition ALIGN_16B (x : Z) : Z :=
  Z.land (u32 (x + 15)) (u32 (Z.lnot 15)).

(** glib's [gboolean] values. *)
Definition FALSE : Z := 0.
Definition TRUE : Z := 1.

(** A C condition: non-zero is true. *)
Definition truthy (x : Z) : bool := negb (x =? 0).

End C.
Export C.

(** ** The GStreamer vocabulary the sink uses *)

Module Gst.

(** [GstFlowReturn] (gstpad.h): the two values the sink returns. *)
Definition GST_FLOW_OK : Z := 0.
Definition GST_FLOW_ERROR : Z := -5.

(** The formats of the pad template and of
    [sunxifbsink_supported_overlay_formats_table]. *)
Inductive GstVideoFormat :=
| GST_VIDEO_FORMAT_UNKNOWN
| GST_VIDEO_FORMAT_RGB
| GST_VIDEO_FORMAT_BGR
| GST_VIDEO_FORMAT_RGBx
| GST_VIDEO_FORMAT_BGRx
| GST_VIDEO_FORMAT_xRGB
| GST_VIDEO_FORMAT_xBGR
| GST_VIDEO_FORMAT_NV12
| GST_VIDEO_FORMAT_NV21
| GST_VIDEO_FORMAT_YV12
| GST_VIDEO_FORMAT_I420
| GST_VIDEO_FORMAT_YUY2
| GST_VIDEO_FORMAT_UYVY
| GST_VIDEO_FORMAT_Y444
| GST_VIDEO_FORMAT_AYUV.

Definition format_eqb (a b : GstVideoFormat) : bool :=
  match a, b with
  | GST_VIDEO_FORMAT_UNKNOWN, GST_VIDEO_FORMAT_UNKNOWN
  | GST_VIDEO_FORMAT_RGB, GST_VIDEO_FORMAT_RGB
  | GST_VIDEO_FORMAT_BGR, GST_VIDEO_FORMAT_BGR
  | GST_VIDEO_FORMAT_RGBx, GST_VIDEO_FORMAT_RGBx
  | GST_VIDEO_FORMAT_BGRx, GST_VIDEO_FORMAT_BGRx
  | GST_VIDEO_FORMAT_xRGB, GST_VIDEO_FORMAT_xRGB
  | GST_VIDEO_FORMAT_xBGR, GST_VIDEO_FORMAT_xBGR
  | GST_VIDEO_FORMAT_NV12, GST_VIDEO_FORMAT_NV12
  | GST_VIDEO_FORMAT_NV21, GST_VIDEO_FORMAT_NV21
  | GST_VIDEO_FORMAT_YV12, GST_VIDEO_FORMAT_YV12
  | GST_VIDEO_FORMAT_I420, GST_VIDEO_FORMAT_I420
  | GST_VIDEO_FORMAT_YUY2, GST_VIDEO_FORMAT_YUY2
  | GST_VIDEO_FORMAT_UYVY, GST_VIDEO_FORMAT_UYVY
  | GST_VIDEO_FORMAT_Y444, GST_VIDEO_FORMAT_Y444
  | GST_VIDEO_FORMAT_AYUV, GST_VIDEO_FORMAT_AYUV => true
  | _, _ => false
  end.

(** [static GstVideoFormat sunxifbsink_supported_overlay_formats_table[]],
    without its [GST_VIDEO_FORMAT_UNKNOWN] terminator. *)
Definition sunxifbsink_supported_overlay_formats_table
  : list GstVideoFormat :=
  [ GST_VIDEO_FORMAT_YV12; GST_VIDEO_FORMAT_I420; GST_VIDEO_FORMAT_NV12;
    GST_VIDEO_FORMAT_NV21; GST_VIDEO_FORMAT_AYUV; GST_VIDEO_FORMAT_BGRx;
    GST_VIDEO_FORMAT_YUY2; GST_VIDEO_FORMAT_UYVY; GST_VIDEO_FORMAT_Y444 ].

(** The part of [GstVideoInfo] the sink reads: the format, the frame size,
    and for component 0 the horizontal subsampling shift [w_sub[0]] and
    the pixel stride. *)
Record GstVideoInfo := {
  info_format : GstVideoFormat;
  info_width : Z;
  info_height : Z;
  info_size : Z;
  info_w_sub0 : Z;
  info_pstride0 : Z
}.

(** [GST_VIDEO_SUB_SCALE(scale, val)] is [-((-((gint)(val))) >> (scale))];
    [GST_VIDEO_FORMAT_INFO_SCALE_WIDTH (finfo, 0, w)] applies it with
    [w_sub[0]]. *)
Definition GST_VIDEO_FORMAT_INFO_SCALE_WIDTH (vi : GstVideoInfo) (w : Z) : Z :=
  - Z.shiftr (- w) (info_w_sub0 vi).

Definition GST_VIDEO_INFO_COMP_PSTRIDE (vi : GstVideoInfo) : Z :=
  info_pstride0 vi.

Record GstVideoRectangle := {
  rect_x : Z; rect_y : Z; rect_w : Z; rect_h : Z
}.

(** [gst_video_sink_center_rect (src, dst, &result, FALSE)]
    (gstvideosink.c, no scaling): the source clipped to the destination
    and centred in it. *)
Definition gst_video_sink_center_rect (src dst : GstVideoRectangle)
  : GstVideoRectangle :=
  let w := Z.min (rect_w src) (rect_w dst) in
  let h := Z.min (rect_h src) (rect_h dst) in
  {| rect_x := rect_x dst + Z.quot (rect_w dst - w) 2;
     rect_y := rect_y dst + Z.quot (rect_h dst - h) 2;
     rect_w := w;
     rect_h := h |}.

End Gst.
Export Gst.

(** ** The alignment query *)

Section Alignment.

(** The alignment of the planes, as the base class computes it. *)
Variable GstFramebufferSinkOverlayVideoAlignment : Type.

(** [gst_framebuffersink_set_overlay_video_alignment_from_scanline_alignment]
    belongs to the base class (gstframebuffersink.c): from the video info,
    the scanline alignment mask and the pixel-boundary flag it fills
    [*video_alignment] and [*video_alignment_matches]. *)
Variable set_overlay_video_alignment_from_scanline_alignment :
  GstVideoInfo -> Z -> bool ->
  GstFramebufferSinkOverlayVideoAlignment * bool.

(** What the query leaves in its three out-parameters when it returns
    [TRUE]. *)
Record overlay_alignment := {
  overlay_align : Z;
  video_alignment : GstFramebufferSinkOverlayVideoAlignment;
  video_alignment_matches : bool
}.

(** The four formats of the first test of the query. *)
Definition is_yuv420_planar (format : GstVideoFormat) : bool :=
  format_eqb format GST_VIDEO_FORMAT_I420
  || format_eqb format GST_VIDEO_FORMAT_YV12
  || format_eqb format GST_VIDEO_FORMAT_NV12
  || format_eqb format GST_VIDEO_FORMAT_NV21.

(** [gst_sunxifbsink_get_overlay_video_alignment]: [None] is the return
    of [FALSE] (the out-parameters are not written), [Some] the return of
    [TRUE] with the values written. *)
Definition gst_sunxifbsink_get_overlay_video_alignment
    (video_info : GstVideoInfo) : option overlay_alignment :=
  let format := info_format video_info in
  if is_yuv420_planar format && truthy (Z.land (info_width video_info) 1)
  then None
  else
    let '(va, matches) :=
      set_overlay_video_alignment_from_scanline_alignment
        video_info 3 true in
    Some {| overlay_align := 15;
            video_alignment := va;
            video_alignment_matches := matches |}.

End Alignment.

Arguments overlay_align {_} _.
Arguments video_alignment {_} _.
Arguments video_alignment_matches {_} _.

(** ** The rotation accelerator: job descriptors *)

Module Tr.

(** Modelled from the spec: the enumerators of [tr_mode] (sunxi_tr.h is
    not among the sources). The rotation job's mode is one of 0, 90, 180
    and 270 degrees, horizontal flip and vertical flip; they are numbered
    as the rotate-angle property is in the [switch] of the block-transform
    path (1: 90 degrees, 2: 180 degrees, 3: 270 degrees, 4 and 6: the
    flips), since the presenter stores the property in [mode] unchanged. *)
Definition TR_ROT_0 : Z := 0.
Definition TR_ROT_90 : Z := 1.
Definition TR_ROT_180 : Z := 2.
Definition TR_ROT_270 : Z := 3.
Definition TR_HFLIP : Z := 4.
Definition TR_VFLIP : Z := 6.

(** The one pixel format the presenter names; [None] in a [fmt] member is
    the zero left there by [memset]. *)
Inductive tr_pixel_format := TR_FORMAT_YUV420_P.

(** [tr_frame] (declared in sunxi_tr.h, which is not among the sources; the
    members are those the presenter assigns): format, three plane
    addresses, three pitches and three heights. *)
Record tr_frame := {
  fmt : option tr_pixel_format;
  laddr0 : Z; laddr1 : Z; laddr2 : Z;
  pitch0 : Z; pitch1 : Z; pitch2 : Z;
  height0 : Z; height1 : Z; height2 : Z
}.

Record tr_rect := { tr_x : Z; tr_y : Z; tr_w : Z; tr_h : Z }.

(** [tr_info]: the job handed to [TR_COMMIT]. *)
Record tr_info := {
  mode : Z;
  src_frame : tr_frame;
  src_rect : tr_rect;
  dst_frame : tr_frame;
  dst_rect : tr_rect
}.

End Tr.
Export Tr.

(** ** The block-transform engine: blit descriptors *)

Module G2d.

Inductive g2d_fmt_enh :=
| G2D_FORMAT_YUV420_PLANAR
| G2D_FORMAT_YUV420UVC_U1V1U0V0.

Inductive g2d_blt_flags_h :=
| G2D_BLT_NONE_H
| G2D_ROT_0
| G2D_ROT_90
| G2D_ROT_180
| G2D_ROT_270
| G2D_ROT_H
| G2D_ROT_V.

Definition is_rot_90_or_270 (f : g2d_blt_flags_h) : bool :=
  match f with G2D_ROT_90 | G2D_ROT_270 => true | _ => false end.

(** The members of [g2d_image_enh] that differ from one blit to the next
    (the others are the constants of the source: [bbuff = 1],
    [use_phy_addr = 1], [color = 0xff], [align = {0,0,0}],
    [gamut = G2D_BT709], [bpremul = 0], [alpha = 0xff],
    [mode = G2D_GLOBAL_ALPHA]). *)
Record g2d_image_enh := {
  g2d_format : option g2d_fmt_enh;
  g2d_laddr0 : Z; g2d_laddr1 : Z; g2d_laddr2 : Z;
  g2d_width : Z; g2d_height : Z;
  clip_rect_w : Z; clip_rect_h : Z
}.

Record g2d_blt_h := {
  flag_h : g2d_blt_flags_h;
  src_image_h : g2d_image_enh;
  dst_image_h : g2d_image_enh
}.

End G2d.
Export G2d.

(** ** The display controller: layer configurations *)

Module Disp.

Inductive disp_pixel_format :=
| DISP_FORMAT_ARGB_8888
| DISP_FORMAT_YUV444_P
| DISP_FORMAT_YUV422_P
| DISP_FORMAT_YUV420_P
| DISP_FORMAT_YUV420_SP_UVUV
| DISP_FORMAT_YUV420_SP_VUVU.

Inductive disp_color_space := DISP_BT601 | DISP_BT709.

Inductive disp_layer_mode :=
| LAYER_MODE_BUFFER
| DISP_LAYER_WORK_MODE_SCALER.

Inductive disp_buffer_flags := DISP_BF_NORMAL.
Inductive disp_scan_flags := DISP_SCAN_PROGRESSIVE.

(** The integer members of [luapiconfig.layerConfig] (its type is declared
    in a header that is not among the sources), each named by the path the
    source writes it through. The newer backend
    ([__SUNXI_DISPLAY2__]) keeps the layer in [layerConfig.info] with one
    size per plane; the legacy backend keeps it in [layerConfig] itself
    with one size for all planes. An array member takes its index. *)
Inductive member :=
(* newer backend *)
| info_fb_addr (i : Z)
| info_fb_size_width (i : Z)
| info_fb_size_height (i : Z)
| info_fb_crop_x
| info_fb_crop_y
| info_fb_crop_width
| info_fb_crop_height
| info_zorder
| info_alpha_mode
| info_alpha_value
| info_screen_win_x
| info_screen_win_y
| info_screen_win_width
| info_screen_win_height
| cfg_enable
| cfg_layer_id
| cfg_channel
(* legacy backend *)
| fb_addr (i : Z)
| fb_size_width
| fb_size_height
| fb_src_win_x
| fb_src_win_y
| fb_src_win_width
| fb_src_win_height
| fb_pre_multiply
| screen_win_x
| screen_win_y
| screen_win_width
| screen_win_height
| cfg_alpha_mode
| cfg_alpha_value
| cfg_zorder
| cfg_pipe.

Definition member_eq_dec (a b : member) : {a = b} + {a <> b}.
Proof. decide equality; apply Z.eq_dec. Defined.

(** [luapi_layer_config]: the integer members, and the members of an
    enumerated type, where [None] is the zero left by [memset]. The
    colour space is [info.fb.color_space] in the newer backend; the
    legacy backend has a colour-space member in its frame buffer
    description too and the sink never names it. *)
Record luapi_layer_config := {
  ints : member -> Z;
  fb_format : option disp_pixel_format;
  fb_color_space : option disp_color_space;
  layer_mode : option disp_layer_mode;
  fb_flags : option disp_buffer_flags;
  fb_scan : option disp_scan_flags
}.

(** [memset (&luapiconfig, 0, sizeof (luapiconfig))]. *)
Definition zeroed : luapi_layer_config :=
  {| ints := fun _ => 0;
     fb_format := None;
     fb_color_space := None;
     layer_mode := None;
     fb_flags := None;
     fb_scan := None |}.

(** [luapiconfig.<member> = v;] *)
Definition assign (f : member) (v : Z) (c : luapi_layer_config)
  : luapi_layer_config :=
  {| ints := fun g => if member_eq_dec g f then v else ints c g;
     fb_format := fb_format c;
     fb_color_space := fb_color_space c;
     layer_mode := layer_mode c;
     fb_flags := fb_flags c;
     fb_scan := fb_scan c |}.

Definition assign_format (v : disp_pixel_format) (c : luapi_layer_config) :=
  {| ints := ints c;
     fb_format := Some v;
     fb_color_space := fb_color_space c;
     layer_mode := layer_mode c;
     fb_flags := fb_flags c;
     fb_scan := fb_scan c |}.

Definition assign_color_space (v : disp_color_space)
    (c : luapi_layer_config) :=
  {| ints := ints c;
     fb_format := fb_format c;
     fb_color_space := Some v;
     layer_mode := layer_mode c;
     fb_flags := fb_flags c;
     fb_scan := fb_scan c |}.

Definition assign_mode (v : disp_layer_mode) (c : luapi_layer_config) :=
  {| ints := ints c;
     fb_format := fb_format c;
     fb_color_space := fb_color_space c;
     layer_mode := Some v;
     fb_flags := fb_flags c;
     fb_scan := fb_scan c |}.

Definition assign_flags (v : disp_buffer_flags) (c : luapi_layer_config) :=
  {| ints := ints c;
     fb_format := fb_format c;
     fb_color_space := fb_color_space c;
     layer_mode := layer_mode c;
     fb_flags := Some v;
     fb_scan := fb_scan c |}.

Definition assign_scan (v : disp_scan_flags) (c : luapi_layer_config) :=
  {| ints := ints c;
     fb_format := fb_format c;
     fb_color_space := fb_color_space c;
     layer_mode := layer_mode c;
     fb_flags := fb_flags c;
     fb_scan := Some v |}.

(** Reading an integer member. *)
Definition get (c : luapi_layer_config) (f : member) : Z := ints c f.

End Disp.
Export Disp.

(** ** Device calls *)

(** The calls on the devices and on the memory adapter, each with its
    arguments and, where the source looks at it, the value returned. *)
Inductive event :=
| TR_COMMIT (channel : Z) (info : tr_info) (ret : Z)
| TR_QUERY (channel : Z) (ret : Z)
| usleep (usec : Z)
| G2D_CMD_BITBLT_H (blit : g2d_blt_h) (ret : Z)
| DispGetLayerConfig (screen layer channel : Z)
| DispSetLayerConfig (screen layer : Z) (config : luapi_layer_config) (ret : Z)
| DispSetLayerEnable (screen layer channel : Z) (enable : Z) (ret : Z)
| SunxiMemPalloc (len : Z) (ret : Z)
| SunxiMemPfree (p : Z)
| SunxiMemFlushCache (p : Z) (len : Z).

(** ** The rotation accelerator: submit, poll, resubmit *)

Module Rotate.

(** Where [hwRotateVideoPicture] stands between two ioctls:
    - [AtSetup]: at the label [setup_tr], about to issue [TR_COMMIT];
    - [AtFirstQuery]: after a [TR_COMMIT] that returned 0, about to issue
      the [TR_QUERY] that precedes the loop;
    - [AtPoll]: in [while(1)], about to issue its [TR_QUERY];
    - [Returned r]: after [return r]. *)
Inductive tr_pc :=
| AtSetup
| AtFirstQuery
| AtPoll
| Returned (r : Z).

Section Job.

(** [sunxifbsink->transform_channel] and the copy [tTrInfo] of the job,
    taken once before [setup_tr]. *)
Variable channel : Z.
Variable tTrInfo : tr_info.

(** One ioctl: from a place, the value [resp] the ioctl returns leads to
    the next place; the calls made on the way are listed.
    - At [setup_tr] a non-zero [TR_COMMIT] is [return -1].
    - The value of the first [TR_QUERY] is overwritten by the first
      poll of the loop before it is looked at.
    - In the loop, 1 sleeps a millisecond and polls again; any other
      value leaves the loop, where -1 jumps back to [setup_tr] and
      every other value is returned. *)
Definition tr_step (pc : tr_pc) (resp : Z) : tr_pc * list event :=
  match pc with
  | AtSetup =>
      (if truthy resp then Returned (-1) else AtFirstQuery,
       [TR_COMMIT channel tTrInfo resp])
  | AtFirstQuery =>
      (AtPoll, [TR_QUERY channel resp])
  | AtPoll =>
      if resp =? 1 then (AtPoll, [TR_QUERY channel resp; usleep (1 * 1000)])
      else if resp =? -1 then (AtSetup, [TR_QUERY channel resp])
      else (Returned resp, [TR_QUERY channel resp])
  | Returned r => (Returned r, [])
  end.

(** The calls [evs] were made before the rest of a run. *)
Definition after_calls (evs : list event)
    (run : option Z * list Z * list event)
  : option Z * list Z * list event :=
  let '(r, rest, tr) := run in (r, rest, evs ++ tr).

(** Running from a place against the values the device returns, one per
    ioctl in the order they are issued: the value returned ([None] when
    the script ends before the function has returned), the values not
    consumed, and the calls made. *)
Fixpoint tr_run (pc : tr_pc) (script : list Z)
  : option Z * list Z * list event :=
  match pc with
  | Returned r => (Some r, script, [])
  | _ =>
      match script with
      | [] => (None, [], [])
      | resp :: rest =>
          let '(pc', evs) := tr_step pc resp in
          after_calls evs (tr_run pc' rest)
      end
  end.

(** [hwRotateVideoPicture], run against the values the transform
    device returns. *)
Definition hwRotateVideoPicture (script : list Z)
  : option Z * list Z * list event :=
  tr_run AtSetup script.

End Job.

End Rotate.
Export Rotate.

(** ** The sink *)

Module Sink.

(** The build: the display backend ([__SUNXI_DISPLAY2__] defined or not),
    the block-transform rotation ([__SUNXI_G2D_ROTATE__] defined or not)
    and the data model of the target. *)
Record build := {
  SUNXI_DISPLAY2 : bool;
  SUNXI_G2D_ROTATE : bool;
  target : abi
}.

(** The members of the parent instances ([GstFramebufferSink] and, for
    [fixinfo.smem_start], [GstFbdevFramebufferSink]) that the sink uses. *)
Record GstFramebufferSink := {
  rotate_angle_property : Z;
  max_video_memory_property : Z;
  overlay_plane_offset : Z -> Z;
  overlay_scanline_stride : Z -> Z;
  videosink_width : Z;
  videosink_height : Z;
  video_rectangle : GstVideoRectangle;
  video_info : GstVideoInfo;
  screen_info : GstVideoInfo;
  fixinfo_smem_start : Z
}.

Definition set_video_rectangle (r : GstVideoRectangle)
    (f : GstFramebufferSink) : GstFramebufferSink :=
  {| rotate_angle_property := rotate_angle_property f;
     max_video_memory_property := max_video_memory_property f;
     overlay_plane_offset := overlay_plane_offset f;
     overlay_scanline_stride := overlay_scanline_stride f;
     videosink_width := videosink_width f;
     videosink_height := videosink_height f;
     video_rectangle := r;
     video_info := video_info f;
     screen_info := screen_info f;
     fixinfo_smem_start := fixinfo_smem_start f |}.

(** The two members of [OmxPrivateBuffer] the dispatcher reads. *)
Record OmxPrivateBuffer := { pAddrPhyY : Z; pAddrVirY : Z }.

(** A [GstMemory] as the sink sees it: the flag tested by
    [GST_MEMORY_FLAG_IS_SET (memory, GST_MEMORY_FLAG_PHYSICALLY_CONTIGUOUS)],
    the address [mapinfo.data] it maps to, and the [OmxPrivateBuffer] its
    first bytes hold. *)
Record GstMemory := {
  physically_contiguous : bool;
  mapinfo_data : Z;
  private_buffer : OmxPrivateBuffer
}.

(** [GstSunxifbsink] (declared in gstsunxifbsink.h, which is not among the
    sources; the members are those the source names). A pointer is its
    address; [NULL] is 0. *)
Record GstSunxifbsink := {
  framebuffersink : GstFramebufferSink;
  fd_disp : Z;
  fd_transform : Z;
  fd_g2d : Z;
  transform_channel : Z;
  framebuffer_id : Z;
  layer_id : Z;
  layer_has_scaler : bool;
  layer_is_visible : bool;
  hardware_overlay_available : bool;
  overlay_format : GstVideoFormat;
  rotate_addr_phy0 : Z;
  rotate_addr_phy1 : Z;
  sBuffer : OmxPrivateBuffer
}.

Definition set_framebuffersink v (s : GstSunxifbsink) :=
  {| framebuffersink := v; fd_disp := fd_disp s;
     fd_transform := fd_transform s; fd_g2d := fd_g2d s;
     transform_channel := transform_channel s;
     framebuffer_id := framebuffer_id s; layer_id := layer_id s;
     layer_has_scaler := layer_has_scaler s;
     layer_is_visible := layer_is_visible s;
     hardware_overlay_available := hardware_overlay_available s;
     overlay_format := overlay_format s;
     rotate_addr_phy0 := rotate_addr_phy0 s;
     rotate_addr_phy1 := rotate_addr_phy1 s; sBuffer := sBuffer s |}.

Definition set_layer_id v (s : GstSunxifbsink) :=
  {| framebuffersink := framebuffersink s; fd_disp := fd_disp s;
     fd_transform := fd_transform s; fd_g2d := fd_g2d s;
     transform_channel := transform_channel s;
     framebuffer_id := framebuffer_id s; layer_id := v;
     layer_has_scaler := layer_has_scaler s;
     layer_is_visible := layer_is_visible s;
     hardware_overlay_available := hardware_overlay_available s;
     overlay_format := overlay_format s;
     rotate_addr_phy0 := rotate_addr_phy0 s;
     rotate_addr_phy1 := rotate_addr_phy1 s; sBuffer := sBuffer s |}.

Definition set_layer_has_scaler v (s : GstSunxifbsink) :=
  {| framebuffersink := framebuffersink s; fd_disp := fd_disp s;
     fd_transform := fd_transform s; fd_g2d := fd_g2d s;
     transform_channel := transform_channel s;
     framebuffer_id := framebuffer_id s; layer_id := layer_id s;
     layer_has_scaler := v;
     layer_is_visible := layer_is_visible s;
     hardware_overlay_available := hardware_overlay_available s;
     overlay_format := overlay_format s;
     rotate_addr_phy0 := rotate_addr_phy0 s;
     rotate_addr_phy1 := rotate_addr_phy1 s; sBuffer := sBuffer s |}.

Definition set_layer_is_visible v (s : GstSunxifbsink) :=
  {| framebuffersink := framebuffersink s; fd_disp := fd_disp s;
     fd_transform := fd_transform s; fd_g2d := fd_g2d s;
     transform_channel := transform_channel s;
     framebuffer_id := framebuffer_id s; layer_id := layer_id s;
     layer_has_scaler := layer_has_scaler s;
     layer_is_visible := v;
     hardware_overlay_available := hardware_overlay_available s;
     overlay_format := overlay_format s;
     rotate_addr_phy0 := rotate_addr_phy0 s;
     rotate_addr_phy1 := rotate_addr_phy1 s; sBuffer := sBuffer s |}.

Definition set_overlay_format v (s : GstSunxifbsink) :=
  {| framebuffersink := framebuffersink s; fd_disp := fd_disp s;
     fd_transform := fd_transform s; fd_g2d := fd_g2d s;
     transform_channel := transform_channel s;
     framebuffer_id := framebuffer_id s; layer_id := layer_id s;
     layer_has_scaler := layer_has_scaler s;
     layer_is_visible := layer_is_visible s;
     hardware_overlay_available := hardware_overlay_available s;
     overlay_format := v;
     rotate_addr_phy0 := rotate_addr_phy0 s;
     rotate_addr_phy1 := rotate_addr_phy1 s; sBuffer := sBuffer s |}.

Definition set_rotate_addr_phy0 v (s : GstSunxifbsink) :=
  {| framebuffersink := framebuffersink s; fd_disp := fd_disp s;
     fd_transform := fd_transform s; fd_g2d := fd_g2d s;
     transform_channel := transform_channel s;
     framebuffer_id := framebuffer_id s; layer_id := layer_id s;
     layer_has_scaler := layer_has_scaler s;
     layer_is_visible := layer_is_visible s;
     hardware_overlay_available := hardware_overlay_available s;
     overlay_format := overlay_format s;
     rotate_addr_phy0 := v;
     rotate_addr_phy1 := rotate_addr_phy1 s; sBuffer := sBuffer s |}.

Definition set_rotate_addr_phy1 v (s : GstSunxifbsink) :=
  {| framebuffersink := framebuffersink s; fd_disp := fd_disp s;
     fd_transform := fd_transform s; fd_g2d := fd_g2d s;
     transform_channel := transform_channel s;
     framebuffer_id := framebuffer_id s; layer_id := layer_id s;
     layer_has_scaler := layer_has_scaler s;
     layer_is_visible := layer_is_visible s;
     hardware_overlay_available := hardware_overlay_available s;
     overlay_format := overlay_format s;
     rotate_addr_phy0 := rotate_addr_phy0 s;
     rotate_addr_phy1 := v; sBuffer := sBuffer s |}.

Definition set_sBuffer v (s : GstSunxifbsink) :=
  {| framebuffersink := framebuffersink s; fd_disp := fd_disp s;
     fd_transform := fd_transform s; fd_g2d := fd_g2d s;
     transform_channel := transform_channel s;
     framebuffer_id := framebuffer_id s; layer_id := layer_id s;
     layer_has_scaler := layer_has_scaler s;
     layer_is_visible := layer_is_visible s;
     hardware_overlay_available := hardware_overlay_available s;
     overlay_format := overlay_format s;
     rotate_addr_phy0 := rotate_addr_phy0 s;
     rotate_addr_phy1 := rotate_addr_phy1 s; sBuffer := v |}.

(** [sunxifbsink->rotate_addr_phy[i]]. The array has two elements; an
    index outside it is undefined in C and reads as [NULL] here. *)
Definition rotate_addr_phy (s : GstSunxifbsink) (i : Z) : Z :=
  if i =? 0 then rotate_addr_phy0 s
  else if i =? 1 then rotate_addr_phy1 s
  else 0.

(** The variables of static storage duration: [static int m] of
    [gst_sunxifbsink_show_memory_yuv_planar], [static int m] of
    [gst_sunxifbsink_show_overlay_yuv_planar] and the file's
    [reset_video_rectangle_flag]. *)
Record statics := {
  show_memory_m : Z;
  show_overlay_m : Z;
  reset_video_rectangle_flag : bool
}.

(** Their initial values. *)
Definition statics_init : statics :=
  {| show_memory_m := 0; show_overlay_m := 0;
     reset_video_rectangle_flag := true |}.

(** What the devices and the memory adapter answer during one frame:
    - the physical address [SunxiMemGetPhysicAddressCpu] gives for a
      virtual one;
    - the size [SunxiMemGetActualSize] reports;
    - the pointers the first and the second [SunxiMemPalloc] return;
    - the configuration [DispGetLayerConfig] reads from the device;
    - the values [DispSetLayerConfig], [DispSetLayerEnable] and the
      [G2D_CMD_BITBLT_H] ioctl return;
    - the values the ioctls on the transform device return, in the order
      they are issued. *)
Record frame_env := {
  phys_of : Z -> Z;
  actual_width : Z;
  actual_height : Z;
  palloc_first : Z;
  palloc_second : Z;
  layer_config_read : luapi_layer_config;
  set_layer_config_ret : Z;
  set_layer_enable_ret : Z;
  g2d_bitblt_ret : Z;
  tr_script : list Z
}.

(** What a call leaves behind: the value returned, the sink, the statics
    and the device calls made. *)
Record outcome := {
  result : Z;
  sink_after : GstSunxifbsink;
  statics_after : statics;
  calls : list event
}.

(** *** The overlay layer *)

(** [gst_sunxifbsink_show_layer]. *)
Definition gst_sunxifbsink_show_layer (env : frame_env)
    (s : GstSunxifbsink) : Z * GstSunxifbsink * list event :=
  if layer_is_visible s then (TRUE, s, [])
  else if layer_id s <? 0 then (FALSE, s, [])
  else
    let r := set_layer_enable_ret env in
    let call := DispSetLayerEnable (framebuffer_id s) (layer_id s)
                  (framebuffer_id s) 1 r in
    if truthy r then (FALSE, s, [call])
    else (TRUE, set_layer_is_visible true s, [call]).

(** [gst_sunxifbsink_hide_layer]. *)
Definition gst_sunxifbsink_hide_layer (env : frame_env)
    (s : GstSunxifbsink) : GstSunxifbsink * list event :=
  if negb (layer_is_visible s) then (s, [])
  else
    let r := set_layer_enable_ret env in
    let call := DispSetLayerEnable (framebuffer_id s) (layer_id s)
                  (framebuffer_id s) 0 r in
    if truthy r then (s, [call])
    else (set_layer_is_visible false s, [call]).

(** [gst_sunxifbsink_release_layer]. *)
Definition gst_sunxifbsink_release_layer (env : frame_env)
    (s : GstSunxifbsink) : GstSunxifbsink * list event :=
  let '(s, tr) :=
    if layer_is_visible s
    then (set_layer_is_visible false s,
          [DispSetLayerEnable (framebuffer_id s) (layer_id s)
             (framebuffer_id s) 0 (set_layer_enable_ret env)])
    else (s, []) in
  (set_layer_has_scaler false (set_layer_id (-1) s), tr).

(** [gst_sunxifbsink_prepare_overlay]. *)
Definition gst_sunxifbsink_prepare_overlay (env : frame_env)
    (s : GstSunxifbsink) (format : GstVideoFormat)
  : Z * GstSunxifbsink * list event :=
  let '(s, tr) :=
    if layer_is_visible s then gst_sunxifbsink_hide_layer env s
    else (s, []) in
  (TRUE, set_overlay_format format s, tr).

End Sink.
Export Sink.

(** ** The presenters *)

Module Presenter.

(** [overlay_scanline_stride[0] / (GST_VIDEO_FORMAT_INFO_SCALE_WIDTH
    (video_info.finfo, 0, 8) * GST_VIDEO_INFO_COMP_PSTRIDE (&video_info, 0)
    / 8)], an [int]. *)
Definition stride_in_pixels (f : GstFramebufferSink) : Z :=
  Z.quot (overlay_scanline_stride f 0)
    (Z.quot (GST_VIDEO_FORMAT_INFO_SCALE_WIDTH (video_info f) 8
             * GST_VIDEO_INFO_COMP_PSTRIDE (video_info f)) 8).

(** [(unsigned long long) value << 32], the fixed-point form of the crop
    members. *)
Definition fixed32 (v : Z) : Z := u64 (Z.shiftl (u64 v) 32).

(** *** Frame buffer description of the planar formats

    Both planar presenters start with the same assignments, from
    [phymem_start] in [gst_sunxifbsink_show_memory_yuv_planar] and from
    [framebuffer_offset] in [gst_sunxifbsink_show_overlay_yuv_planar];
    [base] is that address. *)

(** Newer backend; the addresses are [unsigned long long], the sizes
    [unsigned int]. *)
Definition planar_fb_display2 (a : abi) (f : GstFramebufferSink)
    (format : GstVideoFormat) (base : Z) (c : luapi_layer_config)
  : luapi_layer_config :=
  let at_offset i := u64 (ulong a (base + overlay_plane_offset f i)) in
  if format_eqb format GST_VIDEO_FORMAT_Y444 then
    let c := assign (info_fb_addr 0) (u64 base) c in
    let c := assign (info_fb_addr 1) (at_offset 1) c in
    let c := assign (info_fb_addr 2) (at_offset 2) c in
    let c := assign (info_fb_size_width 0) (u32 (stride_in_pixels f)) c in
    let c := assign (info_fb_size_width 1) (u32 (stride_in_pixels f)) c in
    let c := assign (info_fb_size_width 2) (u32 (stride_in_pixels f)) c in
    let c := assign (info_fb_size_height 0) (u32 (videosink_height f)) c in
    let c := assign (info_fb_size_height 1) (u32 (videosink_height f)) c in
    let c := assign (info_fb_size_height 2) (u32 (videosink_height f)) c in
    assign_format DISP_FORMAT_YUV444_P c
  else if format_eqb format GST_VIDEO_FORMAT_NV12
          || format_eqb format GST_VIDEO_FORMAT_NV21 then
    let c :=
      if format_eqb format GST_VIDEO_FORMAT_NV12
      then assign_format DISP_FORMAT_YUV420_SP_UVUV c
      else assign_format DISP_FORMAT_YUV420_SP_VUVU c in
    let c := assign (info_fb_addr 0) (u64 base) c in
    let c := assign (info_fb_addr 1) (at_offset 1) c in
    let c := assign (info_fb_size_width 0) (u32 (stride_in_pixels f)) c in
    let c := assign (info_fb_size_width 1)
               (u32 (Z.quot (stride_in_pixels f) 2)) c in
    let c := assign (info_fb_size_height 1)
               (u32 (Z.quot (videosink_height f) 2)) c in
    assign (info_fb_size_height 2) (u32 (Z.quot (videosink_height f) 2)) c
  else
    let c := assign_format DISP_FORMAT_YUV420_P c in
    let c := assign (info_fb_addr 0) (u64 base) c in
    let c :=
      if format_eqb format GST_VIDEO_FORMAT_I420 then
        let c := assign (info_fb_addr 1) (at_offset 1) c in
        assign (info_fb_addr 2) (at_offset 2) c
      else (* GST_VIDEO_FORMAT_YV12 *)
        let c := assign (info_fb_addr 1) (at_offset 2) c in
        assign (info_fb_addr 2) (at_offset 1) c in
    let c := assign (info_fb_size_width 0) (u32 (stride_in_pixels f)) c in
    let c := assign (info_fb_size_height 0) (u32 (videosink_height f)) c in
    let c := assign (info_fb_size_width 1)
               (u32 (Z.quot (videosink_width f) 2)) c in
    let c := assign (info_fb_size_height 1)
               (u32 (Z.quot (videosink_height f) 2)) c in
    let c := assign (info_fb_size_width 2)
               (u32 (Z.quot (videosink_width f) 2)) c in
    assign (info_fb_size_height 2) (u32 (Z.quot (videosink_height f) 2)) c.

(** Legacy backend; the addresses and the one size are [unsigned int]. *)
Definition planar_fb_legacy (f : GstFramebufferSink)
    (format : GstVideoFormat) (base : Z) (c : luapi_layer_config)
  : luapi_layer_config :=
  let at_offset i := u32 (base + overlay_plane_offset f i) in
  if format_eqb format GST_VIDEO_FORMAT_Y444 then
    let c := assign (fb_addr 0) (u32 base) c in
    let c := assign (fb_addr 1) (at_offset 1) c in
    let c := assign (fb_addr 2) (at_offset 2) c in
    let c := assign fb_size_width (u32 (stride_in_pixels f)) c in
    let c := assign fb_size_height (u32 (videosink_height f)) c in
    assign_format DISP_FORMAT_YUV444_P c
  else if format_eqb format GST_VIDEO_FORMAT_NV12
          || format_eqb format GST_VIDEO_FORMAT_NV21 then
    let c := assign (fb_addr 0) (u32 base) c in
    let c := assign (fb_addr 1) (at_offset 1) c in
    let c := assign fb_size_width (u32 (stride_in_pixels f)) c in
    let c := assign fb_size_height
               (u32 (Z.quot (videosink_height f) 2)) c in
    if format_eqb format GST_VIDEO_FORMAT_NV12
    then assign_format DISP_FORMAT_YUV420_SP_UVUV c
    else assign_format DISP_FORMAT_YUV420_SP_VUVU c
  else
    let c := assign (fb_addr 0) (u32 base) c in
    let c :=
      if format_eqb format GST_VIDEO_FORMAT_I420 then
        let c := assign (fb_addr 1) (at_offset 1) c in
        assign (fb_addr 2) (at_offset 2) c
      else (* GST_VIDEO_FORMAT_YV12 *)
        let c := assign (fb_addr 1) (at_offset 2) c in
        assign (fb_addr 2) (at_offset 1) c in
    let c := assign fb_size_width (u32 (stride_in_pixels f)) c in
    let c := assign fb_size_height (u32 (videosink_height f)) c in
    assign_format DISP_FORMAT_YUV420_P c.

(** *** Layer description

    The assignments after "initialize layer info" are the same in the four
    presenters of a backend, up to the crop size. *)

(** Newer backend. *)
Definition layer_info_display2 (f : GstFramebufferSink)
    (s : GstSunxifbsink) (crop_width crop_height : Z)
    (c : luapi_layer_config) : luapi_layer_config :=
  let c := assign_mode LAYER_MODE_BUFFER c in
  let c := assign info_zorder 11 c in
  let c := assign info_alpha_mode 1 c in
  let c := assign info_alpha_value 255 c in
  let c := assign info_fb_crop_x 0 c in
  let c := assign info_fb_crop_y 0 c in
  let c := assign info_fb_crop_width (fixed32 crop_width) c in
  let c := assign info_fb_crop_height (fixed32 crop_height) c in
  let c := assign_color_space
             (if rect_h (video_rectangle f) <? 720
              then DISP_BT601 else DISP_BT709) c in
  let c := assign info_screen_win_x (rect_x (video_rectangle f)) c in
  let c := assign info_screen_win_y (rect_y (video_rectangle f)) c in
  let c := assign info_screen_win_width (rect_w (video_rectangle f)) c in
  let c := assign info_screen_win_height (rect_h (video_rectangle f)) c in
  let c := assign cfg_enable TRUE c in
  let c := assign cfg_layer_id (layer_id s) c in
  let c := assign cfg_channel (framebuffer_id s) c in
  let c := assign_flags DISP_BF_NORMAL c in
  assign_scan DISP_SCAN_PROGRESSIVE c.

(** Legacy backend. *)
Definition layer_info_legacy (f : GstFramebufferSink)
    (c : luapi_layer_config) : luapi_layer_config :=
  let c := assign fb_src_win_x 0 c in
  let c := assign fb_src_win_y 0 c in
  let c := assign fb_src_win_width (videosink_width f) c in
  let c := assign fb_src_win_height (videosink_height f) c in
  let c := assign screen_win_x (rect_x (video_rectangle f)) c in
  let c := assign screen_win_y (rect_y (video_rectangle f)) c in
  let c := assign screen_win_width (rect_w (video_rectangle f)) c in
  let c := assign screen_win_height (rect_h (video_rectangle f)) c in
  let c := assign cfg_alpha_mode 0 c in
  let c := assign fb_pre_multiply 0 c in
  let c := assign cfg_alpha_value 255 c in
  let c := assign cfg_zorder 3 c in
  let c := assign_mode DISP_LAYER_WORK_MODE_SCALER c in
  assign cfg_pipe 0 c.

(** The end of every presenter: [DispSetLayerConfig], and on a negative
    return [return FALSE], otherwise [gst_sunxifbsink_show_layer] and
    [return GST_FLOW_OK]. *)
Definition commit_and_show (env : frame_env) (s : GstSunxifbsink)
    (c : luapi_layer_config) : Z * GstSunxifbsink * list event :=
  let r := set_layer_config_ret env in
  let call := DispSetLayerConfig (framebuffer_id s) (layer_id s) c r in
  if r <? 0 then (FALSE, s, [call])
  else
    let '(_, s, tr) := gst_sunxifbsink_show_layer env s in
    (GST_FLOW_OK, s, call :: tr).

(** *** Rotation buffers *)

(** The lazy allocation of the two rotation buffers:
    [inl] when the function goes on, [inr] when it returns
    [GST_FLOW_ERROR]. *)
Definition rotation_buffers (env : frame_env) (s : GstSunxifbsink)
    (width_align height_align : Z)
  : GstSunxifbsink * list event + GstSunxifbsink * list event :=
  if (rotate_addr_phy s 0 =? 0) && (rotate_addr_phy s 1 =? 0) then
    let buffer_len := u32 (u32 (width_align * height_align) * 3) / 2 in
    let p0 := palloc_first env in
    let s := set_rotate_addr_phy0 p0 s in
    if p0 =? 0 then inr (s, [SunxiMemPalloc buffer_len p0])
    else
      let p1 := palloc_second env in
      let s := set_rotate_addr_phy1 p1 s in
      if p1 =? 0 then
        inr (s, [SunxiMemPalloc buffer_len p0; SunxiMemPalloc buffer_len p1;
                 SunxiMemPfree p0])
      else
        inl (s, [SunxiMemPalloc buffer_len p0; SunxiMemPalloc buffer_len p1;
                 SunxiMemFlushCache p0 buffer_len;
                 SunxiMemFlushCache p1 buffer_len])
  else inl (s, []).

(** [(++m) % 2]: the incremented counter and the index. *)
Definition next_m (m : Z) : Z := s32 (m + 1).
Definition parity (m : Z) : Z := Z.rem m 2.

End Presenter.
Export Presenter.

(** ** The zero-copy planar presenter *)

Module ShowMemory.

(** [memset (&trans_info, 0, sizeof (tr_info))]. *)
Definition tr_frame_zero : tr_frame :=
  {| fmt := None; laddr0 := 0; laddr1 := 0; laddr2 := 0;
     pitch0 := 0; pitch1 := 0; pitch2 := 0;
     height0 := 0; height1 := 0; height2 := 0 |}.

Definition tr_rect_zero : tr_rect :=
  {| tr_x := 0; tr_y := 0; tr_w := 0; tr_h := 0 |}.

Definition trans_info_zero : tr_info :=
  {| mode := 0; src_frame := tr_frame_zero; src_rect := tr_rect_zero;
     dst_frame := tr_frame_zero; dst_rect := tr_rect_zero |}.

(** The job the presenter fills in, from [trans_info.mode = rt_mode] to
    the end of the [if (trans_info.mode == TR_ROT_180)] statement.
    [src0], [src1] and [src2] are the source plane addresses before their
    cast to [unsigned long]; [width] and [height] are the size of plane 0
    in the configuration, [h1] and [h2] the heights whose alignment gives
    [src_frame.height[1]] and [[2]]; [dst_base] is the physical address
    of the destination buffer. The plane addresses are [unsigned long] as
    the casts of the source have them, pitches, heights and rectangles
    [unsigned int]. *)
Definition rotation_job (a : abi) (rt_mode src0 src1 src2
    width height h1 h2 rect_width rect_height dst_base : Z) : tr_info :=
  let width_align := ALIGN_32B width in
  let height_align := ALIGN_32B height in
  let src :=
    {| fmt := Some TR_FORMAT_YUV420_P;
       laddr0 := ulong a src0;
       laddr1 := ulong a src1;
       laddr2 := ulong a src2;
       pitch0 := ALIGN_32B width;
       pitch1 := ALIGN_32B width / 2;
       pitch2 := ALIGN_32B width / 2;
       height0 := ALIGN_32B height;
       height1 := ALIGN_32B h1 / 2;
       height2 := ALIGN_32B h2 / 2 |} in
  let srect :=
    {| tr_x := 0; tr_y := 0; tr_w := rect_width; tr_h := rect_height |} in
  let dst_laddr0 := ulong a dst_base in
  let dst_laddr1 := ulong a (dst_laddr0 + u32 (width_align * height_align)) in
  let dst_laddr2 :=
    ulong a (dst_laddr0 + u32 (u32 (width_align * height_align) * 5) / 4) in
  if rt_mode =? TR_ROT_180 then
    {| mode := rt_mode; src_frame := src; src_rect := srect;
       dst_frame :=
         {| fmt := Some TR_FORMAT_YUV420_P;
            laddr0 := dst_laddr0; laddr1 := dst_laddr1;
            laddr2 := dst_laddr2;
            pitch0 := width_align;
            pitch1 := width_align / 2;
            pitch2 := width_align / 2;
            height0 := height_align;
            height1 := height_align / 2;
            height2 := height_align / 2 |};
       dst_rect :=
         {| tr_x := 0; tr_y := 0;
            tr_w := width_align; tr_h := height_align |} |}
  else
    {| mode := rt_mode; src_frame := src; src_rect := srect;
       dst_frame :=
         {| fmt := Some TR_FORMAT_YUV420_P;
            laddr0 := dst_laddr0; laddr1 := dst_laddr1;
            laddr2 := dst_laddr2;
            pitch0 := height_align;
            pitch1 := height_align / 2;
            pitch2 := height_align / 2;
            height0 := width_align;
            height1 := width_align / 2;
            height2 := width_align / 2 |};
       dst_rect :=
         {| tr_x := 0; tr_y := 0;
            tr_w := height_align; tr_h := width_align |} |}.

Definition set_show_memory_m (m : Z) (g : statics) : statics :=
  {| show_memory_m := m; show_overlay_m := show_overlay_m g;
     reset_video_rectangle_flag := reset_video_rectangle_flag g |}.

(** How the [if (rotate_enable)] block ends. *)
Inductive rotation :=
| NoMemory (s : GstSunxifbsink) (tr : list event)
    (* [return GST_FLOW_ERROR]: a rotation buffer could not be allocated *)
| Unfinished (tr : list event)
    (* [hwRotateVideoPicture] has not returned when the script ends *)
| Rotated (c : luapi_layer_config) (trans_info : tr_info)
    (s : GstSunxifbsink) (g : statics) (tr : list event).

(** The size of plane 0 in the configuration filled so far:
    [info.fb.size[0]] in the newer backend, [fb.size] in the legacy one. *)
Definition luma_width (b : build) (c : luapi_layer_config) : Z :=
  if SUNXI_DISPLAY2 b then get c (info_fb_size_width 0)
  else get c fb_size_width.

Definition luma_height (b : build) (c : luapi_layer_config) : Z :=
  if SUNXI_DISPLAY2 b then get c (info_fb_size_height 0)
  else get c fb_size_height.

(** The job of a frame: the source planes are read from the configuration
    filled so far ([phymem_start] for plane 0), the destination is the
    rotation buffer of index [(++m) % 2], [m] being the incremented
    counter. *)
Definition job_of_config (b : build) (env : frame_env)
    (s : GstSunxifbsink) (c : luapi_layer_config)
    (phymem_start rt_mode m : Z) : tr_info :=
  let d2 := SUNXI_DISPLAY2 b in
  let h1 := if d2 then get c (info_fb_size_height 1)
            else get c fb_size_height in
  let h2 := if d2 then get c (info_fb_size_height 2)
            else get c fb_size_height in
  let src0 := if d2 then phymem_start else u32 phymem_start in
  let src1 := if d2 then get c (info_fb_addr 1) else get c (fb_addr 1) in
  let src2 := if d2 then get c (info_fb_addr 2) else get c (fb_addr 2) in
  rotation_job (target b) rt_mode src0 src1 src2
    (luma_width b c) (luma_height b c) h1 h2
    (actual_width env) (actual_height env)
    (phys_of env (rotate_addr_phy s (parity m))).

(** The assignments after the call of [hwRotateVideoPicture]: plane 0 is
    given the physical address of [rotate_addr_phy[0]], planes 1 and 2
    the addresses of the job's destination, and the sizes the
    destination's pitches and heights. *)
Definition point_at_rotated (b : build) (env : frame_env)
    (s : GstSunxifbsink) (trans_info : tr_info)
    (c : luapi_layer_config) : luapi_layer_config :=
  let dst := dst_frame trans_info in
  let slot0 := phys_of env (rotate_addr_phy s 0) in
  if SUNXI_DISPLAY2 b then
    let c := assign (info_fb_addr 0) (u64 (ulong (target b) slot0)) c in
    let c := assign (info_fb_addr 1) (u64 (laddr1 dst)) c in
    let c := assign (info_fb_addr 2) (u64 (laddr2 dst)) c in
    let c := assign (info_fb_size_width 0) (pitch0 dst) c in
    let c := assign (info_fb_size_width 1) (pitch1 dst) c in
    let c := assign (info_fb_size_width 2) (pitch2 dst) c in
    let c := assign (info_fb_size_height 0) (height0 dst) c in
    let c := assign (info_fb_size_height 1) (height1 dst) c in
    assign (info_fb_size_height 2) (height2 dst) c
  else
    let c := assign (fb_addr 0) (u32 slot0) c in
    let c := assign (fb_addr 1) (u32 (laddr1 dst)) c in
    let c := assign (fb_addr 2) (u32 (laddr2 dst)) c in
    let c := assign fb_size_width (pitch0 dst) c in
    assign fb_size_height (height0 dst) c.

(** The calls of [if (sunxifbsink->fd_transform > 0) hwRotateVideoPicture
    (sunxifbsink, &trans_info);] and whether the statement has completed.
    The value returned by the function is not looked at; without a
    transform device no job is submitted. *)
Definition submit_job (env : frame_env) (s : GstSunxifbsink)
    (trans_info : tr_info) : bool * list event :=
  if 0 <? fd_transform s then
    let '(r, _, tr) :=
      hwRotateVideoPicture (transform_channel s) trans_info
        (tr_script env) in
    (match r with Some _ => true | None => false end, tr)
  else (true, []).

(** The [if (rotate_enable)] block, in either backend. *)
Definition rotate_block (b : build) (env : frame_env) (g : statics)
    (s : GstSunxifbsink) (c : luapi_layer_config)
    (phymem_start rt_mode : Z) : rotation :=
  match rotation_buffers env s (ALIGN_32B (luma_width b c))
          (ALIGN_32B (luma_height b c)) with
  | inr (s, tr) => NoMemory s tr
  | inl (s, tr) =>
      let m := next_m (show_memory_m g) in
      let g := set_show_memory_m m g in
      let trans_info := job_of_config b env s c phymem_start rt_mode m in
      let '(returned, tr_rot) := submit_job env s trans_info in
      if negb returned then Unfinished (tr ++ tr_rot)
      else
        Rotated (point_at_rotated b env s trans_info c) trans_info s g
          (tr ++ tr_rot)
  end.

(** The frame buffer description of the zero-copy presenter, from the
    physical address of the mapped memory; the legacy backend starts from
    the configuration [DispGetLayerConfig] reads. *)
Definition memory_fb (b : build) (env : frame_env) (s : GstSunxifbsink)
    (format : GstVideoFormat) (mem : GstMemory) : luapi_layer_config :=
  let phymem_start := phys_of env (mapinfo_data mem) in
  if SUNXI_DISPLAY2 b
  then planar_fb_display2 (target b) (framebuffersink s) format
         phymem_start zeroed
  else planar_fb_legacy (framebuffersink s) format phymem_start
         (layer_config_read env).

(** The calls made for it. *)
Definition memory_fb_calls (b : build) (s : GstSunxifbsink) : list event :=
  if SUNXI_DISPLAY2 b then []
  else [DispGetLayerConfig (framebuffer_id s) (layer_id s)
          (framebuffer_id s)].

(** The layer description of the zero-copy presenter: in the newer
    backend the crop is the size [SunxiMemGetActualSize] reported,
    transposed when the frame was rotated by 90 or 270 degrees. *)
Definition memory_layer_info (b : build) (env : frame_env)
    (s : GstSunxifbsink) (rotate_enable : bool) (trans_info : tr_info)
    (c : luapi_layer_config) : luapi_layer_config :=
  let f := framebuffersink s in
  let rect_width := actual_width env in
  let rect_height := actual_height env in
  if SUNXI_DISPLAY2 b then
    if rotate_enable
       && ((mode trans_info =? TR_ROT_90)
           || (mode trans_info =? TR_ROT_270))
    then layer_info_display2 f s rect_height rect_width c
    else layer_info_display2 f s rect_width rect_height c
  else layer_info_legacy f c.

(** [gst_sunxifbsink_show_memory_yuv_planar]. [None]: the rotation has
    not completed within the values [tr_script] supplies. *)
Definition gst_sunxifbsink_show_memory_yuv_planar (b : build)
    (env : frame_env) (g : statics) (s : GstSunxifbsink)
    (format : GstVideoFormat) (mem : GstMemory) : option outcome :=
  let f := framebuffersink s in
  let rotate_enable := 0 <? rotate_angle_property f in
  let rt_mode := rotate_angle_property f in
  let phymem_start := phys_of env (mapinfo_data mem) in
  (* the frame buffer description *)
  let c := memory_fb b env s format mem in
  let rotate_enable :=
    if SUNXI_DISPLAY2 b && format_eqb format GST_VIDEO_FORMAT_Y444
    then false
    else rotate_enable in
  (* the rotation *)
  let rot :=
    if rotate_enable then rotate_block b env g s c phymem_start rt_mode
    else Rotated c trans_info_zero s g [] in
  match rot with
  | NoMemory s tr =>
      Some {| result := GST_FLOW_ERROR; sink_after := s;
              statics_after := g; calls := memory_fb_calls b s ++ tr |}
  | Unfinished _ => None
  | Rotated c trans_info s' g tr =>
      (* the layer description and the commit *)
      let c := memory_layer_info b env s' rotate_enable trans_info c in
      let '(r, s', tr_commit) := commit_and_show env s' c in
      Some {| result := r; sink_after := s'; statics_after := g;
              calls := memory_fb_calls b s ++ tr ++ tr_commit |}
  end.

End ShowMemory.
Export ShowMemory.

(** ** The presenters of frames addressed by offset *)

Module ShowOverlay.

Definition set_show_overlay_m (m : Z) (g : statics) : statics :=
  {| show_memory_m := show_memory_m g; show_overlay_m := m;
     reset_video_rectangle_flag := reset_video_rectangle_flag g |}.

Definition set_reset_video_rectangle_flag (v : bool) (g : statics)
  : statics :=
  {| show_memory_m := show_memory_m g; show_overlay_m := show_overlay_m g;
     reset_video_rectangle_flag := v |}.

(** [memset (&blit, 0, sizeof (g2d_blt_h))]. *)
Definition g2d_image_zero : g2d_image_enh :=
  {| g2d_format := None;
     g2d_laddr0 := 0; g2d_laddr1 := 0; g2d_laddr2 := 0;
     g2d_width := 0; g2d_height := 0;
     clip_rect_w := 0; clip_rect_h := 0 |}.

(** [switch (nRotateDegree)]. *)
Definition flag_of_degree (nRotateDegree : Z) : g2d_blt_flags_h :=
  if nRotateDegree =? 0 then G2D_ROT_0
  else if nRotateDegree =? 1 then G2D_ROT_90
  else if nRotateDegree =? 2 then G2D_ROT_180
  else if nRotateDegree =? 3 then G2D_ROT_270
  else if nRotateDegree =? 4 then G2D_ROT_H
  else if nRotateDegree =? 6 then G2D_ROT_V
  else G2D_BLT_NONE_H.

(** How the [#ifdef __SUNXI_G2D_ROTATE__ if (rotate_enable)] block ends. *)
Inductive blitting :=
| BlitFailed (s : GstSunxifbsink) (g : statics) (tr : list event)
    (* [return GST_FLOW_ERROR] *)
| Blitted (c : luapi_layer_config) (blit : g2d_blt_h)
    (s : GstSunxifbsink) (g : statics) (tr : list event).

(** The block-transform rotation of
    [gst_sunxifbsink_show_overlay_yuv_planar] (newer backend only). *)
Definition g2d_block (a : abi) (env : frame_env) (g : statics)
    (s : GstSunxifbsink) (c : luapi_layer_config)
    (format : GstVideoFormat) (nRotateDegree : Z) : blitting :=
  let width := get c (info_fb_size_width 0) in
  let height := get c (info_fb_size_height 0) in
  let width_align := ALIGN_32B width in
  let height_align := ALIGN_32B height in
  match rotation_buffers env s width_align height_align with
  | inr (s, tr) => BlitFailed s g tr
  | inl (s, tr) =>
      let m := next_m (show_overlay_m g) in
      let dst_laddr0 :=
        ulong a (phys_of env (rotate_addr_phy s (parity m))) in
      let addresses :=
        if format_eqb format GST_VIDEO_FORMAT_YV12 then
          Some (G2D_FORMAT_YUV420_PLANAR,
                ulong a (get c (info_fb_addr 2)),
                ulong a (dst_laddr0
                         + u32 (u32 (width_align * height_align) * 5) / 4))
        else if format_eqb format GST_VIDEO_FORMAT_NV21 then
          Some (G2D_FORMAT_YUV420UVC_U1V1U0V0, 0, 0)
        else None in
      match addresses with
      | None => BlitFailed s g tr
      | Some (g2d_fmt, src_laddr2, dst_laddr2) =>
          let g := set_show_overlay_m m g in
          let flag := flag_of_degree nRotateDegree in
          let src :=
            {| g2d_format := Some g2d_fmt;
               g2d_laddr0 := ulong a (get c (info_fb_addr 0));
               g2d_laddr1 := ulong a (get c (info_fb_addr 1));
               g2d_laddr2 := src_laddr2;
               g2d_width := ALIGN_32B width;
               g2d_height := ALIGN_32B height;
               clip_rect_w := width;
               clip_rect_h := height |} in
          let dst :=
            {| g2d_format := Some g2d_fmt;
               g2d_laddr0 := dst_laddr0;
               g2d_laddr1 :=
                 ulong a (dst_laddr0 + u32 (width_align * height_align));
               g2d_laddr2 := dst_laddr2;
               g2d_width := if is_rot_90_or_270 flag
                            then height_align else width_align;
               g2d_height := if is_rot_90_or_270 flag
                             then width_align else height_align;
               clip_rect_w := if is_rot_90_or_270 flag
                              then height else width;
               clip_rect_h := if is_rot_90_or_270 flag
                              then width else height |} in
          let blit :=
            {| flag_h := flag; src_image_h := src; dst_image_h := dst |} in
          let r := g2d_bitblt_ret env in
          let tr := tr ++ [G2D_CMD_BITBLT_H blit r] in
          if r <? 0 then BlitFailed s g tr
          else
            let c := assign (info_fb_addr 0) (u64 (g2d_laddr0 dst)) c in
            let c := assign (info_fb_addr 1) (u64 (g2d_laddr1 dst)) c in
            let c := assign (info_fb_addr 2) (u64 (g2d_laddr2 dst)) c in
            let c := assign (info_fb_size_width 0) (g2d_width dst) c in
            let c := assign (info_fb_size_height 0) (g2d_height dst) c in
            let c := assign (info_fb_size_width 1) (g2d_width dst / 2) c in
            let c := assign (info_fb_size_height 1)
                       (g2d_height dst / 2) c in
            let c := assign (info_fb_size_width 2) (g2d_width dst / 2) c in
            let c := assign (info_fb_size_height 2)
                       (g2d_height dst / 2) c in
            Blitted c blit s g tr
      end
  end.

Definition outcome_of (g : statics)
    (r : Z * GstSunxifbsink * list event) (before : list event) : outcome :=
  let '(ret, s, tr) := r in
  {| result := ret; sink_after := s; statics_after := g;
     calls := before ++ tr |}.

(** [gst_sunxifbsink_show_overlay_yuv_planar]. *)
Definition gst_sunxifbsink_show_overlay_yuv_planar (b : build)
    (env : frame_env) (g : statics) (s : GstSunxifbsink)
    (framebuffer_offset : Z) (format : GstVideoFormat) : outcome :=
  let f := framebuffersink s in
  let nRotateDegree := rotate_angle_property f in
  let rotate_enable := 0 <? nRotateDegree in
  if SUNXI_DISPLAY2 b then
    let c := planar_fb_display2 (target b) f format framebuffer_offset
               zeroed in
    let g2d := SUNXI_G2D_ROTATE b && rotate_enable in
    let blt :=
      if g2d then g2d_block (target b) env g s c format nRotateDegree
      else Blitted c {| flag_h := G2D_BLT_NONE_H;
                        src_image_h := g2d_image_zero;
                        dst_image_h := g2d_image_zero |} s g [] in
    match blt with
    | BlitFailed s g tr =>
        {| result := GST_FLOW_ERROR; sink_after := s;
           statics_after := g; calls := tr |}
    | Blitted c blit s g tr =>
        if g2d && is_rot_90_or_270 (flag_h blit) then
          let '(f, g) :=
            if reset_video_rectangle_flag g then
              let screen_video_rectangle :=
                {| rect_x := 0; rect_y := 0;
                   rect_w := info_width (screen_info f);
                   rect_h := info_height (screen_info f) |} in
              let dst_video_rectangle :=
                {| rect_x := 0; rect_y := 0;
                   rect_w := g2d_width (dst_image_h blit);
                   rect_h := g2d_height (dst_image_h blit) |} in
              (set_video_rectangle
                 (gst_video_sink_center_rect dst_video_rectangle
                    screen_video_rectangle) f,
               set_reset_video_rectangle_flag false g)
            else (f, g) in
          let s := set_framebuffersink f s in
          let c := layer_info_display2 f s (videosink_height f)
                     (videosink_width f) c in
          outcome_of g (commit_and_show env s c) tr
        else
          let c := layer_info_display2 f s (videosink_width f)
                     (videosink_height f) c in
          outcome_of g (commit_and_show env s c) tr
    end
  else
    let c := planar_fb_legacy f format framebuffer_offset
               (layer_config_read env) in
    let c := layer_info_legacy f c in
    outcome_of g (commit_and_show env s c)
      [DispGetLayerConfig (framebuffer_id s) (layer_id s)
         (framebuffer_id s)].

(** [gst_sunxifbsink_show_overlay_yuv_packed]. *)
Definition gst_sunxifbsink_show_overlay_yuv_packed (b : build)
    (env : frame_env) (g : statics) (s : GstSunxifbsink)
    (framebuffer_offset : Z) (format : GstVideoFormat) : outcome :=
  let f := framebuffersink s in
  if SUNXI_DISPLAY2 b then
    let c := assign (info_fb_addr 0) (u64 framebuffer_offset) zeroed in
    let c := assign (info_fb_size_height 0) (u32 (videosink_height f)) c in
    let c := assign (info_fb_size_width 0) (u32 (stride_in_pixels f)) c in
    let c :=
      if format_eqb format GST_VIDEO_FORMAT_AYUV
      then assign_format DISP_FORMAT_YUV444_P c
      else assign_format DISP_FORMAT_YUV422_P c in
    let c := layer_info_display2 f s (videosink_width f)
               (videosink_height f) c in
    outcome_of g (commit_and_show env s c) []
  else
    let c := assign (fb_addr 0) (u32 framebuffer_offset)
               (layer_config_read env) in
    let c := assign fb_size_width (u32 (stride_in_pixels f)) c in
    let c := assign fb_size_height (u32 (videosink_height f)) c in
    let c :=
      if format_eqb format GST_VIDEO_FORMAT_AYUV
      then assign_format DISP_FORMAT_YUV444_P c
      else assign_format DISP_FORMAT_YUV422_P c in
    let c := layer_info_legacy f c in
    outcome_of g (commit_and_show env s c)
      [DispGetLayerConfig (framebuffer_id s) (layer_id s)
         (framebuffer_id s)].

(** [gst_sunxifbsink_show_overlay_bgrx32]. In the newer backend the size
    is written at index [framebuffer_id] of [info.fb.size]. *)
Definition gst_sunxifbsink_show_overlay_bgrx32 (b : build)
    (env : frame_env) (g : statics) (s : GstSunxifbsink)
    (framebuffer_offset : Z) : outcome :=
  let f := framebuffersink s in
  if SUNXI_DISPLAY2 b then
    let c := assign (info_fb_addr 0) (u64 framebuffer_offset) zeroed in
    let c := assign (info_fb_size_width (framebuffer_id s))
               (u32 (Z.shiftr (overlay_scanline_stride f 0) 2)) c in
    let c := assign (info_fb_size_height (framebuffer_id s))
               (u32 (videosink_height f)) c in
    let c := assign_format DISP_FORMAT_ARGB_8888 c in
    let c := layer_info_display2 f s (videosink_width f)
               (videosink_height f) c in
    outcome_of g (commit_and_show env s c) []
  else
    let c := assign (fb_addr 0) (u32 framebuffer_offset)
               (layer_config_read env) in
    let c := assign fb_size_width
               (u32 (Z.shiftr (overlay_scanline_stride f 0) 2)) c in
    let c := assign fb_size_height (u32 (videosink_height f)) c in
    let c := assign_format DISP_FORMAT_ARGB_8888 c in
    let c := layer_info_legacy f c in
    outcome_of g (commit_and_show env s c)
      [DispGetLayerConfig (framebuffer_id s) (layer_id s)
         (framebuffer_id s)].

End ShowOverlay.
Export ShowOverlay.

(** ** The dispatcher *)

Module Dispatch.

(** [gst_sunxifbsink_show_overlay]. [None]: the rotation of the zero-copy
    presenter has not completed within the values supplied. *)
Definition gst_sunxifbsink_show_overlay (b : build) (env : frame_env)
    (g : statics) (s : GstSunxifbsink) (memory : GstMemory)
  : option outcome :=
  let s := set_sBuffer (private_buffer memory) s in
  let framebuffer_offset := pAddrPhyY (sBuffer s) in
  let framebuffer_vir := pAddrVirY (sBuffer s) in
  let f := framebuffersink s in
  let res := GST_FLOW_ERROR in
  if physically_contiguous memory then
    match gst_sunxifbsink_show_memory_yuv_planar b env g s
            (overlay_format s) memory with
    | None => None
    | Some o =>
        Some {| result := res; sink_after := sink_after o;
                statics_after := statics_after o; calls := calls o |}
    end
  else
    let '(framebuffer_offset, tr) :=
      if max_video_memory_property f <=? 0
      then (ulong (target b) (framebuffer_offset + fixinfo_smem_start f),
            [])
      else (framebuffer_offset,
            [SunxiMemFlushCache framebuffer_vir
               (info_size (video_info f))]) in
    let fmt := overlay_format s in
    if format_eqb fmt GST_VIDEO_FORMAT_I420
       || format_eqb fmt GST_VIDEO_FORMAT_YV12
       || format_eqb fmt GST_VIDEO_FORMAT_Y444
       || format_eqb fmt GST_VIDEO_FORMAT_NV12
       || format_eqb fmt GST_VIDEO_FORMAT_NV21 then
      let o := gst_sunxifbsink_show_overlay_yuv_planar b env g s
                 framebuffer_offset fmt in
      Some {| result := result o; sink_after := sink_after o;
              statics_after := statics_after o; calls := tr ++ calls o |}
    else if format_eqb fmt GST_VIDEO_FORMAT_YUY2
            || format_eqb fmt GST_VIDEO_FORMAT_UYVY
            || format_eqb fmt GST_VIDEO_FORMAT_AYUV then
      let o := gst_sunxifbsink_show_overlay_yuv_packed b env g s
                 framebuffer_offset fmt in
      Some {| result := result o; sink_after := sink_after o;
              statics_after := statics_after o; calls := tr ++ calls o |}
    else if format_eqb fmt GST_VIDEO_FORMAT_BGRx then
      let o := gst_sunxifbsink_show_overlay_bgrx32 b env g s
                 framebuffer_offset in
      Some {| result := result o; sink_after := sink_after o;
              statics_after := statics_after o; calls := tr ++ calls o |}
    else
      Some {| result := res; sink_after := s; statics_after := g;
              calls := tr |}.

End Dispatch.
Export Dispatch.

(** ** The rotation protocol in the words of the specification *)

Module Protocol.

Section Job.

Variable channel : Z.
Variable info : tr_info.

(** A polling phase and the status that ends it: while the query
    reports busy (1) the function sleeps a millisecond and polls again;
    the first status other than busy ends the phase. *)
Inductive polling : list event -> Z -> Prop :=
| polling_ends status :
    status <> 1 ->
    polling [TR_QUERY channel status] status
| polling_busy tr status :
    polling tr status ->
    polling (TR_QUERY channel 1 :: usleep 1000 :: tr) status.

(** The calls of one rotation job and the value returned:
    - a [TR_COMMIT] that fails ends the job with -1;
    - after a [TR_COMMIT] that succeeds, and one [TR_QUERY] whose value
      is dropped, a polling phase that ends with a status other than
      timeout (-1) ends the job with that status;
    - a polling phase that ends with timeout is followed by the whole
      protocol again, with the same descriptor. *)
Inductive job_protocol : list event -> Z -> Prop :=
| job_commit_fails c :
    c <> 0 ->
    job_protocol [TR_COMMIT channel info c] (-1)
| job_completes q p status :
    polling p status ->
    status <> -1 ->
    job_protocol
      (TR_COMMIT channel info 0 :: TR_QUERY channel q :: p) status
| job_times_out q p rest r :
    polling p (-1) ->
    job_protocol rest r ->
    job_protocol
      (TR_COMMIT channel info 0 :: TR_QUERY channel q :: p ++ rest) r.

(** What the calls made from a place look like once the function has
    returned. *)
Definition from_poll (tr : list event) (r : Z) : Prop :=
  (polling tr r /\ r <> -1) \/
  (exists p rest,
      tr = p ++ rest /\ polling p (-1) /\ job_protocol rest r).

Definition from_place (pc : tr_pc) (tr : list event) (r : Z) : Prop :=
  match pc with
  | AtSetup => job_protocol tr r
  | AtFirstQuery =>
      exists q tr', tr = TR_QUERY channel q :: tr' /\ from_poll tr' r
  | AtPoll => from_poll tr r
  | Returned r' => tr = [] /\ r = r'
  end.

(** The statuses the source documents for [TR_QUERY]
    ("0 : suceef; 1:busy ; -1:timeOut"). *)
Definition documented_status (st : Z) : Prop :=
  st = 0 \/ st = 1 \/ st = -1.

Definition queries_documented (tr : list event) : Prop :=
  forall ch st, In (TR_QUERY ch st) tr -> documented_status st.

(** The last call is a [TR_COMMIT] of the descriptor that failed. *)
Definition ends_with_failed_commit (tr : list event) : Prop :=
  exists before c, tr = before ++ [TR_COMMIT channel info c] /\ c <> 0.

(** One round against the device: the values it returns when the commit
    succeeds, the first query answers [q], [busy] polls answer busy and
    the last poll answers [status]; and the calls of that round. *)
Definition round_script (q : Z) (busy : nat) (status : Z) : list Z :=
  0 :: q :: repeat 1 busy ++ [status].

Definition round_calls (q : Z) (busy : nat) (status : Z) : list event :=
  TR_COMMIT channel info 0 :: TR_QUERY channel q
    :: concat (repeat [TR_QUERY channel 1; usleep 1000] busy)
    ++ [TR_QUERY channel status].

(** Rounds that all end in a timeout; a round is given by the answer to
    its first query and its number of busy polls. *)
Definition timed_out_script (rounds : list (Z * nat)) : list Z :=
  concat (map (fun r => round_script (fst r) (snd r) (-1)) rounds).

Definition timed_out_calls (rounds : list (Z * nat)) : list event :=
  concat (map (fun r => round_calls (fst r) (snd r) (-1)) rounds).

End Job.

(** The number of [TR_COMMIT]s among the calls. *)
Definition commits (tr : list event) : nat :=
  length (filter (fun e => match e with TR_COMMIT _ _ _ => true
                                      | _ => false end) tr).

End Protocol.
Export Protocol.

(** ** Observing a presentation *)

Module Observe.

(** The configurations handed to [DispSetLayerConfig], in order. *)
Fixpoint committed (tr : list event) : list luapi_layer_config :=
  match tr with
  | [] => []
  | DispSetLayerConfig _ _ c _ :: tr => c :: committed tr
  | _ :: tr => committed tr
  end.

(** Whether [DispSetLayerEnable] is among the calls. *)
Definition is_layer_enable (e : event) : bool :=
  match e with DispSetLayerEnable _ _ _ _ _ => true | _ => false end.

(** The job of the first [TR_COMMIT] among the calls, if there is one. *)
Fixpoint first_job (tr : list event) : option tr_info :=
  match tr with
  | [] => None
  | TR_COMMIT _ info _ :: _ => Some info
  | _ :: tr => first_job tr
  end.

(** The blit of the first [G2D_CMD_BITBLT_H] among the calls. *)
Fixpoint first_blit (tr : list event) : option g2d_blt_h :=
  match tr with
  | [] => None
  | G2D_CMD_BITBLT_H blit _ :: _ => Some blit
  | _ :: tr => first_blit tr
  end.

(** The address of plane [i] in a configuration of the given backend. *)
Definition plane_address (b : build) (c : luapi_layer_config) (i : Z) : Z :=
  if SUNXI_DISPLAY2 b then get c (info_fb_addr i) else get c (fb_addr i).

(** The height of the destination rectangle in a configuration. *)
Definition screen_height (b : build) (c : luapi_layer_config) : Z :=
  if SUNXI_DISPLAY2 b then get c info_screen_win_height
  else get c screen_win_height.

(** A pointer stored in an address member of the given backend:
    [(unsigned long long)] of a pointer in the newer one,
    [(unsigned int)] in the legacy one. *)
Definition address_of_pointer (b : build) (p : Z) : Z :=
  if SUNXI_DISPLAY2 b then u64 (ulong (target b) p) else u32 p.

(** An [unsigned long] stored in an address member. *)
Definition address_of_ulong (b : build) (v : Z) : Z :=
  if SUNXI_DISPLAY2 b then u64 v else u32 v.

(** Whether the zero-copy presenter rotates a frame: the rotate-angle
    property is positive and the newer backend is not given Y444. *)
Definition memory_rotates (b : build) (s : GstSunxifbsink)
    (format : GstVideoFormat) : bool :=
  (0 <? rotate_angle_property (framebuffersink s))
  && negb (SUNXI_DISPLAY2 b && format_eqb format GST_VIDEO_FORMAT_Y444).

(** A frame: the answers of the devices while it is presented, its format
    and its memory. *)
Definition frame : Type := frame_env * GstVideoFormat * GstMemory.

(** Frames presented one after the other by the zero-copy presenter, each
    starting from the sink and the statics the one before left. *)
Fixpoint show_memory_frames (b : build) (frames : list frame)
    (g : statics) (s : GstSunxifbsink)
  : option (list (frame_env * outcome)) :=
  match frames with
  | [] => Some []
  | (env, format, mem) :: frames =>
      match gst_sunxifbsink_show_memory_yuv_planar b env g s format mem with
      | None => None
      | Some o =>
          match show_memory_frames b frames (statics_after o)
                  (sink_after o) with
          | None => None
          | Some os => Some ((env, o) :: os)
          end
      end
  end.

(** The same for the planar presenter of frames addressed by offset. *)
Fixpoint show_overlay_frames (b : build)
    (frames : list (frame_env * GstVideoFormat * Z))
    (g : statics) (s : GstSunxifbsink) : list (frame_env * outcome) :=
  match frames with
  | [] => []
  | (env, format, framebuffer_offset) :: frames =>
      let o := gst_sunxifbsink_show_overlay_yuv_planar b env g s
                 framebuffer_offset format in
      (env, o) :: show_overlay_frames b frames (statics_after o)
                    (sink_after o)
  end.

(** Slot indices that strictly alternate between 0 and 1. *)
Fixpoint alternating (ps : list Z) : Prop :=
  match ps with
  | [] => True
  | p :: rest =>
      (p = 0 \/ p = 1)
      /\ match rest with [] => True | q :: _ => q = 1 - p end
      /\ alternating rest
  end.

(** [jobs_target a os ps]: the presentations [os] that submitted a job
    did so, in order, with the destination base addresses of the rotation
    buffers of indices [ps]. *)
Inductive jobs_target (a : abi)
  : list (frame_env * outcome) -> list Z -> Prop :=
| jobs_target_nil : jobs_target a [] []
| jobs_target_none env o os ps :
    first_job (calls o) = None ->
    jobs_target a os ps ->
    jobs_target a ((env, o) :: os) ps
| jobs_target_job env o os job p ps :
    first_job (calls o) = Some job ->
    laddr0 (dst_frame job)
    = ulong a (phys_of env (rotate_addr_phy (sink_after o) p)) ->
    jobs_target a os ps ->
    jobs_target a ((env, o) :: os) (p :: ps).

(** The same for the blits of the block-transform engine. *)
Inductive blits_target (a : abi)
  : list (frame_env * outcome) -> list Z -> Prop :=
| blits_target_nil : blits_target a [] []
| blits_target_none env o os ps :
    first_blit (calls o) = None ->
    blits_target a os ps ->
    blits_target a ((env, o) :: os) ps
| blits_target_blit env o os blit p ps :
    first_blit (calls o) = Some blit ->
    g2d_laddr0 (dst_image_h blit)
    = ulong a (phys_of env (rotate_addr_phy (sink_after o) p)) ->
    blits_target a os ps ->
    blits_target a ((env, o) :: os) (p :: ps).

(** Calls that are neither on the display nor on the block-transform
    engine. *)
Definition quiet (tr : list event) : Prop :=
  committed tr = [] /\ filter is_layer_enable tr = []
  /\ first_blit tr = None.

(** Calls without a [TR_COMMIT]. *)
Definition no_commit (tr : list event) : Prop :=
  forall ch job r, ~ In (TR_COMMIT ch job r) tr.

(** Two states of the sink that differ at most in the rotation buffers
    and in the visibility of the layer. *)
Definition same_devices (s s' : GstSunxifbsink) : Prop :=
  framebuffersink s' = framebuffersink s
  /\ fd_transform s' = fd_transform s
  /\ transform_channel s' = transform_channel s
  /\ framebuffer_id s' = framebuffer_id s
  /\ layer_id s' = layer_id s.

(** Calls that are not on the display. *)
Definition display_free (tr : list event) : Prop :=
  committed tr = [] /\ filter is_layer_enable tr = [].

(** The colour space of a committed configuration: in the newer backend
    BT.601 below a destination height of 720 and BT.709 from 720 on; in
    the legacy backend what [DispGetLayerConfig] read. *)
Definition colour_rule (b : build) (env : frame_env)
    (c : luapi_layer_config) : Prop :=
  if SUNXI_DISPLAY2 b then
    fb_color_space c
    = Some (if screen_height b c <? 720 then DISP_BT601 else DISP_BT709)
  else fb_color_space c = fb_color_space (layer_config_read env).

(** The two ways a presenter ends: with [GST_FLOW_ERROR] before anything
    was asked of the display, or with the commit of a configuration that
    obeys the colour rule, from a sink whose layer is as visible as it was
    when the presenter was entered. *)
Definition presents (b : build) (env : frame_env) (s : GstSunxifbsink)
    (o : outcome) : Prop :=
  (result o = GST_FLOW_ERROR /\ display_free (calls o)
   /\ layer_is_visible (sink_after o) = layer_is_visible s)
  \/ (exists c s1 tr trc,
         commit_and_show env s1 c = (result o, sink_after o, trc)
         /\ calls o = tr ++ trc
         /\ display_free tr
         /\ layer_is_visible s1 = layer_is_visible s
         /\ colour_rule b env c).

End Observe.
Export Observe.

(** ** Sample frames *)

Module Samples.

(** The video info of a [width] x [height] frame with one byte per luma
    sample. *)
Definition sample_info (format : GstVideoFormat) (width height : Z)
  : GstVideoInfo :=
  {| info_format := format; info_width := width; info_height := height;
     info_size := width * height * 3 / 2;
     info_w_sub0 := 0; info_pstride0 := 1 |}.

(** The base class for an I420 frame of [width] x [height] pixels whose
    planes follow one another without padding, shown full size at the
    origin of a 1280x720 screen, with the given rotate-angle property. *)
Definition sample_framebuffersink (width height angle : Z)
  : GstFramebufferSink :=
  {| rotate_angle_property := angle;
     max_video_memory_property := 0;
     overlay_plane_offset := fun i =>
       if i =? 1 then width * height
       else if i =? 2 then width * height * 5 / 4
       else 0;
     overlay_scanline_stride := fun i =>
       if i =? 0 then width else width / 2;
     videosink_width := width;
     videosink_height := height;
     video_rectangle :=
       {| rect_x := 0; rect_y := 0; rect_w := width; rect_h := height |};
     video_info := sample_info GST_VIDEO_FORMAT_I420 width height;
     screen_info := sample_info GST_VIDEO_FORMAT_BGRx 1280 720;
     fixinfo_smem_start := 1073741824 |}.

(** A sink on screen 0 with layer [layer], hidden, with a transform
    device, whose rotation buffers are [phy0] and [phy1]. *)
Definition sample_sink (width height angle layer phy0 phy1 : Z)
  : GstSunxifbsink :=
  {| framebuffersink := sample_framebuffersink width height angle;
     fd_disp := 3; fd_transform := 4; fd_g2d := 5;
     transform_channel := 1;
     framebuffer_id := 0;
     layer_id := layer;
     layer_has_scaler := true;
     layer_is_visible := false;
     hardware_overlay_available := true;
     overlay_format := GST_VIDEO_FORMAT_I420;
     rotate_addr_phy0 := phy0;
     rotate_addr_phy1 := phy1;
     sBuffer := {| pAddrPhyY := 0; pAddrVirY := 0 |} |}.

(** Devices that map the virtual address [p] to the physical address
    [p + 0x40000000], report the frame size [width] x [height], allocate
    at 0x100000 and 0x200000, read back the configuration [read], and
    answer [config_ret] to [DispSetLayerConfig], 0 to the other display
    and blit calls and [script] on the transform device. *)
Definition sample_env (width height config_ret : Z)
    (read : luapi_layer_config) (script : list Z) : frame_env :=
  {| phys_of := fun p => p + 1073741824;
     actual_width := width;
     actual_height := height;
     palloc_first := 1048576;
     palloc_second := 2097152;
     layer_config_read := read;
     set_layer_config_ret := config_ret;
     set_layer_enable_ret := 0;
     g2d_bitblt_ret := 0;
     tr_script := script |}.

(** The same devices with a layer-enable command that fails. *)
Definition sample_env_enable_fails (width height : Z) : frame_env :=
  {| phys_of := fun p => p + 1073741824;
     actual_width := width;
     actual_height := height;
     palloc_first := 1048576;
     palloc_second := 2097152;
     layer_config_read := zeroed;
     set_layer_config_ret := 0;
     set_layer_enable_ret := -1;
     g2d_bitblt_ret := 0;
     tr_script := [] |}.

(** A frame in memory mapped at 0x300000, flagged physically contiguous
    or not. *)
Definition sample_memory (contiguous : bool) : GstMemory :=
  {| physically_contiguous := contiguous;
     mapinfo_data := 3145728;
     private_buffer :=
       {| pAddrPhyY := 5242880; pAddrVirY := 3145728 |} |}.

Definition display2 : build :=
  {| SUNXI_DISPLAY2 := true; SUNXI_G2D_ROTATE := false; target := ILP32 |}.

Definition display2_g2d : build :=
  {| SUNXI_DISPLAY2 := true; SUNXI_G2D_ROTATE := true; target := ILP32 |}.

Definition legacy : build :=
  {| SUNXI_DISPLAY2 := false; SUNXI_G2D_ROTATE := false; target := ILP32 |}.

(** What the legacy backend reads back from a layer whose colour space
    is BT.709. *)
Definition read_bt709 : luapi_layer_config :=
  assign_color_space DISP_BT709 zeroed.

End Samples.
Export Samples.

(** ** The alignment macros *)

Module Macros.

(** [#define ALIGNMENT_GET_ALIGN_BYTES(offset, align)
    (((align) + 1 - ((offset) & (align))) & (align))]; [align] is a mask,
    one less than the alignment. The macros take any integer type; they
    are read here on integers wide enough to hold [offset + align]. *)
Definition ALIGNMENT_GET_ALIGN_BYTES (offset align : Z) : Z :=
  Z.land (align + 1 - Z.land offset align) align.

(** [#define ALIGNMENT_GET_ALIGNED(offset, align)
    ((offset) + ALIGNMENT_GET_ALIGN_BYTES(offset, align))]. *)
Definition ALIGNMENT_GET_ALIGNED (offset align : Z) : Z :=
  offset + ALIGNMENT_GET_ALIGN_BYTES offset align.

End Macros.
Export Macros.

(** ** Opening and closing the hardware *)

Module Hardware.

Definition set_fd_disp v (s : GstSunxifbsink) :=
  {| framebuffersink := framebuffersink s; fd_disp := v;
     fd_transform := fd_transform s; fd_g2d := fd_g2d s;
     transform_channel := transform_channel s;
     framebuffer_id := framebuffer_id s; layer_id := layer_id s;
     layer_has_scaler := layer_has_scaler s;
     layer_is_visible := layer_is_visible s;
     hardware_overlay_available := hardware_overlay_available s;
     overlay_format := overlay_format s;
     rotate_addr_phy0 := rotate_addr_phy0 s;
     rotate_addr_phy1 := rotate_addr_phy1 s; sBuffer := sBuffer s |}.

Definition set_fd_transform v (s : GstSunxifbsink) :=
  {| framebuffersink := framebuffersink s; fd_disp := fd_disp s;
     fd_transform := v; fd_g2d := fd_g2d s;
     transform_channel := transform_channel s;
     framebuffer_id := framebuffer_id s; layer_id := layer_id s;
     layer_has_scaler := layer_has_scaler s;
     layer_is_visible := layer_is_visible s;
     hardware_overlay_available := hardware_overlay_available s;
     overlay_format := overlay_format s;
     rotate_addr_phy0 := rotate_addr_phy0 s;
     rotate_addr_phy1 := rotate_addr_phy1 s; sBuffer := sBuffer s |}.

Definition set_fd_g2d v (s : GstSunxifbsink) :=
  {| framebuffersink := framebuffersink s; fd_disp := fd_disp s;
     fd_transform := fd_transform s; fd_g2d := v;
     transform_channel := transform_channel s;
     framebuffer_id := framebuffer_id s; layer_id := layer_id s;
     layer_has_scaler := layer_has_scaler s;
     layer_is_visible := layer_is_visible s;
     hardware_overlay_available := hardware_overlay_available s;
     overlay_format := overlay_format s;
     rotate_addr_phy0 := rotate_addr_phy0 s;
     rotate_addr_phy1 := rotate_addr_phy1 s; sBuffer := sBuffer s |}.

Definition set_transform_channel v (s : GstSunxifbsink) :=
  {| framebuffersink := framebuffersink s; fd_disp := fd_disp s;
     fd_transform := fd_transform s; fd_g2d := fd_g2d s;
     transform_channel := v;
     framebuffer_id := framebuffer_id s; layer_id := layer_id s;
     layer_has_scaler := layer_has_scaler s;
     layer_is_visible := layer_is_visible s;
     hardware_overlay_available := hardware_overlay_available s;
     overlay_format := overlay_format s;
     rotate_addr_phy0 := rotate_addr_phy0 s;
     rotate_addr_phy1 := rotate_addr_phy1 s; sBuffer := sBuffer s |}.

Definition set_hardware_overlay_available v (s : GstSunxifbsink) :=
  {| framebuffersink := framebuffersink s; fd_disp := fd_disp s;
     fd_transform := fd_transform s; fd_g2d := fd_g2d s;
     transform_channel := transform_channel s;
     framebuffer_id := framebuffer_id s; layer_id := layer_id s;
     layer_has_scaler := layer_has_scaler s;
     layer_is_visible := layer_is_visible s;
     hardware_overlay_available := v;
     overlay_format := overlay_format s;
     rotate_addr_phy0 := rotate_addr_phy0 s;
     rotate_addr_phy1 := rotate_addr_phy1 s; sBuffer := sBuffer s |}.

(** [#define TRANSFORM_DEV_TIMEOUT 200]. *)
Definition TRANSFORM_DEV_TIMEOUT : Z := 200.

(** The device nodes the sink opens. *)
Inductive device_node := dev_disp | dev_transform | dev_g2d.

(** What opening and closing do besides the device calls of the
    presenters: the clearing of the frame buffer by
    [system ("dd if=/dev/zero of=/dev/fb0")], the functions of the parent
    class, [open] and [close], the two set-up ioctls of the transform
    device, and [g_free (sunxifbsink->sBuffer)]. *)
Inductive hw_event :=
| clean_framebuffer
| fbdev_open_hardware (ret : Z)
| fbdev_close_hardware
| open_node (node : device_node) (fd : Z)
| close_fd (fd : Z)
| TR_REQUEST (fd : Z) (ret : Z)
| TR_SET_TIMEOUT (fd : Z) (channel timeout : Z) (ret : Z)
| g_free_sBuffer
| device (e : event).

(** What the system answers while the hardware is opened:
    - the values of [access ("/dev/zero", F_OK)] and
      [access ("/dev/fb0", F_OK)];
    - the value [gst_fbdevframebuffersink_open_hardware] returns, the
      parent instance it leaves and the member [use_hardware_overlay] of
      that instance;
    - the descriptors [open] returns for the three device nodes;
    - the value the [TR_REQUEST] ioctl returns and the channel it stores,
      and the value the [TR_SET_TIMEOUT] ioctl returns;
    - the values of [DispGetScrWidth] and [DispGetScrHeight];
    - the value [DispSetLayerConfig] returns for the reservation. *)
Record hardware_env := {
  access_dev_zero : Z;
  access_dev_fb0 : Z;
  fbdev_open_ret : Z;
  fbdev_after : GstFramebufferSink;
  use_hardware_overlay : Z;
  open_dev_disp : Z;
  open_dev_transform : Z;
  tr_request_ret : Z;
  tr_request_channel : Z;
  tr_set_timeout_ret : Z;
  open_dev_g2d : Z;
  DispGetScrWidth : Z;
  DispGetScrHeight : Z;
  reserve_config_ret : Z
}.

(** The configuration [gst_sunxifbsink_reserve_layer] fills in. A
    negative [screen_w] or [screen_h] is logged and used all the same. *)
Definition reserve_config (b : build) (s : GstSunxifbsink)
    (screen_w screen_h : Z) : luapi_layer_config :=
  if SUNXI_DISPLAY2 b then
    let c := assign info_screen_win_x 0 zeroed in
    let c := assign info_screen_win_y 0 c in
    let c := assign info_screen_win_width screen_w c in
    let c := assign info_screen_win_height screen_h c in
    let c := assign info_fb_crop_x 0 c in
    let c := assign info_fb_crop_y 0 c in
    let c := assign info_fb_crop_width (fixed32 screen_w) c in
    let c := assign info_fb_crop_height (fixed32 screen_h) c in
    let c := assign cfg_enable FALSE c in
    let c := assign cfg_layer_id (layer_id s) c in
    let c := assign cfg_channel (framebuffer_id s) c in
    let c := assign_mode LAYER_MODE_BUFFER c in
    let c := assign_flags DISP_BF_NORMAL c in
    let c := assign_scan DISP_SCAN_PROGRESSIVE c in
    let c := assign_format DISP_FORMAT_ARGB_8888 c in
    let c := assign info_zorder 11 c in
    let c := assign info_alpha_mode 1 c in
    assign info_alpha_value 255 c
  else
    let c := assign fb_src_win_x 0 zeroed in
    let c := assign fb_src_win_y 0 c in
    let c := assign fb_src_win_width 1 c in
    let c := assign fb_src_win_height 1 c in
    let c := assign fb_size_width (u32 screen_w) c in
    let c := assign fb_size_height (u32 screen_h) c in
    let c := assign screen_win_x 0 c in
    let c := assign screen_win_y 0 c in
    let c := assign screen_win_width screen_w c in
    let c := assign screen_win_height screen_h c in
    let c := assign cfg_alpha_mode 0 c in
    let c := assign fb_pre_multiply 0 c in
    let c := assign cfg_alpha_value 255 c in
    let c := assign cfg_zorder 3 c in
    let c := assign_mode DISP_LAYER_WORK_MODE_SCALER c in
    assign cfg_pipe 0 c.

(** [gst_sunxifbsink_reserve_layer]. *)
Definition gst_sunxifbsink_reserve_layer (b : build) (henv : hardware_env)
    (s : GstSunxifbsink) : Z * GstSunxifbsink * list event :=
  let screen_w := DispGetScrWidth henv in
  let screen_h := DispGetScrHeight henv in
  let c := reserve_config b s screen_w screen_h in
  let r := reserve_config_ret henv in
  let call := DispSetLayerConfig (framebuffer_id s) (layer_id s) c r in
  if r <? 0 then (FALSE, s, [call])
  else (TRUE, set_layer_has_scaler true s, [call]).

(** [gst_sunxifbsink_open_hardware] from the call of
    [gst_sunxifbsink_reserve_layer] on; [tr] are the calls made so far. *)
Definition open_reserve (b : build) (henv : hardware_env)
    (s : GstSunxifbsink) (tr : list hw_event)
  : Z * GstSunxifbsink * list hw_event :=
  let '(r, s, trr) := gst_sunxifbsink_reserve_layer b henv s in
  if negb (truthy r) then
    (TRUE, s, tr ++ map device trr ++ [close_fd (fd_disp s)])
  else
    let s := set_layer_is_visible false s in
    let s := set_hardware_overlay_available true s in
    let s := set_sBuffer {| pAddrPhyY := 0; pAddrVirY := 0 |} s in
    (TRUE, s, tr ++ map device trr).

(** The same from [#ifdef __SUNXI_G2D_ROTATE__] on. *)
Definition open_g2d (b : build) (henv : hardware_env)
    (s : GstSunxifbsink) (tr : list hw_event)
  : Z * GstSunxifbsink * list hw_event :=
  if SUNXI_G2D_ROTATE b then
    let s := set_fd_g2d (open_dev_g2d henv) s in
    let tr := tr ++ [open_node dev_g2d (fd_g2d s)] in
    if fd_g2d s <? 0 then (TRUE, s, tr)
    else open_reserve b henv s tr
  else open_reserve b henv s tr.

(** The same from [open ("/dev/transform", O_RDWR)] on. The channel is
    stored by a [TR_REQUEST] that succeeds. *)
Definition open_transform (b : build) (henv : hardware_env)
    (s : GstSunxifbsink) (tr : list hw_event)
  : Z * GstSunxifbsink * list hw_event :=
  let s := set_fd_transform (open_dev_transform henv) s in
  let tr := tr ++ [open_node dev_transform (fd_transform s)] in
  if 0 <? fd_transform s then
    let r := tr_request_ret henv in
    let tr := tr ++ [TR_REQUEST (fd_transform s) r] in
    if r <? 0 then (-1, s, tr)
    else
      let s := set_transform_channel (tr_request_channel henv) s in
      let t := tr_set_timeout_ret henv in
      let tr := tr ++ [TR_SET_TIMEOUT (fd_transform s)
                         (ulong (target b) (transform_channel s))
                         TRANSFORM_DEV_TIMEOUT t] in
      if truthy t then (-1, s, tr)
      else open_g2d b henv s tr
  else open_g2d b henv s tr.

(** [gst_sunxifbsink_open_hardware]. The value returned is a [gboolean];
    two of the [return] statements give it -1. *)
Definition gst_sunxifbsink_open_hardware (b : build) (henv : hardware_env)
    (s : GstSunxifbsink) : Z * GstSunxifbsink * list hw_event :=
  let tr :=
    if (access_dev_zero henv <? 0) || (access_dev_fb0 henv <? 0)
    then [] else [clean_framebuffer] in
  let tr := tr ++ [fbdev_open_hardware (fbdev_open_ret henv)] in
  let s := set_framebuffersink (fbdev_after henv) s in
  if negb (truthy (fbdev_open_ret henv)) then (FALSE, s, tr)
  else
    let s := set_hardware_overlay_available false s in
    if use_hardware_overlay henv =? FALSE then (TRUE, s, tr)
    else
      let s := set_fd_disp (open_dev_disp henv) s in
      let tr := tr ++ [open_node dev_disp (fd_disp s)] in
      if fd_disp s <? 0 then (TRUE, s, tr)
      else open_transform b henv s tr.

(** [gst_sunxifbsink_close_hardware]; [use_overlay] is the member
    [use_hardware_overlay] of the parent instance at the time of the call,
    and [env] answers the layer commands. The rotation buffers are freed
    and the pointers to them are left as they are. *)
Definition gst_sunxifbsink_close_hardware (b : build) (env : frame_env)
    (use_overlay : Z) (s : GstSunxifbsink)
  : GstSunxifbsink * list hw_event :=
  let '(s, tr_layer) :=
    if hardware_overlay_available s then
      let '(s, tr_hide) := gst_sunxifbsink_hide_layer env s in
      let '(s, tr_release) := gst_sunxifbsink_release_layer env s in
      (s, tr_hide ++ tr_release)
    else (s, []) in
  let tr_disp :=
    if truthy use_overlay then [close_fd (fd_disp s)] else [] in
  let tr_phy0 :=
    if negb (rotate_addr_phy s 0 =? 0)
    then [device (SunxiMemPfree (rotate_addr_phy s 0))] else [] in
  let tr_phy1 :=
    if negb (rotate_addr_phy s 1 =? 0)
    then [device (SunxiMemPfree (rotate_addr_phy s 1))] else [] in
  let tr_transform :=
    if 0 <=? fd_transform s then [close_fd (fd_transform s)] else [] in
  let tr_g2d :=
    if SUNXI_G2D_ROTATE b && (0 <=? fd_g2d s)
    then [close_fd (fd_g2d s)] else [] in
  (s, g_free_sBuffer :: map device tr_layer ++ tr_disp ++ tr_phy0
        ++ tr_phy1 ++ [fbdev_close_hardware] ++ tr_transform ++ tr_g2d).

(** The rotation buffers freed by a sequence of calls. *)
Fixpoint freed (tr : list hw_event) : list Z :=
  match tr with
  | [] => []
  | device (SunxiMemPfree p) :: tr => p :: freed tr
  | _ :: tr => freed tr
  end.

(** The descriptors closed by a sequence of calls. *)
Fixpoint closed (tr : list hw_event) : list Z :=
  match tr with
  | [] => []
  | close_fd fd :: tr => fd :: closed tr
  | _ :: tr => closed tr
  end.

(** The display commands among the calls. *)
Fixpoint display_calls (tr : list hw_event) : list event :=
  match tr with
  | [] => []
  | device e :: tr => e :: display_calls tr
  | _ :: tr => display_calls tr
  end.

End Hardware.
Export Hardware.

(** ** Observing the memory adapter *)

Module ObserveMemory.

(** The lengths asked of [SunxiMemPalloc], in order. *)
Fixpoint allocated (tr : list event) : list Z :=
  match tr with
  | [] => []
  | SunxiMemPalloc len _ :: tr => len :: allocated tr
  | _ :: tr => allocated tr
  end.

(** The pointers handed to [SunxiMemPfree], in order. *)
Fixpoint released (tr : list event) : list Z :=
  match tr with
  | [] => []
  | SunxiMemPfree p :: tr => p :: released tr
  | _ :: tr => released tr
  end.

(** The (address, length) pairs handed to [SunxiMemFlushCache]. *)
Fixpoint flushed (tr : list event) : list (Z * Z) :=
  match tr with
  | [] => []
  | SunxiMemFlushCache p len :: tr => (p, len) :: flushed tr
  | _ :: tr => flushed tr
  end.

(** The layer-enable commands, as (enable, value returned). *)
Fixpoint enables (tr : list event) : list (Z * Z) :=
  match tr with
  | [] => []
  | DispSetLayerEnable _ _ _ e r :: tr => (e, r) :: enables tr
  | _ :: tr => enables tr
  end.

(** The source rectangle of a configuration: the crop of the newer
    backend, in 32.32 fixed point, or the source window of the legacy
    one. *)
Definition source_size (b : build) (c : luapi_layer_config) : Z * Z :=
  if SUNXI_DISPLAY2 b
  then (get c info_fb_crop_width, get c info_fb_crop_height)
  else (get c fb_src_win_width, get c fb_src_win_height).

(** The destination rectangle of a configuration. *)
Definition screen_window (b : build) (c : luapi_layer_config)
  : GstVideoRectangle :=
  if SUNXI_DISPLAY2 b
  then {| rect_x := get c info_screen_win_x;
          rect_y := get c info_screen_win_y;
          rect_w := get c info_screen_win_width;
          rect_h := get c info_screen_win_height |}
  else {| rect_x := get c screen_win_x;
          rect_y := get c screen_win_y;
          rect_w := get c screen_win_width;
          rect_h := get c screen_win_height |}.

(** Whether the block-transform engine rotates the frames of the planar
    presenter: the build has it and the rotate-angle property is
    positive. *)
Definition g2d_rotates (b : build) (s : GstSunxifbsink) : bool :=
  SUNXI_DISPLAY2 b && SUNXI_G2D_ROTATE b
  && (0 <? rotate_angle_property (framebuffersink s)).

(** Calls that leave the memory adapter alone. *)
Definition memory_free (tr : list event) : Prop :=
  allocated tr = [] /\ released tr = [] /\ flushed tr = [].

End ObserveMemory.
Export ObserveMemory.

(** ** Sample devices for opening and closing *)

Module HardwareSamples.

(** A system on which everything succeeds: the parent class opens, the
    overlay is asked for, the three nodes open as descriptors 3, 4 and 5,
    the transform device grants channel 1, the screen is 1280x720. *)
Definition sample_hardware : hardware_env :=
  {| access_dev_zero := 0; access_dev_fb0 := 0;
     fbdev_open_ret := TRUE;
     fbdev_after := sample_framebuffersink 720 480 0;
     use_hardware_overlay := TRUE;
     open_dev_disp := 3; open_dev_transform := 4;
     tr_request_ret := 0; tr_request_channel := 1;
     tr_set_timeout_ret := 0;
     open_dev_g2d := 5;
     DispGetScrWidth := 1280; DispGetScrHeight := 720;
     reserve_config_ret := 0 |}.

(** The same system with a transform device that refuses the channel. *)
Definition sample_hardware_no_channel : hardware_env :=
  {| access_dev_zero := 0; access_dev_fb0 := 0;
     fbdev_open_ret := TRUE;
     fbdev_after := sample_framebuffersink 720 480 0;
     use_hardware_overlay := TRUE;
     open_dev_disp := 3; open_dev_transform := 4;
     tr_request_ret := -1; tr_request_channel := 0;
     tr_set_timeout_ret := 0;
     open_dev_g2d := 5;
     DispGetScrWidth := 1280; DispGetScrHeight := 720;
     reserve_config_ret := 0 |}.

(** The same system with a display that refuses the reservation and does
    not tell the size of the screen. *)
Definition sample_hardware_no_layer : hardware_env :=
  {| access_dev_zero := 0; access_dev_fb0 := 0;
     fbdev_open_ret := TRUE;
     fbdev_after := sample_framebuffersink 720 480 0;
     use_hardware_overlay := TRUE;
     open_dev_disp := 3; open_dev_transform := 4;
     tr_request_ret := 0; tr_request_channel := 1;
     tr_set_timeout_ret := 0;
     open_dev_g2d := 5;
     DispGetScrWidth := -1; DispGetScrHeight := -1;
     reserve_config_ret := -1 |}.

(** A sink that has not been opened: no descriptor, layer 0. *)
Definition closed_sink : GstSunxifbsink :=
  {| framebuffersink := sample_framebuffersink 720 480 0;
     fd_disp := -1; fd_transform := -1; fd_g2d := -1;
     transform_channel := 0;
     framebuffer_id := 0;
     layer_id := 0;
     layer_has_scaler := false;
     layer_is_visible := false;
     hardware_overlay_available := false;
     overlay_format := GST_VIDEO_FORMAT_UNKNOWN;
     rotate_addr_phy0 := 0;
     rotate_addr_phy1 := 0;
     sBuffer := {| pAddrPhyY := 0; pAddrVirY := 0 |} |}.

(** Devices whose memory adapter has nothing left for the first, or for
    the second, rotation buffer. *)
Definition sample_env_no_memory (first second : Z) : frame_env :=
  {| phys_of := fun p => p + 1073741824;
     actual_width := 720;
     actual_height := 480;
     palloc_first := first;
     palloc_second := second;
     layer_config_read := zeroed;
     set_layer_config_ret := 0;
     set_layer_enable_ret := 0;
     g2d_bitblt_ret := 0;
     tr_script := [0; 0; 0] |}.

(** Devices whose block-transform engine fails. *)
Definition sample_env_blit_fails : frame_env :=
  {| phys_of := fun p => p + 1073741824;
     actual_width := 720;
     actual_height := 480;
     palloc_first := 1048576;
     palloc_second := 2097152;
     layer_config_read := zeroed;
     set_layer_config_ret := 0;
     set_layer_enable_ret := 0;
     g2d_bitblt_ret := -1;
     tr_script := [] |}.

End HardwareSamples.
Export HardwareSamples.

(** * Properties *)

(** ** The alignment query *)

Section AlignmentFacts.

Variable A : Type.
Variable helper : GstVideoInfo -> Z -> bool -> A * bool.

Lemma is_yuv420_planar_iff (format : GstVideoFormat) :
  is_yuv420_planar format = true <->
  format = GST_VIDEO_FORMAT_I420 \/ format = GST_VIDEO_FORMAT_YV12 \/
  format = GST_VIDEO_FORMAT_NV12 \/ format = GST_VIDEO_FORMAT_NV21.
Proof.
  destruct format; cbn; split; intros H; try discriminate; auto;
    repeat (destruct H as [H | H]; try discriminate H); discriminate H.
Qed.

Lemma width_and_1_odd (w : Z) : truthy (Z.land w 1) = Z.odd w.
Proof.
  unfold truthy.
  change 1 with (Z.ones 1).
  rewrite Z.land_ones by lia.
  change (2 ^ 1) with 2.
  rewrite Zmod_odd.
  destruct (Z.odd w); reflexivity.
Qed.

Lemma alignment_none_iff (vi : GstVideoInfo) :
  gst_sunxifbsink_get_overlay_video_alignment A helper vi = None <->
  is_yuv420_planar (info_format vi) = true /\ Z.odd (info_width vi) = true.
Proof.
  unfold gst_sunxifbsink_get_overlay_video_alignment.
  rewrite width_and_1_odd.
  destruct (is_yuv420_planar (info_format vi)), (Z.odd (info_width vi));
    cbn; destruct (helper vi 3 true); split;
    try discriminate; try tauto; intros [? ?]; discriminate.
Qed.

(** C3. The alignment query answers "unsupported" ([FALSE]) exactly when
    the format is I420, YV12, NV12 or NV21 and the width is odd; for each
    other format of the supported table (AYUV, BGRx, YUY2, UYVY, Y444) it
    answers [TRUE] and sets the start-address alignment mask to 15, that
    is an alignment of 16 bytes, for every width, height, size and
    component layout. *)
Theorem get_overlay_video_alignment_unsupported_iff :
  (forall vi : GstVideoInfo,
      gst_sunxifbsink_get_overlay_video_alignment A helper vi = None <->
      (info_format vi = GST_VIDEO_FORMAT_I420 \/
       info_format vi = GST_VIDEO_FORMAT_YV12 \/
       info_format vi = GST_VIDEO_FORMAT_NV12 \/
       info_format vi = GST_VIDEO_FORMAT_NV21) /\
      Z.odd (info_width vi) = true)
  /\ (forall width height size w_sub pstride : Z,
         Forall
           (fun format =>
              let vi := {| info_format := format; info_width := width;
                           info_height := height; info_size := size;
                           info_w_sub0 := w_sub;
                           info_pstride0 := pstride |} in
              exists r,
                gst_sunxifbsink_get_overlay_video_alignment A helper vi
                = Some r
                /\ overlay_align r = 15
                /\ overlay_align r + 1 = 16
                /\ (video_alignment r, video_alignment_matches r)
                   = helper vi 3 true)
           (filter (fun format => negb (is_yuv420_planar format))
              sunxifbsink_supported_overlay_formats_table)).
Proof.
  split.
  - intros vi. rewrite alignment_none_iff, is_yuv420_planar_iff. tauto.
  - intros width height size w_sub pstride. cbn [filter].
    repeat constructor;
      cbn; unfold gst_sunxifbsink_get_overlay_video_alignment; cbn;
      match goal with |- context [helper ?v 3 true] =>
        destruct (helper v 3 true) as [va m] eqn:E end;
      eexists; repeat split; cbn; reflexivity.
Qed.

End AlignmentFacts.

(** ** The rotation accelerator *)

Section RotateFacts.

Variable channel : Z.
Variable info : tr_info.

Local Abbreviation run := (tr_run channel info).

Lemma tr_run_returned (r : Z) (script : list Z) :
  run (Returned r) script = (Some r, script, []).
Proof. destruct script; reflexivity. Qed.

Lemma tr_run_setup (resp : Z) (script : list Z) :
  run AtSetup (resp :: script) =
  after_calls [TR_COMMIT channel info resp]
    (run (if truthy resp then Returned (-1) else AtFirstQuery) script).
Proof. reflexivity. Qed.

Lemma tr_run_first_query (resp : Z) (script : list Z) :
  run AtFirstQuery (resp :: script) =
  after_calls [TR_QUERY channel resp] (run AtPoll script).
Proof. reflexivity. Qed.

Lemma tr_run_poll (resp : Z) (script : list Z) :
  run AtPoll (resp :: script) =
  if resp =? 1 then
    after_calls [TR_QUERY channel 1; usleep 1000] (run AtPoll script)
  else if resp =? -1 then
    after_calls [TR_QUERY channel (-1)] (run AtSetup script)
  else after_calls [TR_QUERY channel resp] (run (Returned resp) script).
Proof.
  cbn [tr_run tr_step].
  destruct (resp =? 1) eqn:E1.
  - apply Z.eqb_eq in E1. subst. reflexivity.
  - destruct (resp =? -1) eqn:E2; [apply Z.eqb_eq in E2; subst |];
      reflexivity.
Qed.

Lemma after_calls_some evs x r rest tr :
  after_calls evs x = (Some r, rest, tr) ->
  exists tr', x = (Some r, rest, tr') /\ tr = evs ++ tr'.
Proof.
  destruct x as [[r0 rest0] tr0]. cbn. intros H. inversion H; subst.
  eexists; split; reflexivity.
Qed.

Lemma from_poll_busy tr r :
  from_poll channel info tr r ->
  from_poll channel info (TR_QUERY channel 1 :: usleep 1000 :: tr) r.
Proof.
  intros [[Hp Hr] | (p & rest & -> & Hp & Hj)].
  - left. split; [now apply polling_busy | assumption].
  - right. exists (TR_QUERY channel 1 :: usleep 1000 :: p), rest.
    repeat split; [now apply polling_busy | assumption].
Qed.

Lemma from_poll_protocol q tr r :
  from_poll channel info tr r ->
  job_protocol channel info
    (TR_COMMIT channel info 0 :: TR_QUERY channel q :: tr) r.
Proof.
  intros [[Hp Hr] | (p & rest & -> & Hp & Hj)].
  - now apply job_completes.
  - now apply job_times_out.
Qed.

Lemma tr_run_from_place (script : list Z) :
  forall pc r rest tr,
    run pc script = (Some r, rest, tr) ->
    from_place channel info pc tr r.
Proof.
  induction script as [| resp script IH]; intros pc r rest tr H.
  - destruct pc; cbn in H; try discriminate.
    inversion H; subst. now split.
  - destruct pc.
    + rewrite tr_run_setup in H.
      apply after_calls_some in H as (tr' & H & ->).
      unfold truthy in H. destruct (resp =? 0) eqn:E; cbn in H.
      * apply Z.eqb_eq in E. subst resp.
        apply IH in H as (q & tr'' & -> & Hp).
        now apply from_poll_protocol.
      * apply Z.eqb_neq in E.
        rewrite tr_run_returned in H. inversion H; subst.
        now apply job_commit_fails.
    + rewrite tr_run_first_query in H.
      apply after_calls_some in H as (tr' & H & ->).
      apply IH in H. cbn. eauto.
    + rewrite tr_run_poll in H.
      destruct (resp =? 1) eqn:E1.
      * apply after_calls_some in H as (tr' & H & ->).
        apply IH in H. now apply from_poll_busy.
      * apply Z.eqb_neq in E1.
        destruct (resp =? -1) eqn:E2;
          apply after_calls_some in H as (tr' & H & ->).
        -- apply IH in H. right.
           exists [TR_QUERY channel (-1)], tr'.
           repeat split; [constructor; lia | exact H].
        -- apply Z.eqb_neq in E2.
           rewrite tr_run_returned in H. inversion H; subst.
           left. split; [now constructor | assumption].
    + rewrite tr_run_returned in H. inversion H; subst. now split.
Qed.

Lemma polling_last p status :
  polling channel p status ->
  status <> 1 /\ In (TR_QUERY channel status) p.
Proof.
  induction 1 as [status Hs | tr status Hp [IH1 IH2]].
  - split; [assumption | now left].
  - split; [assumption | now right; right].
Qed.

Lemma job_protocol_result tr r :
  job_protocol channel info tr r ->
  queries_documented tr ->
  r = 0 \/ (r = -1 /\ ends_with_failed_commit channel info tr).
Proof.
  induction 1 as [c Hc | q p status Hp Hs | q p rest r Hp Hj IH];
    intros Hdoc.
  - right. split; [reflexivity |]. exists [], c. now split.
  - apply polling_last in Hp as [H1 Hin].
    destruct (Hdoc channel status) as [H | [H | H]];
      [now right; right | now left | contradiction | contradiction].
  - destruct IH as [H0 | [H1 (before & c & -> & Hc)]].
    + intros ch st Hin. apply (Hdoc ch st).
      right; right. apply in_or_app. now right.
    + now left.
    + right. split; [assumption |].
      exists (TR_COMMIT channel info 0 :: TR_QUERY channel q
                :: p ++ before), c.
      split; [| assumption].
      cbn. now rewrite <- app_assoc.
Qed.

Lemma tr_run_busy (busy : nat) (script : list Z) :
  run AtPoll (repeat 1 busy ++ script) =
  after_calls (concat (repeat [TR_QUERY channel 1; usleep 1000] busy))
    (run AtPoll script).
Proof.
  induction busy as [| busy IH]; cbn [repeat concat app].
  - destruct (run AtPoll script) as [[r rest] tr]. reflexivity.
  - rewrite tr_run_poll. cbn [Z.eqb Pos.eqb]. rewrite IH.
    destruct (run AtPoll script) as [[r rest] tr]. reflexivity.
Qed.

Lemma tr_run_round_timeout (q : Z) (busy : nat) (script : list Z) :
  run AtSetup (round_script q busy (-1) ++ script) =
  after_calls (round_calls channel info q busy (-1)) (run AtSetup script).
Proof.
  unfold round_script, round_calls. cbn [app].
  rewrite tr_run_setup. cbn [truthy Z.eqb negb].
  rewrite tr_run_first_query, <- app_assoc, tr_run_busy.
  cbn [app]. rewrite tr_run_poll. cbn [Z.eqb Pos.eqb].
  destruct (run AtSetup script) as [[r rest] tr]. cbn.
  now rewrite <- app_assoc.
Qed.

Lemma tr_run_round_success (q : Z) (busy : nat) (script : list Z) :
  run AtSetup (round_script q busy 0 ++ script) =
  (Some 0, script, round_calls channel info q busy 0).
Proof.
  unfold round_script, round_calls. cbn [app].
  rewrite tr_run_setup. cbn [truthy Z.eqb negb].
  rewrite tr_run_first_query, <- app_assoc, tr_run_busy.
  cbn [app]. rewrite tr_run_poll. cbn [Z.eqb Pos.eqb].
  rewrite tr_run_returned. cbn. reflexivity.
Qed.

Lemma tr_run_timed_out (rounds : list (Z * nat)) (script : list Z) :
  run AtSetup (timed_out_script rounds ++ script) =
  after_calls (timed_out_calls channel info rounds) (run AtSetup script).
Proof.
  unfold timed_out_script, timed_out_calls.
  induction rounds as [| [q busy] rounds IH]; cbn [map concat fst snd app].
  - destruct (run AtSetup script) as [[r rest] tr]. reflexivity.
  - rewrite <- app_assoc, tr_run_round_timeout, IH.
    destruct (run AtSetup script) as [[r rest] tr]. cbn.
    now rewrite <- !app_assoc.
Qed.

Lemma commits_app (a b : list event) :
  commits (a ++ b) = (commits a + commits b)%nat.
Proof. unfold commits. now rewrite filter_app, length_app. Qed.

Lemma commits_round (q : Z) (busy : nat) (status : Z) :
  commits (round_calls channel info q busy status) = 1%nat.
Proof.
  unfold round_calls. cbn [commits].
  change (commits (?a :: ?b :: ?l))
    with (S (commits l)) at 1.
  rewrite commits_app. f_equal.
  replace (commits [TR_QUERY channel status]) with 0%nat by reflexivity.
  rewrite Nat.add_0_r.
  induction busy as [| busy IH]; [reflexivity |].
  cbn [repeat concat]. rewrite commits_app, IH. reflexivity.
Qed.

Lemma commits_timed_out (rounds : list (Z * nat)) :
  commits (timed_out_calls channel info rounds) = length rounds.
Proof.
  unfold timed_out_calls.
  induction rounds as [| [q busy] rounds IH]; [reflexivity |].
  cbn [map concat fst snd length].
  now rewrite commits_app, commits_round, IH.
Qed.

End RotateFacts.

(** C4. [hwRotateVideoPicture] never hands a timeout to its caller.
    - Whenever it returns, the calls it made follow the protocol: after each
      successful [TR_COMMIT] (and the one [TR_QUERY] whose value is
      dropped) it polls, sleeping 1000 microseconds after every busy
      answer; a poll that answers -1 is followed by a [TR_COMMIT] of the
      same descriptor and a new polling phase; and when the queries answer
      within their documented range the value returned is 0, or it is -1
      and the last call was a [TR_COMMIT] that failed.
    - Any number of rounds that time out, followed by a round that
      succeeds, makes it return 0 after one more [TR_COMMIT] than there
      were timeouts.
    - As long as every round times out it has not returned, however many
      rounds there are: there is no bound on the resubmissions. *)
Theorem hwRotateVideoPicture_resubmits_on_timeout :
  forall (channel : Z) (info : tr_info),
    (forall script r rest tr,
        hwRotateVideoPicture channel info script = (Some r, rest, tr) ->
        job_protocol channel info tr r
        /\ (queries_documented tr ->
            r = 0 \/ (r = -1 /\ ends_with_failed_commit channel info tr)))
    /\ (forall rounds q busy rest,
           hwRotateVideoPicture channel info
             (timed_out_script rounds ++ round_script q busy 0 ++ rest)
           = (Some 0, rest,
              timed_out_calls channel info rounds
                ++ round_calls channel info q busy 0)
           /\ commits (timed_out_calls channel info rounds
                         ++ round_calls channel info q busy 0)
              = S (length rounds))
    /\ (forall rounds,
           hwRotateVideoPicture channel info (timed_out_script rounds)
           = (None, [], timed_out_calls channel info rounds)
           /\ commits (timed_out_calls channel info rounds) = length rounds).
Proof.
  intros channel info. unfold hwRotateVideoPicture. repeat split.
  - now apply (tr_run_from_place channel info script AtSetup r rest tr).
  - apply job_protocol_result.
    now apply (tr_run_from_place channel info script AtSetup r rest tr).
  - rewrite tr_run_timed_out, tr_run_round_success. reflexivity.
  - rewrite commits_app, commits_timed_out, commits_round. lia.
  - rewrite <- (app_nil_r (timed_out_script rounds)), tr_run_timed_out.
    cbn. now rewrite app_nil_r.
  - apply commits_timed_out.
Qed.

(** A run of C4: the first round is busy once and then times out, the
    second succeeds; the job was committed twice and 0 is returned. *)
Lemma hwRotateVideoPicture_resubmits_on_timeout_witness :
  hwRotateVideoPicture 7 trans_info_zero [0; 1; 1; -1; 0; 0; 0]
  = (Some 0, [],
     [TR_COMMIT 7 trans_info_zero 0; TR_QUERY 7 1; TR_QUERY 7 1; usleep 1000;
      TR_QUERY 7 (-1);
      TR_COMMIT 7 trans_info_zero 0; TR_QUERY 7 0; TR_QUERY 7 0])
  /\ job_protocol 7 trans_info_zero
       [TR_COMMIT 7 trans_info_zero 0; TR_QUERY 7 1; TR_QUERY 7 1;
        usleep 1000; TR_QUERY 7 (-1);
        TR_COMMIT 7 trans_info_zero 0; TR_QUERY 7 0; TR_QUERY 7 0] 0.
Proof.
  split; [reflexivity |].
  apply (proj1 (hwRotateVideoPicture_resubmits_on_timeout 7 trans_info_zero)
           [0; 1; 1; -1; 0; 0; 0] 0 []).
  reflexivity.
Defined.

(** ** The overlay layer *)

(** C6, as the specification puts it, fails twice. On layer 0 the layer is
    not visible, its id is not positive, and yet
    [gst_sunxifbsink_show_layer] issues the enable command, returns [TRUE]
    and marks the layer visible. And on a valid layer whose enable command
    fails it issues the command, returns [FALSE] and leaves the layer
    hidden, where the claim has it become visible. *)
Lemma show_layer_accepts_layer_zero :
  layer_is_visible (sample_sink 720 480 0 0 0 0) = false
  /\ layer_id (sample_sink 720 480 0 0 0 0) <= 0
  /\ gst_sunxifbsink_show_layer (sample_env 720 480 0 zeroed [])
       (sample_sink 720 480 0 0 0 0)
     = (TRUE, set_layer_is_visible true (sample_sink 720 480 0 0 0 0),
        [DispSetLayerEnable 0 0 0 1 0])
  /\ ~ (exists s',
          gst_sunxifbsink_show_layer (sample_env 720 480 0 zeroed [])
            (sample_sink 720 480 0 0 0 0)
          = (FALSE, s', []))
  /\ 0 < layer_id (sample_sink 720 480 0 2 0 0)
  /\ gst_sunxifbsink_show_layer (sample_env_enable_fails 720 480)
       (sample_sink 720 480 0 2 0 0)
     = (FALSE, sample_sink 720 480 0 2 0 0,
        [DispSetLayerEnable 0 2 0 1 (-1)])
  /\ layer_is_visible (sample_sink 720 480 0 2 0 0) = false.
Proof.
  cbn. repeat split; try lia.
  intros [s' H]. discriminate H.
Qed.

(** C6, amended. [gst_sunxifbsink_show_layer] does nothing and returns
    [TRUE] when the layer is visible; on a hidden layer it returns [FALSE]
    without a device call when [layer_id] is negative; otherwise it issues
    the enable command once and, when the command returns 0, marks the
    layer visible and returns [TRUE], and when the command fails returns
    [FALSE] and leaves the layer hidden. *)
Theorem show_layer_cases :
  forall (env : frame_env) (s : GstSunxifbsink),
    (layer_is_visible s = true ->
     gst_sunxifbsink_show_layer env s = (TRUE, s, []))
    /\ (layer_is_visible s = false -> layer_id s < 0 ->
        gst_sunxifbsink_show_layer env s = (FALSE, s, []))
    /\ (layer_is_visible s = false -> 0 <= layer_id s ->
        let call := DispSetLayerEnable (framebuffer_id s) (layer_id s)
                      (framebuffer_id s) 1 (set_layer_enable_ret env) in
        (set_layer_enable_ret env = 0 ->
         gst_sunxifbsink_show_layer env s
         = (TRUE, set_layer_is_visible true s, [call])
         /\ layer_is_visible (set_layer_is_visible true s) = true)
        /\ (set_layer_enable_ret env <> 0 ->
            gst_sunxifbsink_show_layer env s = (FALSE, s, [call]))).
Proof.
  intros env s. unfold gst_sunxifbsink_show_layer, truthy.
  repeat split; intros.
  - now rewrite H.
  - rewrite H. now apply Z.ltb_lt in H0 as ->.
  - rewrite H. apply Z.ltb_ge in H0 as ->.
    now apply Z.eqb_eq in H1 as ->.
  - rewrite H. apply Z.ltb_ge in H0 as ->.
    now apply Z.eqb_neq in H1 as ->.
Qed.

(** The three cases of C6 on sample sinks: a visible layer, a released
    layer (id -1) and layer 0. *)
Lemma show_layer_cases_witness :
  gst_sunxifbsink_show_layer (sample_env 720 480 0 zeroed [])
    (set_layer_is_visible true (sample_sink 720 480 0 0 0 0))
  = (TRUE, set_layer_is_visible true (sample_sink 720 480 0 0 0 0), [])
  /\ gst_sunxifbsink_show_layer (sample_env 720 480 0 zeroed [])
       (sample_sink 720 480 0 (-1) 0 0)
     = (FALSE, sample_sink 720 480 0 (-1) 0 0, [])
  /\ gst_sunxifbsink_show_layer (sample_env 720 480 0 zeroed [])
       (sample_sink 720 480 0 0 0 0)
     = (TRUE, set_layer_is_visible true (sample_sink 720 480 0 0 0 0),
        [DispSetLayerEnable 0 0 0 1 0]).
Proof.
  pose proof (show_layer_cases (sample_env 720 480 0 zeroed [])
                (set_layer_is_visible true (sample_sink 720 480 0 0 0 0)))
    as (Hv & _ & _).
  pose proof (show_layer_cases (sample_env 720 480 0 zeroed [])
                (sample_sink 720 480 0 (-1) 0 0)) as (_ & Hn & _).
  pose proof (show_layer_cases (sample_env 720 480 0 zeroed [])
                (sample_sink 720 480 0 0 0 0)) as (_ & _ & Hz).
  split; [apply Hv; reflexivity |].
  split; [apply Hn; [reflexivity | cbn; lia] |].
  apply Hz; [reflexivity | cbn; lia | reflexivity].
Defined.

(** ** Calls and states of the presenters *)

Section PresenterFacts.

Lemma committed_app (a b : list event) :
  committed (a ++ b) = committed a ++ committed b.
Proof.
  induction a as [| e a IH]; [reflexivity |].
  destruct e; cbn; rewrite ?IH; reflexivity.
Qed.

Lemma first_job_app (a b : list event) :
  first_job (a ++ b)
  = match first_job a with Some j => Some j | None => first_job b end.
Proof.
  induction a as [| e a IH]; [reflexivity |].
  destruct e; cbn; rewrite ?IH; reflexivity.
Qed.

Lemma first_blit_app (a b : list event) :
  first_blit (a ++ b)
  = match first_blit a with Some j => Some j | None => first_blit b end.
Proof.
  induction a as [| e a IH]; [reflexivity |].
  destruct e; cbn; rewrite ?IH; reflexivity.
Qed.

Lemma quiet_app (a b : list event) : quiet a -> quiet b -> quiet (a ++ b).
Proof.
  intros (Ha1 & Ha2 & Ha3) (Hb1 & Hb2 & Hb3). unfold quiet.
  now rewrite committed_app, filter_app, first_blit_app, Ha1, Ha2, Ha3.
Qed.

Lemma no_commit_app (a b : list event) :
  no_commit a -> no_commit b -> no_commit (a ++ b).
Proof.
  intros Ha Hb ch job r Hin. apply in_app_or in Hin as [Hin | Hin].
  - exact (Ha _ _ _ Hin).
  - exact (Hb _ _ _ Hin).
Qed.

Lemma no_commit_first_job (tr : list event) :
  no_commit tr -> first_job tr = None.
Proof.
  induction tr as [| e tr IH]; intros H; [reflexivity |].
  destruct e; cbn;
    try (apply IH; intros ch job r Hin; apply (H ch job r); now right).
  exfalso. apply (H channel info ret). now left.
Qed.

Lemma same_devices_refl (s : GstSunxifbsink) : same_devices s s.
Proof. now repeat split. Qed.

Lemma same_devices_trans (s1 s2 s3 : GstSunxifbsink) :
  same_devices s1 s2 -> same_devices s2 s3 -> same_devices s1 s3.
Proof.
  unfold same_devices. intros (?&?&?&?&?) (?&?&?&?&?).
  repeat split; congruence.
Qed.

(** The transform device. *)

Lemma tr_run_calls (channel : Z) (info : tr_info) (script : list Z) :
  forall pc r rest tr,
    tr_run channel info pc script = (r, rest, tr) ->
    quiet tr
    /\ (forall ch job ret,
           In (TR_COMMIT ch job ret) tr -> ch = channel /\ job = info).
Proof.
  induction script as [| resp script IH]; intros pc r rest tr H.
  - destruct pc; cbn in H; inversion H; subst;
      (split; [now repeat split | intros ? ? ? []]).
  - destruct pc.
    + rewrite tr_run_setup in H.
      destruct (tr_run channel info
                  (if truthy resp then Returned (-1) else AtFirstQuery)
                  script) as [[r0 rest0] tr0] eqn:E.
      cbn in H. inversion H; subst. apply IH in E as [[Q1 [Q2 Q3]] Hc].
      split; [now repeat split |].
      intros ch job ret [Heq | Hin]; [inversion Heq; now subst | eauto].
    + rewrite tr_run_first_query in H.
      destruct (tr_run channel info AtPoll script)
        as [[r0 rest0] tr0] eqn:E.
      cbn in H. inversion H; subst. apply IH in E as [[Q1 [Q2 Q3]] Hc].
      split; [now repeat split |].
      intros ch job ret [Heq | Hin]; [discriminate Heq | eauto].
    + rewrite tr_run_poll in H.
      destruct (resp =? 1);
        [| destruct (resp =? -1)];
        match type of H with
        | after_calls _ (tr_run ?c ?i ?p ?s) = _ =>
            destruct (tr_run c i p s) as [[r0 rest0] tr0] eqn:E
        end;
        cbn in H; inversion H; subst; apply IH in E as [[Q1 [Q2 Q3]] Hc];
        (split; [now repeat split |]);
        intros ch job ret Hin; cbn in Hin;
        repeat (destruct Hin as [Heq | Hin]; [discriminate Heq |]);
        eauto.
    + rewrite tr_run_returned in H. inversion H; subst.
      split; [now repeat split | intros ? ? ? []].
Qed.

Lemma hwRotate_first_job (channel : Z) (info : tr_info) (script : list Z)
    (r : Z) (rest : list Z) (tr : list event) :
  hwRotateVideoPicture channel info script = (Some r, rest, tr) ->
  first_job tr = Some info.
Proof.
  unfold hwRotateVideoPicture. destruct script as [| resp script].
  - discriminate.
  - rewrite tr_run_setup.
    destruct (tr_run channel info _ script) as [[r0 rest0] tr0].
    cbn. intros H. inversion H; subst. reflexivity.
Qed.

Lemma submit_job_calls (env : frame_env) (s : GstSunxifbsink)
    (trans_info : tr_info) (returned : bool) (tr : list event) :
  submit_job env s trans_info = (returned, tr) ->
  quiet tr
  /\ (forall ch job ret,
         In (TR_COMMIT ch job ret) tr ->
         ch = transform_channel s /\ job = trans_info)
  /\ (returned = true -> 0 < fd_transform s ->
      first_job tr = Some trans_info)
  /\ (fd_transform s <= 0 -> tr = []).
Proof.
  unfold submit_job. destruct (0 <? fd_transform s) eqn:Efd.
  - destruct (hwRotateVideoPicture (transform_channel s) trans_info
                (tr_script env)) as [[r rest] tr0] eqn:E.
    intros H. inversion H; subst.
    pose proof (tr_run_calls _ _ _ _ _ _ _ E) as [Q Hc].
    split; [exact Q |]. split; [exact Hc |]. split.
    + intros Hr _. destruct r; [| discriminate].
      now apply hwRotate_first_job in E.
    + apply Z.ltb_lt in Efd. lia.
  - intros H. inversion H; subst.
    split; [now repeat split |]. split; [intros ? ? ? [] |]. split.
    + apply Z.ltb_ge in Efd. lia.
    + reflexivity.
Qed.

(** The rotation buffers. *)

Lemma rotation_buffers_calls (env : frame_env) (s s' : GstSunxifbsink)
    (wa ha : Z) (tr : list event) :
  rotation_buffers env s wa ha = inl (s', tr)
  \/ rotation_buffers env s wa ha = inr (s', tr) ->
  quiet tr /\ no_commit tr /\ same_devices s s'
  /\ layer_is_visible s' = layer_is_visible s.
Proof.
  unfold rotation_buffers.
  destruct ((rotate_addr_phy s 0 =? 0) && (rotate_addr_phy s 1 =? 0)).
  - destruct (palloc_first env =? 0);
      [| destruct (palloc_second env =? 0)];
      intros [H | H]; inversion H; subst;
      (repeat split; try reflexivity);
      intros ch job r Hin; cbn in Hin;
      repeat (destruct Hin as [Heq | Hin]; [discriminate Heq |]);
      contradiction.
  - intros [H | H]; inversion H; subst.
    repeat split; try reflexivity. intros ? ? ? [].
Qed.

(** The commit. *)

Lemma commit_and_show_calls (env : frame_env) (s s' : GstSunxifbsink)
    (c : luapi_layer_config) (r : Z) (tr : list event) :
  commit_and_show env s c = (r, s', tr) ->
  committed tr = [c] /\ no_commit tr /\ first_blit tr = None
  /\ same_devices s s'
  /\ rotate_addr_phy0 s' = rotate_addr_phy0 s
  /\ rotate_addr_phy1 s' = rotate_addr_phy1 s
  /\ (set_layer_config_ret env < 0 ->
      r = FALSE /\ s' = s /\ filter is_layer_enable tr = []).
Proof.
  unfold commit_and_show, gst_sunxifbsink_show_layer.
  destruct (set_layer_config_ret env <? 0) eqn:E.
  - intros H. inversion H; subst.
    repeat split; try reflexivity.
    intros ch job ret [Heq | []]; discriminate Heq.
  - apply Z.ltb_ge in E.
    destruct (layer_is_visible s);
      [| destruct (layer_id s <? 0);
         [| destruct (truthy (set_layer_enable_ret env))]];
      intros H; inversion H; subst;
      (repeat split; try reflexivity; try lia);
      intros ch job ret Hin; cbn in Hin;
      repeat (destruct Hin as [Heq | Hin]; [discriminate Heq |]);
      contradiction.
Qed.

End PresenterFacts.

(** ** The zero-copy planar presenter, case by case *)

Section ShowMemoryFacts.

Variable b : build.
Variable env : frame_env.
Variable g : statics.
Variable s : GstSunxifbsink.
Variable format : GstVideoFormat.
Variable mem : GstMemory.

Local Abbreviation phymem_start := (phys_of env (mapinfo_data mem)).
Local Abbreviation angle := (rotate_angle_property (framebuffersink s)).
Local Abbreviation c0 := (memory_fb b env s format mem).
Local Abbreviation buffers :=
  (rotation_buffers env s (ALIGN_32B (luma_width b c0))
     (ALIGN_32B (luma_height b c0))).

(** A presentation that returns is one of three: without rotation; with
    rotation and without memory for the buffers; with rotation. *)
Lemma show_memory_inversion (o : outcome) :
  gst_sunxifbsink_show_memory_yuv_planar b env g s format mem = Some o ->
  (memory_rotates b s format = false
   /\ exists r s' trc,
       commit_and_show env s
         (memory_layer_info b env s false trans_info_zero c0)
       = (r, s', trc)
       /\ o = {| result := r; sink_after := s'; statics_after := g;
                 calls := memory_fb_calls b s ++ [] ++ trc |})
  \/ (memory_rotates b s format = true
      /\ exists s1 tra,
          buffers = inr (s1, tra)
          /\ o = {| result := GST_FLOW_ERROR; sink_after := s1;
                    statics_after := g;
                    calls := memory_fb_calls b s1 ++ tra |})
  \/ (memory_rotates b s format = true
      /\ exists s1 tra trr r s' trc,
          buffers = inl (s1, tra)
          /\ submit_job env s1
               (job_of_config b env s1 c0 phymem_start angle
                  (next_m (show_memory_m g)))
             = (true, trr)
          /\ commit_and_show env s1
               (memory_layer_info b env s1 true
                  (job_of_config b env s1 c0 phymem_start angle
                     (next_m (show_memory_m g)))
                  (point_at_rotated b env s1
                     (job_of_config b env s1 c0 phymem_start angle
                        (next_m (show_memory_m g))) c0))
             = (r, s', trc)
          /\ o = {| result := r; sink_after := s';
                    statics_after :=
                      set_show_memory_m (next_m (show_memory_m g)) g;
                    calls := memory_fb_calls b s ++ (tra ++ trr) ++ trc |}).
Proof.
  unfold gst_sunxifbsink_show_memory_yuv_planar, memory_rotates.
  destruct (SUNXI_DISPLAY2 b && format_eqb format GST_VIDEO_FORMAT_Y444)
    eqn:EY; cbn [negb andb].
  - rewrite Bool.andb_false_r.
    destruct (commit_and_show env s _) as [[r s'] trc] eqn:EC.
    intros H. inversion H; subst. left. split; [reflexivity |].
    exists r, s', trc. now split.
  - rewrite Bool.andb_true_r.
    destruct (0 <? angle) eqn:EA.
    + unfold rotate_block.
      destruct buffers as [[s1 tra] | [s1 tra]] eqn:EB.
      * destruct (submit_job env s1 _) as [returned trr] eqn:ES.
        destruct returned; cbn [negb]; [| discriminate].
        destruct (commit_and_show env s1 _) as [[r s'] trc] eqn:EC.
        intros H. inversion H; subst. right; right.
        split; [reflexivity |].
        exists s1, tra, trr, r, s', trc. now repeat split.
      * intros H. inversion H; subst. right; left.
        split; [reflexivity |]. exists s1, tra. now split.
    + destruct (commit_and_show env s _) as [[r s'] trc] eqn:EC.
      intros H. inversion H; subst. left. split; [reflexivity |].
      exists r, s', trc. now split.
Qed.

End ShowMemoryFacts.

(** ** Alignment arithmetic *)

Section AlignFacts.

Lemma u32_range (x : Z) : 0 <= u32 x < 2 ^ 32.
Proof. unfold u32. apply Z.mod_pos_bound. lia. Qed.

Lemma u32_small (x : Z) : 0 <= x < 2 ^ 32 -> u32 x = x.
Proof. unfold u32. apply Z.mod_small. Qed.

Lemma ulong_range (a : abi) (x : Z) : 0 <= ulong a x < 2 ^ long_bits a.
Proof. unfold ulong. apply Z.mod_pos_bound. destruct a; cbn; lia. Qed.

Lemma ulong_small (a : abi) (x : Z) :
  0 <= x < 2 ^ long_bits a -> ulong a x = x.
Proof. unfold ulong. apply Z.mod_small. Qed.

(** Clearing the five low bits of a 32-bit value. *)
Lemma land_clear5 (y : Z) :
  0 <= y < 2 ^ 32 -> Z.land y (u32 (Z.lnot 31)) = 32 * (y / 32).
Proof.
  intros Hy.
  change (u32 (Z.lnot 31)) with (Z.ldiff (Z.ones 32) (Z.ones 5)).
  assert (E : Z.land y (Z.ldiff (Z.ones 32) (Z.ones 5))
              = Z.ldiff (Z.land y (Z.ones 32)) (Z.ones 5)).
  { apply Z.bits_inj'. intros n Hn.
    rewrite Z.land_spec, !Z.ldiff_spec, Z.land_spec.
    apply Bool.andb_assoc. }
  rewrite E, Z.ldiff_ones_r by lia.
  rewrite Z.land_ones by lia. rewrite (Z.mod_small y) by lia.
  rewrite Z.shiftr_div_pow2, Z.shiftl_mul_pow2 by lia.
  change (2 ^ 5) with 32. lia.
Qed.

Lemma ALIGN_32B_eq (x : Z) : ALIGN_32B x = 32 * (u32 (x + 31) / 32).
Proof. unfold ALIGN_32B. apply land_clear5, u32_range. Qed.

Lemma ALIGN_32B_range (x : Z) : 0 <= ALIGN_32B x < 2 ^ 32.
Proof.
  rewrite ALIGN_32B_eq. pose proof (u32_range (x + 31)) as H.
  pose proof (Z.mul_div_le (u32 (x + 31)) 32 ltac:(lia)).
  pose proof (Z.div_pos (u32 (x + 31)) 32 ltac:(lia) ltac:(lia)).
  lia.
Qed.

(** Half of an aligned value is exact. *)
Lemma ALIGN_32B_half (x : Z) : 2 * (ALIGN_32B x / 2) = ALIGN_32B x.
Proof.
  rewrite ALIGN_32B_eq.
  replace (32 * (u32 (x + 31) / 32))
    with ((u32 (x + 31) / 32 * 16) * 2) by lia.
  rewrite Z.div_mul by lia. lia.
Qed.

(** An aligned value is the least multiple of 32 that is not below the
    value, when that multiple fits 32 bits. *)
Lemma ALIGN_32B_spec (x : Z) :
  0 <= x -> x + 31 < 2 ^ 32 ->
  x <= ALIGN_32B x < x + 32 /\ ALIGN_32B x mod 32 = 0.
Proof.
  intros H0 H1. rewrite ALIGN_32B_eq, u32_small by lia.
  pose proof (Z.div_mod (x + 31) 32 ltac:(lia)).
  pose proof (Z.mod_pos_bound (x + 31) 32 ltac:(lia)).
  split; [lia |].
  rewrite Z.mul_comm. apply Z.mod_mul. lia.
Qed.

End AlignFacts.

(** ** The jobs the zero-copy presenter submits *)

Section JobFacts.

Lemma memory_fb_calls_no_commit (b : build) (s : GstSunxifbsink) :
  no_commit (memory_fb_calls b s).
Proof.
  unfold memory_fb_calls. destruct (SUNXI_DISPLAY2 b); intros ch job r Hin.
  - destruct Hin.
  - destruct Hin as [Heq | []]. discriminate Heq.
Qed.

Lemma memory_fb_calls_quiet (b : build) (s : GstSunxifbsink) :
  quiet (memory_fb_calls b s).
Proof.
  unfold memory_fb_calls. destruct (SUNXI_DISPLAY2 b); now repeat split.
Qed.

Lemma rotate_addr_phy_ext (s s' : GstSunxifbsink) (i : Z) :
  rotate_addr_phy0 s' = rotate_addr_phy0 s ->
  rotate_addr_phy1 s' = rotate_addr_phy1 s ->
  rotate_addr_phy s' i = rotate_addr_phy s i.
Proof. unfold rotate_addr_phy. now intros -> ->. Qed.

Lemma job_of_config_ext (b : build) (env : frame_env)
    (s s' : GstSunxifbsink) (c : luapi_layer_config) (p rt m : Z) :
  rotate_addr_phy0 s' = rotate_addr_phy0 s ->
  rotate_addr_phy1 s' = rotate_addr_phy1 s ->
  job_of_config b env s' c p rt m = job_of_config b env s c p rt m.
Proof.
  intros H0 H1. unfold job_of_config.
  now rewrite (rotate_addr_phy_ext s s' _ H0 H1).
Qed.

Lemma memory_fb_luma_width (b : build) (env : frame_env)
    (s : GstSunxifbsink) (format : GstVideoFormat) (mem : GstMemory) :
  luma_width b (memory_fb b env s format mem)
  = u32 (stride_in_pixels (framebuffersink s)).
Proof.
  unfold luma_width, memory_fb, planar_fb_display2, planar_fb_legacy.
  destruct (SUNXI_DISPLAY2 b); destruct format; reflexivity.
Qed.

Lemma memory_fb_luma_height (b : build) (env : frame_env)
    (s : GstSunxifbsink) (format : GstVideoFormat) (mem : GstMemory) :
  format = GST_VIDEO_FORMAT_I420 \/ format = GST_VIDEO_FORMAT_YV12 ->
  luma_height b (memory_fb b env s format mem)
  = u32 (videosink_height (framebuffersink s)).
Proof.
  unfold luma_height, memory_fb, planar_fb_display2, planar_fb_legacy.
  intros [-> | ->]; destruct (SUNXI_DISPLAY2 b); reflexivity.
Qed.

(** Every [TR_COMMIT] of a presentation carries the job built from the
    frame buffer description, with the rotation buffer of index
    [(++m) % 2] as destination; the counter is left incremented. *)
Lemma show_memory_job (b : build) (env : frame_env) (g : statics)
    (s : GstSunxifbsink) (format : GstVideoFormat) (mem : GstMemory)
    (o : outcome) (ch : Z) (job : tr_info) (ret : Z) :
  gst_sunxifbsink_show_memory_yuv_planar b env g s format mem = Some o ->
  In (TR_COMMIT ch job ret) (calls o) ->
  memory_rotates b s format = true
  /\ statics_after o = set_show_memory_m (next_m (show_memory_m g)) g
  /\ job = job_of_config b env (sink_after o)
             (memory_fb b env s format mem)
             (phys_of env (mapinfo_data mem))
             (rotate_angle_property (framebuffersink s))
             (next_m (show_memory_m g)).
Proof.
  intros H Hin.
  apply show_memory_inversion in H
    as [(_ & r & s' & trc & EC & ->)
       | [(_ & s1 & tra & EB & ->)
         | (Hrot & s1 & tra & trr & r & s' & trc & EB & ES & EC & ->)]];
    cbn [calls statics_after sink_after] in *.
  - exfalso. apply commit_and_show_calls in EC as (_ & Hn & _).
    apply in_app_or in Hin as [Hin | Hin];
      [now apply memory_fb_calls_no_commit in Hin |].
    now apply Hn in Hin.
  - exfalso.
    assert (Hb : no_commit tra).
    { eapply rotation_buffers_calls. right. exact EB. }
    apply in_app_or in Hin as [Hin | Hin];
      [now apply memory_fb_calls_no_commit in Hin | now apply Hb in Hin].
  - split; [assumption |]. split; [reflexivity |].
    assert (Hb : no_commit tra).
    { eapply rotation_buffers_calls. left. exact EB. }
    apply commit_and_show_calls in EC as (_ & Hn & _ & _ & E0 & E1 & _).
    apply submit_job_calls in ES as (_ & Hj & _).
    rewrite (job_of_config_ext b env s1 s' _ _ _ _ E0 E1).
    apply in_app_or in Hin as [Hin | Hin];
      [now apply memory_fb_calls_no_commit in Hin |].
    apply in_app_or in Hin as [Hin | Hin]; [| now apply Hn in Hin].
    apply in_app_or in Hin as [Hin | Hin]; [now apply Hb in Hin |].
    now apply Hj in Hin.
Qed.

End JobFacts.

(** C5. Every job the zero-copy presenter submits, in either backend, has
    as source pitch and height the plane-0 width and height of the frame
    buffer description aligned to 32 (the width being the scanline stride
    in pixels); with mode 180 degrees the destination keeps them (pitch =
    aligned width, height = aligned height), with modes 90 and 270 degrees
    it transposes them (pitch = aligned height, height = aligned width);
    and the chroma pitch and height of the destination are exactly half of
    the luma ones. *)
Theorem rotation_job_geometry :
  forall (b : build) (env : frame_env) (g : statics) (s : GstSunxifbsink)
         (format : GstVideoFormat) (mem : GstMemory) (o : outcome)
         (ch : Z) (job : tr_info) (ret : Z),
    gst_sunxifbsink_show_memory_yuv_planar b env g s format mem = Some o ->
    In (TR_COMMIT ch job ret) (calls o) ->
    let width_align :=
      ALIGN_32B (u32 (stride_in_pixels (framebuffersink s))) in
    let height_align :=
      ALIGN_32B (luma_height b (memory_fb b env s format mem)) in
    pitch0 (src_frame job) = width_align
    /\ height0 (src_frame job) = height_align
    /\ (format = GST_VIDEO_FORMAT_I420 \/ format = GST_VIDEO_FORMAT_YV12 ->
        height_align = ALIGN_32B (u32 (videosink_height (framebuffersink s))))
    /\ (mode job = TR_ROT_180 ->
        pitch0 (dst_frame job) = width_align
        /\ height0 (dst_frame job) = height_align)
    /\ (mode job = TR_ROT_90 \/ mode job = TR_ROT_270 ->
        pitch0 (dst_frame job) = height_align
        /\ height0 (dst_frame job) = width_align)
    /\ pitch1 (dst_frame job) = pitch0 (dst_frame job) / 2
    /\ pitch2 (dst_frame job) = pitch0 (dst_frame job) / 2
    /\ height1 (dst_frame job) = height0 (dst_frame job) / 2
    /\ height2 (dst_frame job) = height0 (dst_frame job) / 2
    /\ 2 * pitch1 (dst_frame job) = pitch0 (dst_frame job)
    /\ 2 * height1 (dst_frame job) = height0 (dst_frame job).
Proof.
  intros b env g s format mem o ch job ret H Hin width_align height_align.
  apply (show_memory_job b env g s format mem o ch job ret H) in Hin
    as (_ & _ & ->).
  subst width_align height_align.
  rewrite <- (memory_fb_luma_width b env s format mem).
  unfold job_of_config, rotation_job.
  split; [| split; [| split; [| split; [| split]]]].
  - destruct (_ =? TR_ROT_180); reflexivity.
  - destruct (_ =? TR_ROT_180); reflexivity.
  - intros Hf. now rewrite memory_fb_luma_height.
  - destruct (_ =? TR_ROT_180) eqn:E; cbn [mode dst_frame pitch0 height0].
    + now split.
    + intros E'. apply Z.eqb_neq in E. contradiction.
  - destruct (_ =? TR_ROT_180) eqn:E; cbn [mode dst_frame pitch0 height0].
    + apply Z.eqb_eq in E. rewrite E. unfold TR_ROT_180, TR_ROT_90, TR_ROT_270.
      intros [E' | E']; discriminate E'.
    + now split.
  - destruct (_ =? TR_ROT_180);
      cbn [dst_frame pitch0 pitch1 pitch2 height0 height1 height2];
      repeat split; apply ALIGN_32B_half.
Qed.

(** A job a presentation submitted first is among its calls. *)
Lemma first_job_In (tr : list event) (job : tr_info) :
  first_job tr = Some job -> exists ch ret, In (TR_COMMIT ch job ret) tr.
Proof.
  induction tr as [| e tr IH]; [discriminate |].
  destruct e; cbn [first_job]; intros H;
    try (destruct (IH H) as (ch & r & Hin); exists ch, r; now right).
  inversion H; subst. exists channel, ret. now left.
Qed.

(** Evaluating a closed equation between small values. *)
Ltac evaluated := vm_compute; reflexivity.

(** C5 on a 720x480 frame rotated by 90 degrees: the source is 736 by 480
    (720 aligned to 32), the destination 480 by 736, and its chroma planes
    240 by 368. *)
Lemma rotation_job_geometry_witness :
  exists o ch job ret,
    gst_sunxifbsink_show_memory_yuv_planar display2
      (sample_env 720 480 0 zeroed [0; 0; 0]) statics_init
      (sample_sink 720 480 1 0 0 0) GST_VIDEO_FORMAT_I420
      (sample_memory true)
    = Some o
    /\ In (TR_COMMIT ch job ret) (calls o)
    /\ mode job = TR_ROT_90
    /\ pitch0 (src_frame job) = 736 /\ height0 (src_frame job) = 480
    /\ pitch0 (dst_frame job) = 480 /\ height0 (dst_frame job) = 736
    /\ pitch1 (dst_frame job) = 240 /\ height1 (dst_frame job) = 368.
Proof.
  match goal with
  | |- exists o ch job ret, ?run = Some o /\ _ =>
      assert (Hj : option_map
                     (fun o => option_map
                                 (fun j => (mode j, pitch0 (src_frame j),
                                            height0 (src_frame j)))
                                 (first_job (calls o))) run
                   = Some (Some (TR_ROT_90, 736, 480))) by evaluated;
      destruct run as [o |] eqn:E; [| discriminate Hj]
  end.
  cbn [option_map] in Hj.
  destruct (first_job (calls o)) as [job |] eqn:Ej; [| discriminate Hj].
  cbn [option_map] in Hj. inversion Hj as [[Hm Hp Hh]].
  destruct (first_job_In _ _ Ej) as (ch & ret & Hin).
  exists o, ch, job, ret.
  destruct (rotation_job_geometry display2 _ _ _ _ _ o ch job ret E Hin)
    as (_ & _ & _ & _ & H90 & Hp1 & _ & Hh1 & _).
  destruct (H90 (or_introl Hm)) as [Hd Hdh].
  rewrite Hp1, Hh1, Hd, Hdh, Hp, Hh.
  repeat split; assumption.
Defined.

(** The sample of the specification, 64x48: rotated by 180 degrees the
    destination has the pitch and the height of the source, 64 by 64 (48
    aligned to 32). *)
Example rotation_64x48_by_180 :
  let job :=
    job_of_config display2 (sample_env 64 48 0 zeroed [])
      (sample_sink 64 48 2 0 1048576 2097152)
      (memory_fb display2 (sample_env 64 48 0 zeroed [])
         (sample_sink 64 48 2 0 1048576 2097152) GST_VIDEO_FORMAT_I420
         (sample_memory true))
      4218880 2 1 in
  (pitch0 (src_frame job), height0 (src_frame job)) = (64, 64)
  /\ (pitch0 (dst_frame job), height0 (dst_frame job)) = (64, 64)
  /\ (pitch1 (dst_frame job), height1 (dst_frame job)) = (32, 32).
Proof. repeat split. Qed.

(** C8. In every job the zero-copy presenter submits, in either backend and
    for every mode, the destination planes hang off one base address, the
    physical address of the rotation buffer of index [(++m) % 2]: plane 0
    at the base, plane 1 at base + pitch x height and plane 2 at
    base + pitch x height x 5 / 4, computed as the source does, in
    [unsigned int] for the products and [unsigned long] for the sums;
    pitch x height is the product of the 32-aligned source width and the
    32-aligned source height whatever the mode. When the products fit 32
    bits and the addresses fit an [unsigned long], these are the exact
    sums. *)
Theorem rotation_job_plane_addresses :
  forall (b : build) (env : frame_env) (g : statics) (s : GstSunxifbsink)
         (format : GstVideoFormat) (mem : GstMemory) (o : outcome)
         (ch : Z) (job : tr_info) (ret : Z),
    gst_sunxifbsink_show_memory_yuv_planar b env g s format mem = Some o ->
    In (TR_COMMIT ch job ret) (calls o) ->
    let a := target b in
    let dst := dst_frame job in
    let area := pitch0 dst * height0 dst in
    laddr0 dst
    = ulong a (phys_of env
                 (rotate_addr_phy (sink_after o)
                    (parity (next_m (show_memory_m g)))))
    /\ area
       = ALIGN_32B (u32 (stride_in_pixels (framebuffersink s)))
         * ALIGN_32B (luma_height b (memory_fb b env s format mem))
    /\ laddr1 dst = ulong a (laddr0 dst + u32 area)
    /\ laddr2 dst = ulong a (laddr0 dst + u32 (u32 area * 5) / 4)
    /\ (area * 5 < 2 ^ 32 ->
        laddr0 dst + area * 5 / 4 < 2 ^ long_bits a ->
        laddr1 dst = laddr0 dst + area
        /\ laddr2 dst = laddr0 dst + area * 5 / 4).
Proof.
  intros b env g s format mem o ch job ret H Hin a dst area.
  apply (show_memory_job b env g s format mem o ch job ret H) in Hin
    as (_ & _ & Hjob).
  assert (Hbase :
    laddr0 dst
    = ulong a (phys_of env
                 (rotate_addr_phy (sink_after o)
                    (parity (next_m (show_memory_m g)))))).
  { subst dst. rewrite Hjob. unfold job_of_config, rotation_job.
    destruct (_ =? TR_ROT_180); reflexivity. }
  assert (Harea :
    area = ALIGN_32B (luma_width b (memory_fb b env s format mem))
           * ALIGN_32B (luma_height b (memory_fb b env s format mem))).
  { subst area dst. rewrite Hjob. unfold job_of_config, rotation_job.
    destruct (_ =? TR_ROT_180); cbn [dst_frame pitch0 height0]; lia. }
  assert (H1 : laddr1 dst = ulong a (laddr0 dst + u32 area)).
  { rewrite Harea. subst dst. rewrite Hjob.
    unfold job_of_config, rotation_job.
    destruct (_ =? TR_ROT_180); reflexivity. }
  assert (H2 : laddr2 dst = ulong a (laddr0 dst + u32 (u32 area * 5) / 4)).
  { rewrite Harea. subst dst. rewrite Hjob.
    unfold job_of_config, rotation_job.
    destruct (_ =? TR_ROT_180); reflexivity. }
  split; [exact Hbase |].
  split; [now rewrite Harea, memory_fb_luma_width |].
  split; [exact H1 |]. split; [exact H2 |].
  intros Hfit Hlong.
  assert (Hpos : 0 <= area).
  { rewrite Harea. apply Z.mul_nonneg_nonneg; apply ALIGN_32B_range. }
  assert (Hb0 : 0 <= laddr0 dst) by (rewrite Hbase; apply ulong_range).
  pose proof (Z.div_mod (area * 5) 4 ltac:(lia)) as Hdm.
  pose proof (Z.mod_pos_bound (area * 5) 4 ltac:(lia)) as Hmb.
  rewrite H1, H2.
  rewrite (u32_small area) by lia.
  rewrite (u32_small (area * 5)) by lia.
  split; apply ulong_small; lia.
Qed.

(** C8 on a 720x480 frame rotated by 180 degrees, the first job of the
    sink: the buffers are allocated at 0x100000 and 0x200000, the counter
    goes from 0 to 1 and the destination is the second buffer, at physical
    address 0x40200000; its planes are 736 x 480 = 353280 and
    353280 x 5 / 4 = 441600 bytes further. *)
Lemma rotation_job_plane_addresses_witness :
  exists o ch job ret,
    gst_sunxifbsink_show_memory_yuv_planar display2
      (sample_env 720 480 0 zeroed [0; 0; 0]) statics_init
      (sample_sink 720 480 2 0 0 0) GST_VIDEO_FORMAT_I420
      (sample_memory true)
    = Some o
    /\ In (TR_COMMIT ch job ret) (calls o)
    /\ pitch0 (dst_frame job) * height0 (dst_frame job) = 353280
    /\ laddr0 (dst_frame job) = 1075838976
    /\ laddr1 (dst_frame job) = 1075838976 + 353280
    /\ laddr2 (dst_frame job) = 1075838976 + 353280 * 5 / 4.
Proof.
  match goal with
  | |- exists o ch job ret, ?run = Some o /\ _ =>
      assert (Hj : option_map
                     (fun o => option_map
                                 (fun j => (laddr0 (dst_frame j),
                                            pitch0 (dst_frame j)
                                            * height0 (dst_frame j)))
                                 (first_job (calls o))) run
                   = Some (Some (1075838976, 353280))) by evaluated;
      destruct run as [o |] eqn:E; [| discriminate Hj]
  end.
  cbn [option_map] in Hj.
  destruct (first_job (calls o)) as [job |] eqn:Ej; [| discriminate Hj].
  cbn [option_map] in Hj. inversion Hj as [[Hbase Harea]].
  destruct (first_job_In _ _ Ej) as (ch & ret & Hin).
  exists o, ch, job, ret.
  destruct (rotation_job_plane_addresses display2 _ _ _ _ _ o ch job ret
              E Hin) as (_ & _ & _ & _ & Hexact).
  cbv zeta in Hexact. rewrite Harea, Hbase in Hexact.
  destruct Hexact as [H1 H2]; [evaluated | evaluated |].
  rewrite H1, H2, Harea, Hbase. repeat split; assumption.
Defined.

(** ** The configuration the zero-copy presenter commits after a rotation *)

Section RotatedConfigFacts.

Variable b : build.
Variable env : frame_env.

Lemma memory_layer_info_planes (s : GstSunxifbsink) (rotate_enable : bool)
    (trans_info : tr_info) (c : luapi_layer_config) (i : Z) :
  plane_address b (memory_layer_info b env s rotate_enable trans_info c) i
  = plane_address b c i.
Proof.
  unfold plane_address, memory_layer_info.
  destruct (SUNXI_DISPLAY2 b); [| reflexivity].
  destruct (rotate_enable && _); reflexivity.
Qed.

Lemma point_at_rotated_planes (s : GstSunxifbsink) (trans_info : tr_info)
    (c : luapi_layer_config) :
  plane_address b (point_at_rotated b env s trans_info c) 0
  = address_of_pointer b (phys_of env (rotate_addr_phy s 0))
  /\ plane_address b (point_at_rotated b env s trans_info c) 1
     = address_of_ulong b (laddr1 (dst_frame trans_info))
  /\ plane_address b (point_at_rotated b env s trans_info c) 2
     = address_of_ulong b (laddr2 (dst_frame trans_info)).
Proof.
  unfold plane_address, point_at_rotated, address_of_pointer,
    address_of_ulong.
  destruct (SUNXI_DISPLAY2 b); repeat split.
Qed.

Lemma job_of_config_destination (s : GstSunxifbsink)
    (c : luapi_layer_config) (phymem_start rt_mode m : Z) :
  let dst := dst_frame (job_of_config b env s c phymem_start rt_mode m) in
  let area := ALIGN_32B (luma_width b c) * ALIGN_32B (luma_height b c) in
  laddr0 dst = ulong (target b) (phys_of env (rotate_addr_phy s (parity m)))
  /\ laddr1 dst = ulong (target b) (laddr0 dst + u32 area)
  /\ laddr2 dst = ulong (target b) (laddr0 dst + u32 (u32 area * 5) / 4).
Proof.
  unfold job_of_config, rotation_job.
  destruct (rt_mode =? TR_ROT_180); repeat split.
Qed.

(** With rotation, what is committed is the rotated configuration. *)
Lemma show_memory_committed_rotated (g : statics) (s : GstSunxifbsink)
    (format : GstVideoFormat) (mem : GstMemory) (o : outcome)
    (cfg : luapi_layer_config) :
  gst_sunxifbsink_show_memory_yuv_planar b env g s format mem = Some o ->
  memory_rotates b s format = true ->
  In cfg (committed (calls o)) ->
  exists s1 trans_info,
    rotate_addr_phy0 (sink_after o) = rotate_addr_phy0 s1
    /\ rotate_addr_phy1 (sink_after o) = rotate_addr_phy1 s1
    /\ trans_info
       = job_of_config b env s1 (memory_fb b env s format mem)
           (phys_of env (mapinfo_data mem))
           (rotate_angle_property (framebuffersink s))
           (next_m (show_memory_m g))
    /\ cfg = memory_layer_info b env s1 true trans_info
               (point_at_rotated b env s1 trans_info
                  (memory_fb b env s format mem)).
Proof.
  intros H Hrot Hin.
  apply show_memory_inversion in H
    as [(Hno & _)
       | [(_ & s1 & tra & EB & ->)
         | (_ & s1 & tra & trr & r & s' & trc & EB & ES & EC & ->)]];
    cbn [calls sink_after] in *.
  - congruence.
  - exfalso.
    assert (Hq : quiet tra).
    { eapply rotation_buffers_calls. right. exact EB. }
    pose proof (quiet_app _ _ (memory_fb_calls_quiet b s1) Hq) as (Hc & _).
    rewrite Hc in Hin. destruct Hin.
  - exists s1, (job_of_config b env s1 (memory_fb b env s format mem)
                  (phys_of env (mapinfo_data mem))
                  (rotate_angle_property (framebuffersink s))
                  (next_m (show_memory_m g))).
    assert (Hq : quiet tra).
    { eapply rotation_buffers_calls. left. exact EB. }
    apply submit_job_calls in ES as (Hq' & _).
    apply commit_and_show_calls in EC as (Hc & _ & _ & _ & E0 & E1 & _).
    destruct (memory_fb_calls_quiet b s) as (Hf & _).
    destruct Hq as (Hqa & _). destruct Hq' as (Hqb & _).
    rewrite !committed_app, Hf, Hqa, Hqb, Hc in Hin. cbn in Hin.
    destruct Hin as [<- | []]. now repeat split.
Qed.

End RotatedConfigFacts.

(** C9 fails for the planar presenter of frames addressed by offset. With
    the block-transform engine a YV12 frame rotated by 90 degrees, the first
    of the sink, is blitted into the second rotation buffer (physical
    address 0x40200000) and that address is committed for plane 0, not the
    address of [rotate_addr_phy[0]] (0x40100000). *)
Lemma show_overlay_planar_commits_selected_slot :
  0 < rotate_angle_property
        (framebuffersink (sample_sink 720 480 1 0 0 0))
  /\ map (fun c => plane_address display2_g2d c 0)
       (committed
          (calls
             (gst_sunxifbsink_show_overlay_yuv_planar display2_g2d
                (sample_env 720 480 0 zeroed []) statics_init
                (sample_sink 720 480 1 0 0 0) 5242880
                GST_VIDEO_FORMAT_YV12)))
     = [1075838976]
  /\ address_of_pointer display2_g2d
       (phys_of (sample_env 720 480 0 zeroed [])
          (rotate_addr_phy
             (sink_after
                (gst_sunxifbsink_show_overlay_yuv_planar display2_g2d
                   (sample_env 720 480 0 zeroed []) statics_init
                   (sample_sink 720 480 1 0 0 0) 5242880
                   GST_VIDEO_FORMAT_YV12)) 0))
     = 1074790400
  /\ 1075838976 <> 1074790400.
Proof.
  split; [reflexivity |].
  split; [vm_compute; reflexivity |].
  split; [vm_compute; reflexivity | discriminate].
Qed.

(** C9, amended to the zero-copy presenter. In both backends, whenever
    [gst_sunxifbsink_show_memory_yuv_planar] rotates a frame, the
    configuration it commits has as plane 0 the physical address of
    [rotate_addr_phy[0]], and as planes 1 and 2 the addresses of the job's
    destination, which hang off the rotation buffer of index [(++m) % 2];
    so when that index is 1 the chroma addresses lie in
    [rotate_addr_phy[1]] and the luma address in [rotate_addr_phy[0]]. *)
Theorem show_memory_commits_slot0_luma :
  forall (b : build) (env : frame_env) (g : statics) (s : GstSunxifbsink)
         (format : GstVideoFormat) (mem : GstMemory) (o : outcome)
         (cfg : luapi_layer_config),
    gst_sunxifbsink_show_memory_yuv_planar b env g s format mem = Some o ->
    memory_rotates b s format = true ->
    In cfg (committed (calls o)) ->
    let a := target b in
    let p := parity (next_m (show_memory_m g)) in
    let base := ulong a (phys_of env (rotate_addr_phy (sink_after o) p)) in
    let area :=
      ALIGN_32B (u32 (stride_in_pixels (framebuffersink s)))
      * ALIGN_32B (luma_height b (memory_fb b env s format mem)) in
    plane_address b cfg 0
    = address_of_pointer b (phys_of env (rotate_addr_phy (sink_after o) 0))
    /\ plane_address b cfg 1 = address_of_ulong b (ulong a (base + u32 area))
    /\ plane_address b cfg 2
       = address_of_ulong b (ulong a (base + u32 (u32 area * 5) / 4))
    /\ (p = 1 ->
        base = ulong a (phys_of env (rotate_addr_phy1 (sink_after o)))
        /\ plane_address b cfg 0
           = address_of_pointer b
               (phys_of env (rotate_addr_phy0 (sink_after o)))).
Proof.
  intros b env g s format mem o cfg H Hrot Hin a p base area.
  destruct (show_memory_committed_rotated b env g s format mem o cfg
              H Hrot Hin) as (s1 & ti & E0 & E1 & Hti & ->).
  pose proof (job_of_config_destination b env s1
                (memory_fb b env s format mem)
                (phys_of env (mapinfo_data mem))
                (rotate_angle_property (framebuffersink s))
                (next_m (show_memory_m g))) as (L0 & L1 & L2).
  cbv zeta in L0, L1, L2. rewrite <- Hti in L0, L1, L2.
  rewrite memory_fb_luma_width in L1, L2.
  rewrite L0 in L1, L2.
  rewrite <- (rotate_addr_phy_ext s1 (sink_after o) _ E0 E1) in L1, L2.
  destruct (point_at_rotated_planes b env s1 ti
              (memory_fb b env s format mem)) as (P0 & P1 & P2).
  rewrite !memory_layer_info_planes, P0, P1, P2.
  rewrite <- (rotate_addr_phy_ext s1 (sink_after o) 0 E0 E1).
  subst base area a p.
  split; [reflexivity |]. split; [now rewrite L1 |].
  split; [now rewrite L2 |].
  intros ->. split; reflexivity.
Qed.

(** C9 on a 720x480 I420 frame rotated by 180 degrees, the first of the
    sink, in the newer backend: the job goes to the second buffer
    (0x40200000); the committed plane 0 is the first buffer (0x40100000),
    planes 1 and 2 lie 353280 and 441600 bytes into the second. *)
Lemma show_memory_commits_slot0_luma_witness :
  exists o cfg,
    gst_sunxifbsink_show_memory_yuv_planar display2
      (sample_env 720 480 0 zeroed [0; 0; 0]) statics_init
      (sample_sink 720 480 2 0 0 0) GST_VIDEO_FORMAT_I420
      (sample_memory true)
    = Some o
    /\ memory_rotates display2 (sample_sink 720 480 2 0 0 0)
         GST_VIDEO_FORMAT_I420 = true
    /\ In cfg (committed (calls o))
    /\ parity (next_m (show_memory_m statics_init)) = 1
    /\ phys_of (sample_env 720 480 0 zeroed [0; 0; 0])
         (rotate_addr_phy0 (sink_after o)) = 1074790400
    /\ phys_of (sample_env 720 480 0 zeroed [0; 0; 0])
         (rotate_addr_phy1 (sink_after o)) = 1075838976
    /\ plane_address display2 cfg 0 = 1074790400
    /\ plane_address display2 cfg 1 = 1075838976 + 353280
    /\ plane_address display2 cfg 2 = 1075838976 + 441600.
Proof.
  match goal with
  | |- exists o cfg, ?run = Some o /\ _ =>
      assert (Hc : option_map
                     (fun o => (length (committed (calls o)),
                                rotate_addr_phy0 (sink_after o),
                                rotate_addr_phy1 (sink_after o))) run
                   = Some (1%nat, 1048576, 2097152)) by evaluated;
      destruct run as [o |] eqn:E; [| discriminate Hc]
  end.
  cbn [option_map] in Hc. inversion Hc as [[Hlen Hp0 Hp1]].
  destruct (committed (calls o)) as [| cfg rest] eqn:Ec;
    [discriminate Hlen |].
  exists o, cfg.
  assert (Hin : In cfg (committed (calls o))) by (rewrite Ec; now left).
  destruct (show_memory_commits_slot0_luma display2 _ _ _ _ _ o cfg E
              eq_refl Hin) as (H0 & H1 & H2 & _).
  rewrite Ec.
  split; [reflexivity |]. split; [reflexivity |].
  split; [now left |]. split; [reflexivity |].
  rewrite H0, H1, H2.
  unfold rotate_addr_phy. rewrite Hp0, Hp1.
  repeat split.
Defined.

(** ** The parity counter *)

Section ParityFacts.

Lemma next_m_small (m : Z) : 0 <= m < 2 ^ 31 - 1 -> next_m m = m + 1.
Proof.
  intros H. unfold next_m, s32.
  rewrite Z.mod_small by lia. lia.
Qed.

Lemma parity_range (m : Z) : 0 <= m -> parity m = 0 \/ parity m = 1.
Proof.
  intros H. unfold parity. rewrite Z.rem_mod_nonneg by lia.
  pose proof (Z.mod_pos_bound m 2 ltac:(lia)). lia.
Qed.

Lemma parity_succ (m : Z) : 0 <= m -> parity (m + 1) = 1 - parity m.
Proof.
  intros H. unfold parity. rewrite !Z.rem_mod_nonneg by lia.
  pose proof (Z.mod_pos_bound m 2 ltac:(lia)).
  pose proof (Z.div_mod m 2 ltac:(lia)).
  assert (E : m mod 2 = 0 \/ m mod 2 = 1) by lia.
  destruct E as [E | E]; rewrite E.
  - replace (m + 1) with (1 + (m / 2) * 2) by lia.
    now rewrite Z.mod_add by lia.
  - replace (m + 1) with (0 + (m / 2 + 1) * 2) by lia.
    now rewrite Z.mod_add by lia.
Qed.

(** A presentation leaves the transform device as it was, and either
    submits no job, leaving the counter alone when there is a transform
    device, or submits the job of the rotation buffer of index
    [(++m) % 2] and leaves the counter incremented. *)
Lemma show_memory_parity (b : build) (env : frame_env) (g : statics)
    (s : GstSunxifbsink) (format : GstVideoFormat) (mem : GstMemory)
    (o : outcome) :
  gst_sunxifbsink_show_memory_yuv_planar b env g s format mem = Some o ->
  fd_transform (sink_after o) = fd_transform s
  /\ ((first_job (calls o) = None
       /\ (0 < fd_transform s -> statics_after o = g))
      \/ (0 < fd_transform s
          /\ statics_after o
             = set_show_memory_m (next_m (show_memory_m g)) g
          /\ exists job,
              first_job (calls o) = Some job
              /\ laddr0 (dst_frame job)
                 = ulong (target b)
                     (phys_of env
                        (rotate_addr_phy (sink_after o)
                           (parity (next_m (show_memory_m g))))))).
Proof.
  intros H.
  apply show_memory_inversion in H
    as [(_ & r & s' & trc & EC & ->)
       | [(_ & s1 & tra & EB & ->)
         | (_ & s1 & tra & trr & r & s' & trc & EB & ES & EC & ->)]];
    cbn [calls statics_after sink_after].
  - apply commit_and_show_calls in EC as (_ & Hn & _ & Hd & _).
    split; [apply Hd |]. left. split; [| reflexivity].
    apply no_commit_first_job.
    apply no_commit_app; [apply memory_fb_calls_no_commit |].
    now apply no_commit_app; [intros ? ? ? [] |].
  - assert (Hb : no_commit tra /\ same_devices s s1).
    { split; eapply rotation_buffers_calls; right; exact EB. }
    destruct Hb as [Hb Hd].
    split; [apply Hd |]. left. split; [| reflexivity].
    apply no_commit_first_job.
    now apply no_commit_app; [apply memory_fb_calls_no_commit |].
  - assert (Hb : no_commit tra /\ same_devices s s1).
    { split; eapply rotation_buffers_calls; left; exact EB. }
    destruct Hb as [Hb Hd].
    apply commit_and_show_calls in EC as (_ & Hn & _ & Hd' & E0 & E1 & _).
    pose proof (same_devices_trans _ _ _ Hd Hd') as Hd''.
    split; [apply Hd'' |].
    apply submit_job_calls in ES as (_ & _ & Hfirst & Hnone).
    destruct (Z.lt_ge_cases 0 (fd_transform s)) as [Hfd | Hfd].
    + right. split; [assumption |]. split; [reflexivity |].
      eexists. split.
      * rewrite !first_job_app.
        rewrite (no_commit_first_job _ (memory_fb_calls_no_commit b s)).
        rewrite (no_commit_first_job _ Hb).
        rewrite Hfirst; [reflexivity | reflexivity |].
        destruct Hd as (_ & -> & _). assumption.
      * rewrite (rotate_addr_phy_ext s1 s' _ E0 E1).
        apply (job_of_config_destination b env s1).
    + left. split; [| lia].
      rewrite Hnone by (destruct Hd as (_ & -> & _); lia).
      rewrite app_nil_r. apply no_commit_first_job.
      apply no_commit_app; [apply memory_fb_calls_no_commit |].
      now apply no_commit_app.
Qed.

Lemma show_memory_frames_alternate (b : build)
    (frames : list frame) :
  forall (g : statics) (s : GstSunxifbsink)
         (os : list (frame_env * outcome)),
    0 < fd_transform s ->
    0 <= show_memory_m g ->
    show_memory_m g + Z.of_nat (length frames) < 2 ^ 31 ->
    show_memory_frames b frames g s = Some os ->
    exists ps,
      jobs_target (target b) os ps /\ alternating ps
      /\ match ps with
         | [] => True
         | p :: _ => p = parity (show_memory_m g + 1)
         end.
Proof.
  induction frames as [| [[env format] mem] frames IH];
    intros g s os Hfd Hm Hlen H.
  - inversion H; subst. exists []. repeat split. constructor.
  - cbn [show_memory_frames] in H. cbn [length] in Hlen.
    destruct (gst_sunxifbsink_show_memory_yuv_planar b env g s format mem)
      as [o |] eqn:Eo; [| discriminate].
    destruct (show_memory_frames b frames (statics_after o) (sink_after o))
      as [os' |] eqn:Eos; [| discriminate].
    inversion H; subst os. clear H.
    apply show_memory_parity in Eo
      as (Hfd' & [(Hnone & Hg) | (_ & Hg & job & Hjob & Haddr)]).
    + rewrite (Hg Hfd) in Eos.
      destruct (IH g (sink_after o) os') as (ps & Ht & Ha & Hhd);
        try assumption; try lia.
      exists ps. repeat split; try assumption. now constructor.
    + rewrite next_m_small in Hg, Haddr by lia.
      assert (Hm' : show_memory_m (statics_after o) = show_memory_m g + 1)
        by now rewrite Hg.
      destruct (IH (statics_after o) (sink_after o) os')
        as (ps & Ht & Ha & Hhd);
        try assumption; try lia.
      exists (parity (show_memory_m g + 1) :: ps).
      split; [now apply jobs_target_job with (job := job) |].
      split; [| reflexivity].
      cbn [alternating]. split; [apply parity_range; lia |].
      split; [| assumption].
      destruct ps as [| q ps]; [exact I |].
      rewrite Hhd, Hm'. apply parity_succ. lia.
Qed.

Lemma show_memory_frames_no_device (b : build) (frames : list frame) :
  forall (g : statics) (s : GstSunxifbsink)
         (os : list (frame_env * outcome)),
    fd_transform s <= 0 ->
    show_memory_frames b frames g s = Some os ->
    jobs_target (target b) os [].
Proof.
  induction frames as [| [[env format] mem] frames IH];
    intros g s os Hfd H.
  - inversion H; subst. constructor.
  - cbn [show_memory_frames] in H.
    destruct (gst_sunxifbsink_show_memory_yuv_planar b env g s format mem)
      as [o |] eqn:Eo; [| discriminate].
    destruct (show_memory_frames b frames (statics_after o) (sink_after o))
      as [os' |] eqn:Eos; [| discriminate].
    inversion H; subst os. clear H.
    apply show_memory_parity in Eo as (Hfd' & [(Hnone & _) | (Hpos & _)]);
      [| lia].
    constructor; [assumption |].
    apply (IH (statics_after o) (sink_after o)); [lia | assumption].
Qed.

End ParityFacts.


(** ** How the presenters end *)

Section EndingFacts.

Variable b : build.
Variable env : frame_env.

Lemma quiet_display_free (tr : list event) : quiet tr -> display_free tr.
Proof. intros (H1 & H2 & _). now split. Qed.

Lemma display_free_app (x y : list event) :
  display_free x -> display_free y -> display_free (x ++ y).
Proof.
  intros [H1 H2] [H3 H4]. unfold display_free.
  now rewrite committed_app, filter_app, H1, H2, H3, H4.
Qed.

Lemma layer_info_display2_colour (f : GstFramebufferSink)
    (s : GstSunxifbsink) (cw ch : Z) (c : luapi_layer_config) :
  SUNXI_DISPLAY2 b = true ->
  colour_rule b env (layer_info_display2 f s cw ch c).
Proof. unfold colour_rule, screen_height. now intros ->. Qed.

Lemma layer_info_legacy_colour (f : GstFramebufferSink)
    (c : luapi_layer_config) :
  SUNXI_DISPLAY2 b = false ->
  fb_color_space c = fb_color_space (layer_config_read env) ->
  colour_rule b env (layer_info_legacy f c).
Proof. unfold colour_rule. now intros ->. Qed.

Lemma planar_fb_legacy_colour (f : GstFramebufferSink)
    (format : GstVideoFormat) (base : Z) (c : luapi_layer_config) :
  fb_color_space (planar_fb_legacy f format base c) = fb_color_space c.
Proof. unfold planar_fb_legacy. destruct format; reflexivity. Qed.

Lemma point_at_rotated_colour (s : GstSunxifbsink) (trans_info : tr_info)
    (c : luapi_layer_config) :
  fb_color_space (point_at_rotated b env s trans_info c) = fb_color_space c.
Proof. unfold point_at_rotated. destruct (SUNXI_DISPLAY2 b); reflexivity. Qed.

Lemma memory_layer_info_colour (s s1 : GstSunxifbsink)
    (format : GstVideoFormat) (mem : GstMemory) (rotate_enable : bool)
    (trans_info : tr_info) (c : luapi_layer_config) :
  fb_color_space c
  = fb_color_space (memory_fb b env s format mem) ->
  colour_rule b env (memory_layer_info b env s1 rotate_enable trans_info c).
Proof.
  intros Hc. unfold memory_layer_info.
  destruct (SUNXI_DISPLAY2 b) eqn:E.
  - destruct (rotate_enable && _); now apply layer_info_display2_colour.
  - apply layer_info_legacy_colour; [assumption |].
    rewrite Hc. unfold memory_fb. rewrite E. apply planar_fb_legacy_colour.
Qed.

(** The zero-copy presenter. *)
Lemma show_memory_presents (g : statics) (s : GstSunxifbsink)
    (format : GstVideoFormat) (mem : GstMemory) (o : outcome) :
  gst_sunxifbsink_show_memory_yuv_planar b env g s format mem = Some o ->
  presents b env s o.
Proof.
  intros H.
  apply show_memory_inversion in H
    as [(_ & r & s' & trc & EC & ->)
       | [(_ & s1 & tra & EB & ->)
         | (_ & s1 & tra & trr & r & s' & trc & EB & ES & EC & ->)]].
  - right. eexists _, s, (memory_fb_calls b s ++ []), trc.
    cbn [result sink_after calls].
    split; [exact EC |]. split; [now rewrite <- app_assoc |].
    split; [| split; [reflexivity |]].
    + apply display_free_app; [| now split].
      apply quiet_display_free, memory_fb_calls_quiet.
    + now apply memory_layer_info_colour with (s := s) (format := format)
                                              (mem := mem).
  - left. cbn [result sink_after calls].
    assert (Hb : quiet tra /\ layer_is_visible s1 = layer_is_visible s).
    { split; eapply rotation_buffers_calls; right; exact EB. }
    destruct Hb as [Hq Hv].
    split; [reflexivity |]. split; [| exact Hv].
    apply display_free_app; apply quiet_display_free;
      [apply memory_fb_calls_quiet | exact Hq].
  - right.
    assert (Hb : quiet tra /\ layer_is_visible s1 = layer_is_visible s).
    { split; eapply rotation_buffers_calls; left; exact EB. }
    destruct Hb as [Hq Hv].
    apply submit_job_calls in ES as (Hq' & _).
    eexists _, s1, (memory_fb_calls b s ++ tra ++ trr), trc.
    cbn [result sink_after calls].
    split; [exact EC |]. split; [now rewrite <- !app_assoc |].
    split; [| split; [exact Hv |]].
    + repeat apply display_free_app; apply quiet_display_free;
        [apply memory_fb_calls_quiet | exact Hq | exact Hq'].
    + apply memory_layer_info_colour with (s := s) (format := format)
                                          (mem := mem).
      apply point_at_rotated_colour.
Qed.

End EndingFacts.

Section OverlayEndingFacts.

Variable b : build.
Variable env : frame_env.
Variable g : statics.
Variable s : GstSunxifbsink.

Lemma outcome_of_presents (g1 : statics) (s1 : GstSunxifbsink)
    (c : luapi_layer_config) (before : list event) :
  colour_rule b env c ->
  display_free before ->
  layer_is_visible s1 = layer_is_visible s ->
  presents b env s (outcome_of g1 (commit_and_show env s1 c) before).
Proof.
  intros Hc Hd Hv. unfold outcome_of.
  destruct (commit_and_show env s1 c) as [[r s'] trc] eqn:E.
  right. exists c, s1, before, trc. cbn [result sink_after calls].
  split; [exact E |]. split; [reflexivity |].
  split; [exact Hd |]. split; [exact Hv | exact Hc].
Qed.

Lemma get_config_display_free (x y z : Z) :
  display_free [DispGetLayerConfig x y z].
Proof. now split. Qed.

Lemma show_overlay_yuv_packed_presents (framebuffer_offset : Z)
    (format : GstVideoFormat) :
  presents b env s
    (gst_sunxifbsink_show_overlay_yuv_packed b env g s framebuffer_offset
       format).
Proof.
  unfold gst_sunxifbsink_show_overlay_yuv_packed.
  destruct (SUNXI_DISPLAY2 b) eqn:E.
  - apply outcome_of_presents; [| now split | reflexivity].
    now apply layer_info_display2_colour.
  - apply outcome_of_presents;
      [| apply get_config_display_free | reflexivity].
    apply layer_info_legacy_colour; [assumption |].
    destruct (format_eqb format GST_VIDEO_FORMAT_AYUV); reflexivity.
Qed.

Lemma show_overlay_bgrx32_presents (framebuffer_offset : Z) :
  presents b env s
    (gst_sunxifbsink_show_overlay_bgrx32 b env g s framebuffer_offset).
Proof.
  unfold gst_sunxifbsink_show_overlay_bgrx32.
  destruct (SUNXI_DISPLAY2 b) eqn:E.
  - apply outcome_of_presents; [| now split | reflexivity].
    now apply layer_info_display2_colour.
  - apply outcome_of_presents;
      [| apply get_config_display_free | reflexivity].
    now apply layer_info_legacy_colour.
Qed.

Lemma blit_display_free (tr : list event) (blit : g2d_blt_h) (r : Z) :
  quiet tr -> display_free (tr ++ [G2D_CMD_BITBLT_H blit r]).
Proof.
  intros Hq. apply display_free_app; [now apply quiet_display_free |].
  now split.
Qed.

(** The block-transform rotation asks nothing of the display and leaves
    the layer as visible as it was. *)
Lemma g2d_block_calls (c : luapi_layer_config) (format : GstVideoFormat)
    (nRotateDegree : Z) :
  match g2d_block (target b) env g s c format nRotateDegree with
  | BlitFailed s1 _ tr | Blitted _ _ s1 _ tr =>
      display_free tr /\ layer_is_visible s1 = layer_is_visible s
  end.
Proof.
  unfold g2d_block.
  destruct (rotation_buffers env s _ _) as [[s1 tra] | [s1 tra]] eqn:EB.
  - assert (Hb : quiet tra /\ layer_is_visible s1 = layer_is_visible s).
    { split; eapply rotation_buffers_calls; left; exact EB. }
    destruct Hb as [Hq Hv].
    destruct (format_eqb format GST_VIDEO_FORMAT_YV12);
      [| destruct (format_eqb format GST_VIDEO_FORMAT_NV21)];
      try (destruct (g2d_bitblt_ret env <? 0));
      split; try exact Hv;
      try (now apply blit_display_free);
      now apply quiet_display_free.
  - assert (Hb : quiet tra /\ layer_is_visible s1 = layer_is_visible s).
    { split; eapply rotation_buffers_calls; right; exact EB. }
    destruct Hb as [Hq Hv]. split; [now apply quiet_display_free | exact Hv].
Qed.

Lemma show_overlay_yuv_planar_presents (framebuffer_offset : Z)
    (format : GstVideoFormat) :
  presents b env s
    (gst_sunxifbsink_show_overlay_yuv_planar b env g s framebuffer_offset
       format).
Proof.
  unfold gst_sunxifbsink_show_overlay_yuv_planar.
  destruct (SUNXI_DISPLAY2 b) eqn:E.
  - destruct (SUNXI_G2D_ROTATE b
              && (0 <? rotate_angle_property (framebuffersink s))).
    + pose proof (g2d_block_calls
                    (planar_fb_display2 (target b) (framebuffersink s)
                       format framebuffer_offset zeroed)
                    format (rotate_angle_property (framebuffersink s)))
        as Hblock.
      destruct (g2d_block _ _ _ _ _ _ _) as [s1 g1 tr | c blit s1 g1 tr];
        destruct Hblock as [Hd Hv].
      * left. cbn [result calls sink_after].
        split; [reflexivity |]. split; [exact Hd | exact Hv].
      * cbn [andb].
        destruct (is_rot_90_or_270 (flag_h blit));
          [destruct (reset_video_rectangle_flag g1) |];
          (apply outcome_of_presents;
           [now apply layer_info_display2_colour | exact Hd | exact Hv]).
    + cbn [andb]. apply outcome_of_presents; [| now split | reflexivity].
      now apply layer_info_display2_colour.
  - apply outcome_of_presents;
      [| apply get_config_display_free | reflexivity].
    apply layer_info_legacy_colour; [assumption |].
    apply planar_fb_legacy_colour.
Qed.

End OverlayEndingFacts.

(** What follows from the way a presenter ends. *)

Lemma presents_colour (b : build) (env : frame_env) (s : GstSunxifbsink)
    (o : outcome) :
  presents b env s o -> Forall (colour_rule b env) (committed (calls o)).
Proof.
  intros [(_ & [Hc _] & _) | (c & s1 & tr & trc & EC & -> & [Hc _] & _ & Hr)].
  - rewrite Hc. constructor.
  - apply commit_and_show_calls in EC as (Hcc & _).
    rewrite committed_app, Hc, Hcc. cbn. now repeat constructor.
Qed.

Lemma presents_commit_failure (b : build) (env : frame_env)
    (s : GstSunxifbsink) (o : outcome) :
  presents b env s o ->
  set_layer_config_ret env < 0 ->
  committed (calls o) <> [] ->
  result o = FALSE
  /\ filter is_layer_enable (calls o) = []
  /\ layer_is_visible (sink_after o) = layer_is_visible s.
Proof.
  intros [(_ & [Hc _] & _)
         | (c & s1 & tr & trc & EC & Hcalls & [Hc He] & Hv & _)] Hret Hne.
  - contradiction.
  - apply commit_and_show_calls in EC as (_ & _ & _ & _ & _ & _ & Hfail).
    destruct (Hfail Hret) as (Hr & Hs & Hen).
    rewrite Hcalls, filter_app, He, Hen, Hs. now repeat split.
Qed.

(** ** Colour space *)

(** C10 fails in the legacy backend, which never assigns the colour space:
    a 720x480 destination (height below 720) is committed with BT.709 when
    that is what [DispGetLayerConfig] read, and a 1280x720 destination is
    committed with the colour space left at the zero of [memset], BT.709
    never being assigned. *)
Lemma legacy_commit_keeps_colour_space :
  map (fun c => (screen_height legacy c, fb_color_space c))
    (committed
       (calls
          (gst_sunxifbsink_show_overlay_yuv_packed legacy
             (sample_env 720 480 0 read_bt709 []) statics_init
             (sample_sink 720 480 0 0 0 0) 5242880
             GST_VIDEO_FORMAT_YUY2)))
  = [(480, Some DISP_BT709)]
  /\ (if 480 <? 720 then DISP_BT601 else DISP_BT709) <> DISP_BT709
  /\ map (fun c => (screen_height legacy c, fb_color_space c))
       (committed
          (calls
             (gst_sunxifbsink_show_overlay_yuv_packed legacy
                (sample_env 1280 720 0 zeroed []) statics_init
                (sample_sink 1280 720 0 0 0 0) 5242880
                GST_VIDEO_FORMAT_YUY2)))
     = [(720, None)].
Proof.
  split; [vm_compute; reflexivity |].
  split; [discriminate | vm_compute; reflexivity].
Qed.

(** C10, amended. Every configuration a presenter commits has, in the
    newer backend, the colour space BT.601 when the height of its
    destination rectangle is below 720 and BT.709 otherwise, whatever the
    presenter, the format and the frame; in the legacy backend it has the
    colour space [DispGetLayerConfig] read, which no presenter assigns. *)
Theorem committed_colour_space :
  forall (b : build) (env : frame_env) (g : statics) (s : GstSunxifbsink),
    (forall format mem o,
        gst_sunxifbsink_show_memory_yuv_planar b env g s format mem = Some o ->
        Forall (colour_rule b env) (committed (calls o)))
    /\ (forall framebuffer_offset format,
           Forall (colour_rule b env)
             (committed
                (calls (gst_sunxifbsink_show_overlay_yuv_planar b env g s
                          framebuffer_offset format))))
    /\ (forall framebuffer_offset format,
           Forall (colour_rule b env)
             (committed
                (calls (gst_sunxifbsink_show_overlay_yuv_packed b env g s
                          framebuffer_offset format))))
    /\ (forall framebuffer_offset,
           Forall (colour_rule b env)
             (committed
                (calls (gst_sunxifbsink_show_overlay_bgrx32 b env g s
                          framebuffer_offset)))).
Proof.
  intros b env g s. repeat split; intros.
  - eapply presents_colour, show_memory_presents; eassumption.
  - eapply presents_colour, show_overlay_yuv_planar_presents.
  - eapply presents_colour, show_overlay_yuv_packed_presents.
  - eapply presents_colour, show_overlay_bgrx32_presents.
Qed.

(** C10 in the newer backend on the two sides of 720: a 720x480
    destination is committed with BT.601 by the zero-copy presenter and a
    1280x720 one with BT.709 by the packed presenter. *)
Lemma committed_colour_space_witness :
  (exists o,
      gst_sunxifbsink_show_memory_yuv_planar display2
        (sample_env 720 480 0 zeroed []) statics_init
        (sample_sink 720 480 0 0 0 0) GST_VIDEO_FORMAT_I420
        (sample_memory true) = Some o
      /\ Forall (colour_rule display2 (sample_env 720 480 0 zeroed []))
           (committed (calls o))
      /\ map (fun c => (screen_height display2 c, fb_color_space c))
           (committed (calls o))
         = [(480, Some DISP_BT601)])
  /\ Forall (colour_rule display2 (sample_env 1280 720 0 zeroed []))
       (committed
          (calls
             (gst_sunxifbsink_show_overlay_yuv_packed display2
                (sample_env 1280 720 0 zeroed []) statics_init
                (sample_sink 1280 720 0 0 0 0) 5242880
                GST_VIDEO_FORMAT_YUY2)))
  /\ map (fun c => (screen_height display2 c, fb_color_space c))
       (committed
          (calls
             (gst_sunxifbsink_show_overlay_yuv_packed display2
                (sample_env 1280 720 0 zeroed []) statics_init
                (sample_sink 1280 720 0 0 0 0) 5242880
                GST_VIDEO_FORMAT_YUY2)))
     = [(720, Some DISP_BT709)].
Proof.
  split.
  - match goal with
    | |- exists o, ?run = Some o /\ _ =>
        assert (Hc : option_map
                       (fun o =>
                          map (fun c => (screen_height display2 c,
                                         fb_color_space c))
                            (committed (calls o))) run
                     = Some [(480, Some DISP_BT601)]) by evaluated;
        destruct run as [o |] eqn:E; [| discriminate Hc]
    end.
    cbn [option_map] in Hc. inversion Hc as [Hmap].
    exists o. split; [reflexivity |]. split; [| reflexivity].
    exact (proj1 (committed_colour_space display2
                    (sample_env 720 480 0 zeroed []) statics_init
                    (sample_sink 720 480 0 0 0 0))
             GST_VIDEO_FORMAT_I420 (sample_memory true) o E).
  - split; [| evaluated].
    apply (proj1 (proj2 (proj2 (committed_colour_space display2
                    (sample_env 1280 720 0 zeroed []) statics_init
                    (sample_sink 1280 720 0 0 0 0))))).
Defined.

(** ** Commit failure *)

(** C1 does not hold of the code. When [DispSetLayerConfig] returns a
    negative value each of the four presenters returns [FALSE], which as a
    [GstFlowReturn] is [GST_FLOW_OK] and not [GST_FLOW_ERROR]. The rest of
    the claim holds: the layer-enable command is not issued and the
    visibility of the layer is what it was. *)
Theorem commit_failure_returns_FALSE :
  forall (b : build) (env : frame_env) (g : statics) (s : GstSunxifbsink),
    set_layer_config_ret env < 0 ->
    (forall format mem o,
        gst_sunxifbsink_show_memory_yuv_planar b env g s format mem = Some o ->
        committed (calls o) <> [] ->
        result o = FALSE /\ result o = GST_FLOW_OK
        /\ result o <> GST_FLOW_ERROR
        /\ filter is_layer_enable (calls o) = []
        /\ layer_is_visible (sink_after o) = layer_is_visible s)
    /\ (forall framebuffer_offset format o,
           o = gst_sunxifbsink_show_overlay_yuv_planar b env g s
                 framebuffer_offset format
           \/ o = gst_sunxifbsink_show_overlay_yuv_packed b env g s
                    framebuffer_offset format
           \/ o = gst_sunxifbsink_show_overlay_bgrx32 b env g s
                    framebuffer_offset ->
           committed (calls o) <> [] ->
           result o = FALSE /\ result o = GST_FLOW_OK
           /\ result o <> GST_FLOW_ERROR
           /\ filter is_layer_enable (calls o) = []
           /\ layer_is_visible (sink_after o) = layer_is_visible s).
Proof.
  intros b env g s Hret.
  assert (Hall : forall o, presents b env s o ->
                           committed (calls o) <> [] ->
                           result o = FALSE /\ result o = GST_FLOW_OK
                           /\ result o <> GST_FLOW_ERROR
                           /\ filter is_layer_enable (calls o) = []
                           /\ layer_is_visible (sink_after o)
                              = layer_is_visible s).
  { intros o Hp Hne.
    destruct (presents_commit_failure b env s o Hp Hret Hne)
      as (Hr & He & Hv).
    rewrite Hr. repeat split; try assumption. discriminate. }
  split.
  - intros format mem o H. apply Hall.
    eapply show_memory_presents; eassumption.
  - intros off format o [-> | [-> | ->]]; apply Hall.
    + apply show_overlay_yuv_planar_presents.
    + apply show_overlay_yuv_packed_presents.
    + apply show_overlay_bgrx32_presents.
Qed.

(** C1 at a failing commit: [DispSetLayerConfig] returns -1 for a 720x480
    YUY2 frame; the packed presenter returns 0, [GST_FLOW_OK], and the
    dispatcher hands that value to the base class. *)
Lemma commit_failure_returns_FALSE_witness :
  set_layer_config_ret (sample_env 720 480 (-1) zeroed []) < 0
  /\ result
       (gst_sunxifbsink_show_overlay_yuv_packed display2
          (sample_env 720 480 (-1) zeroed []) statics_init
          (sample_sink 720 480 0 0 0 0) 5242880 GST_VIDEO_FORMAT_YUY2)
     = GST_FLOW_OK
  /\ option_map result
       (gst_sunxifbsink_show_overlay display2
          (sample_env 720 480 (-1) zeroed []) statics_init
          (set_overlay_format GST_VIDEO_FORMAT_YUY2
             (sample_sink 720 480 0 0 0 0))
          (sample_memory false))
     = Some GST_FLOW_OK.
Proof.
  split; [cbn; lia |]. split; [| evaluated].
  apply (proj2 (commit_failure_returns_FALSE display2
                  (sample_env 720 480 (-1) zeroed []) statics_init
                  (sample_sink 720 480 0 0 0 0) ltac:(cbn; lia))
           5242880 GST_VIDEO_FORMAT_YUY2 _ (or_intror (or_introl eq_refl))).
  intros Hnil. apply (f_equal (@length _)) in Hnil.
  vm_compute in Hnil. discriminate Hnil.
Defined.

(** ** The dispatcher *)

(** C2. For a memory flagged physically contiguous the dispatcher calls
    the zero-copy presenter and, when that returns, returns
    [GST_FLOW_ERROR] whatever the presenter returned, with the sink, the
    statics and the calls the presenter left; it returns exactly when the
    presenter does. *)
Theorem show_overlay_contiguous_returns_error :
  forall (b : build) (env : frame_env) (g : statics) (s : GstSunxifbsink)
         (memory : GstMemory),
    physically_contiguous memory = true ->
    gst_sunxifbsink_show_overlay b env g s memory
    = option_map
        (fun o => {| result := GST_FLOW_ERROR;
                     sink_after := sink_after o;
                     statics_after := statics_after o;
                     calls := calls o |})
        (gst_sunxifbsink_show_memory_yuv_planar b env g
           (set_sBuffer (private_buffer memory) s) (overlay_format s)
           memory)
    /\ (forall o,
           gst_sunxifbsink_show_overlay b env g s memory = Some o ->
           result o = GST_FLOW_ERROR).
Proof.
  intros b env g s memory Hc.
  assert (E : gst_sunxifbsink_show_overlay b env g s memory
              = option_map
                  (fun o => {| result := GST_FLOW_ERROR;
                               sink_after := sink_after o;
                               statics_after := statics_after o;
                               calls := calls o |})
                  (gst_sunxifbsink_show_memory_yuv_planar b env g
                     (set_sBuffer (private_buffer memory) s)
                     (overlay_format s) memory)).
  { unfold gst_sunxifbsink_show_overlay. rewrite Hc.
    cbn [overlay_format set_sBuffer].
    destruct (gst_sunxifbsink_show_memory_yuv_planar _ _ _ _ _ _);
      reflexivity. }
  split; [exact E |].
  intros o. rewrite E.
  destruct (gst_sunxifbsink_show_memory_yuv_planar _ _ _ _ _ _);
    cbn; intros H; inversion H; reflexivity.
Qed.

(** C2 on a frame the zero-copy presenter shows successfully: the
    presenter returns [GST_FLOW_OK], the dispatcher [GST_FLOW_ERROR]. *)
Lemma show_overlay_contiguous_returns_error_witness :
  physically_contiguous (sample_memory true) = true
  /\ option_map result
       (gst_sunxifbsink_show_memory_yuv_planar display2
          (sample_env 720 480 0 zeroed []) statics_init
          (set_sBuffer (private_buffer (sample_memory true))
             (sample_sink 720 480 0 0 0 0))
          GST_VIDEO_FORMAT_I420 (sample_memory true))
     = Some GST_FLOW_OK
  /\ option_map result
       (gst_sunxifbsink_show_overlay display2
          (sample_env 720 480 0 zeroed []) statics_init
          (sample_sink 720 480 0 0 0 0) (sample_memory true))
     = Some GST_FLOW_ERROR.
Proof.
  split; [reflexivity |]. split; [vm_compute; reflexivity |].
  rewrite (proj1 (show_overlay_contiguous_returns_error display2
                    (sample_env 720 480 0 zeroed []) statics_init
                    (sample_sink 720 480 0 0 0 0) (sample_memory true)
                    eq_refl)).
  vm_compute. reflexivity.
Defined.

(** ** The parity counter of the block-transform path *)

Section BlitParityFacts.

Variable b : build.
Variable env : frame_env.

Lemma quiet_first_blit (tr : list event) : quiet tr -> first_blit tr = None.
Proof. now intros (_ & _ & H). Qed.

(** The block either stops before its blit, leaving the counter alone, or
    blits into the rotation buffer of index [(++m) % 2] and leaves the
    counter incremented. *)
Lemma g2d_block_blit (g : statics) (s : GstSunxifbsink)
    (c : luapi_layer_config) (format : GstVideoFormat) (nRotateDegree : Z) :
  match g2d_block (target b) env g s c format nRotateDegree with
  | BlitFailed s1 g1 tr =>
      (first_blit tr = None /\ g1 = g)
      \/ (exists blit,
             first_blit tr = Some blit
             /\ g1 = set_show_overlay_m (next_m (show_overlay_m g)) g
             /\ g2d_laddr0 (dst_image_h blit)
                = ulong (target b)
                    (phys_of env
                       (rotate_addr_phy s1
                          (parity (next_m (show_overlay_m g))))))
  | Blitted _ blit s1 g1 tr =>
      first_blit tr = Some blit
      /\ g1 = set_show_overlay_m (next_m (show_overlay_m g)) g
      /\ g2d_laddr0 (dst_image_h blit)
         = ulong (target b)
             (phys_of env
                (rotate_addr_phy s1 (parity (next_m (show_overlay_m g)))))
  end.
Proof.
  unfold g2d_block.
  destruct (rotation_buffers env s _ _) as [[s1 tra] | [s1 tra]] eqn:EB.
  - assert (Hq : quiet tra).
    { eapply rotation_buffers_calls. left. exact EB. }
    apply quiet_first_blit in Hq.
    destruct (format_eqb format GST_VIDEO_FORMAT_YV12);
      [| destruct (format_eqb format GST_VIDEO_FORMAT_NV21)];
      try (destruct (g2d_bitblt_ret env <? 0));
      rewrite ?first_blit_app, ?Hq; cbn [first_blit];
      try (right; eexists; now repeat split);
      try (now repeat split).
    all: left; now split.
  - assert (Hq : quiet tra).
    { eapply rotation_buffers_calls. right. exact EB. }
    left. split; [now apply quiet_first_blit | reflexivity].
Qed.

Lemma outcome_of_blit (g1 : statics) (s1 : GstSunxifbsink)
    (c : luapi_layer_config) (tr : list event) :
  let o := outcome_of g1 (commit_and_show env s1 c) tr in
  statics_after o = g1
  /\ first_blit (calls o) = first_blit tr
  /\ rotate_addr_phy0 (sink_after o) = rotate_addr_phy0 s1
  /\ rotate_addr_phy1 (sink_after o) = rotate_addr_phy1 s1.
Proof.
  unfold outcome_of.
  destruct (commit_and_show env s1 c) as [[r s'] trc] eqn:EC.
  apply commit_and_show_calls in EC as (_ & _ & Hb & _ & E0 & E1 & _).
  cbn [statics_after calls sink_after]. rewrite first_blit_app, Hb.
  repeat split; try assumption. now destruct (first_blit tr).
Qed.

(** A presentation by the planar presenter of frames addressed by offset
    either makes no blit and leaves its counter alone, or blits into the
    rotation buffer of index [(++m) % 2] and leaves the counter
    incremented. *)
Lemma show_overlay_parity (g : statics) (s : GstSunxifbsink)
    (framebuffer_offset : Z) (format : GstVideoFormat) :
  let o := gst_sunxifbsink_show_overlay_yuv_planar b env g s
             framebuffer_offset format in
  (first_blit (calls o) = None
   /\ show_overlay_m (statics_after o) = show_overlay_m g)
  \/ (exists blit,
         first_blit (calls o) = Some blit
         /\ show_overlay_m (statics_after o) = next_m (show_overlay_m g)
         /\ g2d_laddr0 (dst_image_h blit)
            = ulong (target b)
                (phys_of env
                   (rotate_addr_phy (sink_after o)
                      (parity (next_m (show_overlay_m g)))))).
Proof.
  unfold gst_sunxifbsink_show_overlay_yuv_planar.
  destruct (SUNXI_DISPLAY2 b).
  - destruct (SUNXI_G2D_ROTATE b
              && (0 <? rotate_angle_property (framebuffersink s))).
    + pose proof (g2d_block_blit g s
                    (planar_fb_display2 (target b) (framebuffersink s)
                       format framebuffer_offset zeroed)
                    format (rotate_angle_property (framebuffersink s)))
        as Hblock.
      destruct (g2d_block _ _ _ _ _ _ _) as [s1 g1 tr | c blit s1 g1 tr].
      * destruct Hblock as [(Hn & ->) | (blit & Hb & -> & Ha)];
          cbn [calls statics_after sink_after].
        -- left. now split.
        -- right. exists blit. now repeat split.
      * destruct Hblock as (Hb & -> & Ha). cbn [andb]. right. exists blit.
        destruct (is_rot_90_or_270 (flag_h blit));
          [destruct (reset_video_rectangle_flag _) |];
          match goal with
          | |- context [outcome_of ?g1 (commit_and_show env ?s2 ?c2) tr] =>
              destruct (outcome_of_blit g1 s2 c2 tr) as (Hg & Hf & E0 & E1)
          end;
          cbv zeta in Hg, Hf, E0, E1;
          rewrite Hg, Hf, (rotate_addr_phy_ext _ _ _ E0 E1);
          now repeat split.
    + cbn [andb].
      match goal with
      | |- context [outcome_of ?g1 (commit_and_show env ?s2 ?c2) ?t] =>
          destruct (outcome_of_blit g1 s2 c2 t) as (Hg & Hf & _)
      end.
      cbv zeta in Hg, Hf. left. rewrite Hg, Hf. now split.
  - match goal with
    | |- context [outcome_of ?g1 (commit_and_show env ?s2 ?c2) ?t] =>
        destruct (outcome_of_blit g1 s2 c2 t) as (Hg & Hf & _)
    end.
    cbv zeta in Hg, Hf. left. rewrite Hg, Hf. now split.
Qed.

End BlitParityFacts.

Lemma show_overlay_frames_alternate (b : build)
    (frames : list (frame_env * GstVideoFormat * Z)) :
  forall (g : statics) (s : GstSunxifbsink),
    0 <= show_overlay_m g ->
    show_overlay_m g + Z.of_nat (length frames) < 2 ^ 31 ->
    exists ps,
      blits_target (target b) (show_overlay_frames b frames g s) ps
      /\ alternating ps
      /\ match ps with
         | [] => True
         | p :: _ => p = parity (show_overlay_m g + 1)
         end.
Proof.
  induction frames as [| [[env format] off] frames IH];
    intros g s Hm Hlen.
  - exists []. repeat split. constructor.
  - cbn [show_overlay_frames length] in *.
    destruct (show_overlay_parity b env g s off format)
      as [(Hnone & Hg) | (blit & Hblit & Hg & Haddr)].
    + destruct (IH (statics_after
                      (gst_sunxifbsink_show_overlay_yuv_planar b env g s
                         off format))
                   (sink_after
                      (gst_sunxifbsink_show_overlay_yuv_planar b env g s
                         off format)))
        as (ps & Ht & Ha & Hhd); try (rewrite Hg; lia).
      exists ps. repeat split; try assumption; [now constructor |].
      now rewrite Hg in Hhd.
    + rewrite next_m_small in Hg, Haddr by lia.
      destruct (IH (statics_after
                      (gst_sunxifbsink_show_overlay_yuv_planar b env g s
                         off format))
                   (sink_after
                      (gst_sunxifbsink_show_overlay_yuv_planar b env g s
                         off format)))
        as (ps & Ht & Ha & Hhd); try (rewrite Hg; lia).
      exists (parity (show_overlay_m g + 1) :: ps).
      split; [now apply blits_target_blit with (blit := blit) |].
      split; [| reflexivity].
      cbn [alternating]. split; [apply parity_range; lia |].
      split; [| assumption].
      destruct ps as [| q ps]; [exact I |].
      rewrite Hhd, Hg. apply parity_succ. lia.
Qed.

(** C7. Consecutive rotations through one presenter never target the same
    buffer.
    - Frames presented one after the other through the zero-copy
      presenter, from a counter [m] that is not negative and does not reach
      [INT_MAX] on the way: the jobs submitted have as destination base
      address the physical addresses of [rotate_addr_phy[p]] for indices
      [p] that are each 0 or 1 and strictly alternate from one job to the
      next.
    - The same holds of the blits of the planar presenter of frames
      addressed by offset, which has a counter of its own. *)
Theorem rotation_slots_alternate :
  forall (b : build),
    (forall (frames : list frame) (g : statics) (s : GstSunxifbsink)
            (os : list (frame_env * outcome)),
        0 <= show_memory_m g ->
        show_memory_m g + Z.of_nat (length frames) < 2 ^ 31 ->
        show_memory_frames b frames g s = Some os ->
        exists ps, jobs_target (target b) os ps /\ alternating ps)
    /\ (forall (frames : list (frame_env * GstVideoFormat * Z))
               (g : statics) (s : GstSunxifbsink),
           0 <= show_overlay_m g ->
           show_overlay_m g + Z.of_nat (length frames) < 2 ^ 31 ->
           exists ps,
             blits_target (target b) (show_overlay_frames b frames g s) ps
             /\ alternating ps).
Proof.
  intros b. split.
  - intros frames g s os Hm Hlen H.
    destruct (Z.lt_ge_cases 0 (fd_transform s)) as [Hfd | Hfd].
    + destruct (show_memory_frames_alternate b frames g s os Hfd Hm Hlen H)
        as (ps & Ht & Ha & _).
      now exists ps.
    + exists []. split; [| exact I].
      now apply (show_memory_frames_no_device b frames g s os).
  - intros frames g s Hm Hlen.
    destruct (show_overlay_frames_alternate b frames g s Hm Hlen)
      as (ps & Ht & Ha & _).
    now exists ps.
Qed.

(** C7 on three 720x480 frames rotated by 180 degrees, from the initial
    counter; the third job times out once and is resubmitted. Three frames,
    three jobs: to the second buffer (0x40200000), the first (0x40100000)
    and the second again. *)
Lemma rotation_slots_alternate_witness :
  exists os ps,
    show_memory_frames display2
      [ (sample_env 720 480 0 zeroed [0; 0; 0], GST_VIDEO_FORMAT_I420,
         sample_memory true);
        (sample_env 720 480 0 zeroed [0; 1; 0], GST_VIDEO_FORMAT_I420,
         sample_memory true);
        (sample_env 720 480 0 zeroed [0; 0; -1; 0; 0; 0],
         GST_VIDEO_FORMAT_I420, sample_memory true) ]
      statics_init (sample_sink 720 480 2 0 0 0)
    = Some os
    /\ map (fun eo =>
              option_map (fun job => laddr0 (dst_frame job))
                (first_job (calls (snd eo)))) os
       = [Some 1075838976; Some 1074790400; Some 1075838976]
    /\ jobs_target ILP32 os ps /\ alternating ps.
Proof.
  match goal with
  | |- exists os ps, ?run = Some os /\ _ =>
      assert (Hc : option_map
                     (map (fun eo : frame_env * outcome =>
                             option_map (fun job => laddr0 (dst_frame job))
                               (first_job (calls (snd eo))))) run
                   = Some [Some 1075838976; Some 1074790400;
                           Some 1075838976]) by evaluated;
      destruct run as [os |] eqn:E; [| discriminate Hc]
  end.
  cbn [option_map] in Hc. inversion Hc as [Hmap].
  assert (Hex : exists ps, jobs_target ILP32 os ps /\ alternating ps).
  { eapply (proj1 (rotation_slots_alternate display2));
      [ | | exact E]; cbn; lia. }
  destruct Hex as (ps & Ht & Ha).
  exists os, ps. rewrite Hmap. repeat split; assumption.
Defined.

(** ** The layer through its life, and a frame end to end *)

(** After [gst_sunxifbsink_release_layer] the id is -1 and
    [gst_sunxifbsink_show_layer] fails without a device call. *)
Lemma show_after_release_fails (env : frame_env) (s : GstSunxifbsink) :
  gst_sunxifbsink_show_layer env
    (fst (gst_sunxifbsink_release_layer env s))
  = (FALSE, fst (gst_sunxifbsink_release_layer env s), []).
Proof.
  unfold gst_sunxifbsink_release_layer, gst_sunxifbsink_show_layer.
  destruct (layer_is_visible s) eqn:E; cbn; rewrite ?E; reflexivity.
Qed.

(** Hiding a hidden layer does nothing. *)
Lemma hide_hidden_is_noop (env : frame_env) (s : GstSunxifbsink) :
  layer_is_visible s = false -> gst_sunxifbsink_hide_layer env s = (s, []).
Proof.
  intros H. unfold gst_sunxifbsink_hide_layer. now rewrite H.
Qed.

(** A 720x480 I420 frame presented without rotation in the newer backend:
    plane 0 is 720 wide, planes 1 and 2 are 360 wide, the commit succeeds,
    the layer ends visible and [GST_FLOW_OK] is returned. *)
Example present_720x480_unrotated :
  option_map
    (fun o =>
       (result o, layer_is_visible (sink_after o),
        map (fun c => (get c (info_fb_size_width 0),
                       get c (info_fb_size_width 1),
                       get c (info_fb_size_width 2)))
          (committed (calls o))))
    (gst_sunxifbsink_show_memory_yuv_planar display2
       (sample_env 720 480 0 zeroed []) statics_init
       (sample_sink 720 480 0 0 0 0) GST_VIDEO_FORMAT_I420
       (sample_memory true))
  = Some (GST_FLOW_OK, true, [(720, 360, 360)]).
Proof. evaluated. Qed.

(** The same frame rotated by 90 degrees: what is committed is 480 wide
    and 736 high, the transposed aligned size. *)
Example present_720x480_rotated_90 :
  option_map
    (fun o =>
       map (fun c => (get c (info_fb_size_width 0),
                      get c (info_fb_size_height 0)))
         (committed (calls o)))
    (gst_sunxifbsink_show_memory_yuv_planar display2
       (sample_env 720 480 0 zeroed [0; 0; 0]) statics_init
       (sample_sink 720 480 1 0 0 0) GST_VIDEO_FORMAT_I420
       (sample_memory true))
  = Some [(480, 736)].
Proof. evaluated. Qed.

(** With no answer left on the transform device the rotation has not
    completed and the presenter has not returned. *)
Example present_rotation_pending :
  gst_sunxifbsink_show_memory_yuv_planar display2
    (sample_env 720 480 0 zeroed [0; 1; 1; 1]) statics_init
    (sample_sink 720 480 1 0 0 0) GST_VIDEO_FORMAT_I420
    (sample_memory true)
  = None.
Proof. evaluated. Qed.

(** * Further properties of the code *)

(** ** The overlay layer as a state machine *)

(** X1. Showing a hidden layer that has an id and hiding it again, with a
    display that accepts both commands, gives back the very sink one
    started from: one enable command, one disable command on the same
    layer, and nothing else changes. *)
Theorem show_then_hide_restores_sink (env env' : frame_env)
    (s : GstSunxifbsink) :
  layer_is_visible s = false ->
  0 <= layer_id s ->
  set_layer_enable_ret env = 0 ->
  set_layer_enable_ret env' = 0 ->
  exists s1,
    gst_sunxifbsink_show_layer env s
    = (TRUE, s1,
       [DispSetLayerEnable (framebuffer_id s) (layer_id s)
          (framebuffer_id s) 1 0])
    /\ layer_is_visible s1 = true
    /\ gst_sunxifbsink_hide_layer env' s1
       = (s, [DispSetLayerEnable (framebuffer_id s) (layer_id s)
                (framebuffer_id s) 0 0]).
Proof.
  intros Hv Hl He He'. exists (set_layer_is_visible true s).
  unfold gst_sunxifbsink_show_layer, gst_sunxifbsink_hide_layer.
  rewrite Hv, He.
  replace (layer_id s <? 0) with false by (symmetry; apply Z.ltb_ge; lia).
  cbn. rewrite He'. cbn.
  split; [reflexivity |]. split; [reflexivity |].
  destruct s; cbn in *; subst; reflexivity.
Qed.

(** X1 on layer 0 of the sample sink. *)
Lemma show_then_hide_restores_sink_witness :
  exists s1,
    gst_sunxifbsink_show_layer (sample_env 720 480 0 zeroed [])
      (sample_sink 720 480 0 0 0 0)
    = (TRUE, s1, [DispSetLayerEnable 0 0 0 1 0])
    /\ layer_is_visible s1 = true
    /\ gst_sunxifbsink_hide_layer (sample_env 720 480 0 zeroed []) s1
       = (sample_sink 720 480 0 0 0 0, [DispSetLayerEnable 0 0 0 0 0]).
Proof.
  apply (show_then_hide_restores_sink (sample_env 720 480 0 zeroed [])
           (sample_env 720 480 0 zeroed []) (sample_sink 720 480 0 0 0 0));
    [reflexivity | cbn; lia | reflexivity | reflexivity].
Defined.

(** X2. [gst_sunxifbsink_show_layer] returns [TRUE] exactly when the layer
    is marked visible afterwards; when it returns [FALSE] the sink is
    unchanged; it issues at most one command; and once it has returned
    [TRUE], calling it again returns [TRUE] without touching the display,
    whatever the display would answer. *)
Theorem show_layer_settles (env env' : frame_env) (s : GstSunxifbsink) :
  let '(r, s1, tr) := gst_sunxifbsink_show_layer env s in
  (r = TRUE \/ r = FALSE)
  /\ (r = TRUE <-> layer_is_visible s1 = true)
  /\ (r = FALSE -> s1 = s)
  /\ (length tr <= 1)%nat
  /\ (r = TRUE -> gst_sunxifbsink_show_layer env' s1 = (TRUE, s1, [])).
Proof.
  unfold gst_sunxifbsink_show_layer.
  destruct (layer_is_visible s) eqn:Ev.
  - rewrite Ev. unfold TRUE, FALSE. cbn.
    repeat split; auto; try discriminate; intros; lia.
  - destruct (layer_id s <? 0).
    + rewrite Ev. unfold TRUE, FALSE. cbn.
      repeat split; auto; try discriminate; intros; lia.
    + destruct (truthy (set_layer_enable_ret env)).
      * rewrite Ev. unfold TRUE, FALSE. cbn.
        repeat split; auto; try discriminate; intros; lia.
      * unfold TRUE, FALSE. cbn.
        repeat split; auto; try discriminate; intros; lia.
Qed.

(** X3. [gst_sunxifbsink_release_layer] is final: whatever the display
    answers, the layer ends hidden, without an id and without a scaler;
    the disable command is issued exactly when the layer was visible; and
    afterwards showing fails, hiding and releasing again do nothing, none
    of them with a command to the display. *)
Theorem release_layer_is_final (env env' : frame_env)
    (s : GstSunxifbsink) :
  let '(s1, tr) := gst_sunxifbsink_release_layer env s in
  layer_id s1 = -1
  /\ layer_has_scaler s1 = false
  /\ layer_is_visible s1 = false
  /\ enables tr
     = (if layer_is_visible s then [(0, set_layer_enable_ret env)] else [])
  /\ length tr = length (enables tr)
  /\ gst_sunxifbsink_show_layer env' s1 = (FALSE, s1, [])
  /\ gst_sunxifbsink_hide_layer env' s1 = (s1, [])
  /\ gst_sunxifbsink_release_layer env' s1 = (s1, []).
Proof.
  unfold gst_sunxifbsink_release_layer, gst_sunxifbsink_show_layer,
    gst_sunxifbsink_hide_layer.
  destruct (layer_is_visible s) eqn:Ev; cbn; rewrite ?Ev; cbn;
    repeat split; reflexivity.
Qed.

(** X4. A disable command that fails is treated differently by the two
    functions that issue it: [gst_sunxifbsink_hide_layer] leaves the sink
    as it was, the layer still marked visible, while
    [gst_sunxifbsink_release_layer] marks it hidden all the same. Both
    issue the same single command. *)
Theorem failed_disable_hide_versus_release (env : frame_env)
    (s : GstSunxifbsink) :
  layer_is_visible s = true ->
  set_layer_enable_ret env <> 0 ->
  gst_sunxifbsink_hide_layer env s
  = (s, [DispSetLayerEnable (framebuffer_id s) (layer_id s)
           (framebuffer_id s) 0 (set_layer_enable_ret env)])
  /\ snd (gst_sunxifbsink_release_layer env s)
     = snd (gst_sunxifbsink_hide_layer env s)
  /\ layer_is_visible (fst (gst_sunxifbsink_release_layer env s)) = false.
Proof.
  intros Hv Hr.
  unfold gst_sunxifbsink_hide_layer, gst_sunxifbsink_release_layer.
  rewrite Hv. cbn [negb]. unfold truthy.
  replace (set_layer_enable_ret env =? 0) with false
    by (symmetry; now apply Z.eqb_neq).
  cbn. repeat split.
Qed.

(** X4 on a visible layer and a display that answers -1. *)
Lemma failed_disable_hide_versus_release_witness :
  gst_sunxifbsink_hide_layer (sample_env_enable_fails 720 480)
    (set_layer_is_visible true (sample_sink 720 480 0 0 0 0))
  = (set_layer_is_visible true (sample_sink 720 480 0 0 0 0),
     [DispSetLayerEnable 0 0 0 0 (-1)])
  /\ snd (gst_sunxifbsink_release_layer (sample_env_enable_fails 720 480)
            (set_layer_is_visible true (sample_sink 720 480 0 0 0 0)))
     = snd (gst_sunxifbsink_hide_layer (sample_env_enable_fails 720 480)
              (set_layer_is_visible true (sample_sink 720 480 0 0 0 0)))
  /\ layer_is_visible
       (fst (gst_sunxifbsink_release_layer (sample_env_enable_fails 720 480)
               (set_layer_is_visible true (sample_sink 720 480 0 0 0 0))))
     = false.
Proof.
  apply (failed_disable_hide_versus_release
           (sample_env_enable_fails 720 480)
           (set_layer_is_visible true (sample_sink 720 480 0 0 0 0)));
    [reflexivity | cbn; lia].
Defined.

(** X5. [gst_sunxifbsink_prepare_overlay] always returns [TRUE] and
    always stores the format, also when the layer could not be hidden:
    afterwards the layer is still marked visible exactly when it was
    visible and the disable command failed. It issues at most the one
    disable command and changes nothing else of the sink. *)
Theorem prepare_overlay_always_succeeds (env : frame_env)
    (s : GstSunxifbsink) (format : GstVideoFormat) :
  let '(r, s1, tr) := gst_sunxifbsink_prepare_overlay env s format in
  r = TRUE
  /\ overlay_format s1 = format
  /\ (layer_is_visible s1 = true <->
      layer_is_visible s = true /\ set_layer_enable_ret env <> 0)
  /\ enables tr
     = (if layer_is_visible s then [(0, set_layer_enable_ret env)] else [])
  /\ length tr = length (enables tr)
  /\ s1 = set_overlay_format format
            (set_layer_is_visible (layer_is_visible s1) s).
Proof.
  unfold gst_sunxifbsink_prepare_overlay, gst_sunxifbsink_hide_layer.
  destruct (layer_is_visible s) eqn:Ev; cbn [negb].
  - unfold truthy.
    destruct (set_layer_enable_ret env =? 0) eqn:Er; cbn [negb].
    + apply Z.eqb_eq in Er. cbn.
      split; [reflexivity |]. split; [reflexivity |].
      split; [split; [discriminate | intros [_ Hn]; contradiction] |].
      split; [reflexivity |]. split; reflexivity.
    + apply Z.eqb_neq in Er. cbn. rewrite Ev.
      split; [reflexivity |]. split; [reflexivity |].
      split; [split; [intros _; now split | reflexivity] |].
      split; [reflexivity |]. split; [reflexivity |].
      destruct s; cbn in *; subst; reflexivity.
  - cbn. rewrite Ev.
    split; [reflexivity |]. split; [reflexivity |].
    split; [split; [discriminate | intros [Hn _]; discriminate Hn] |].
    split; [reflexivity |]. split; [reflexivity |].
    destruct s; cbn in *; subst; reflexivity.
Qed.

(** ** Opening and closing the hardware *)

(** Turning the tests of the source into arithmetic. *)
Ltac tests_to_Z :=
  repeat match goal with
  | H : (_ <? _) = true |- _ => apply Z.ltb_lt in H
  | H : (_ <? _) = false |- _ => apply Z.ltb_ge in H
  | H : (_ <=? _) = true |- _ => apply Z.leb_le in H
  | H : (_ <=? _) = false |- _ => apply Z.leb_gt in H
  | H : (_ =? _) = true |- _ => apply Z.eqb_eq in H
  | H : (_ =? _) = false |- _ => apply Z.eqb_neq in H
  | H : negb _ = true |- _ => apply Bool.negb_true_iff in H
  | H : negb _ = false |- _ => apply Bool.negb_false_iff in H
  | H : truthy _ = _ |- _ => unfold truthy in H
  | H : (_ || _) = true |- _ => apply Bool.orb_true_iff in H
  | H : (_ || _) = false |- _ =>
      apply Bool.orb_false_iff in H; destruct H
  | H : (_ && _) = true |- _ =>
      apply Bool.andb_true_iff in H; destruct H
  | H : (_ && _) = false |- _ => apply Bool.andb_false_iff in H
  end.

(** Reading the members of a sink through the assignments made to it. *)
Ltac sink_fields :=
  cbn [framebuffersink fd_disp fd_transform fd_g2d transform_channel
       framebuffer_id layer_id layer_has_scaler layer_is_visible
       hardware_overlay_available overlay_format rotate_addr_phy0
       rotate_addr_phy1 sBuffer
       set_framebuffersink set_layer_id set_layer_has_scaler
       set_layer_is_visible set_overlay_format set_rotate_addr_phy0
       set_rotate_addr_phy1 set_sBuffer set_fd_disp set_fd_transform
       set_fd_g2d set_transform_channel set_hardware_overlay_available
       fst snd] in *.

(** X6. [gst_sunxifbsink_reserve_layer] hands the display exactly one
    configuration, for the layer and the screen of the sink, whose
    destination window is the whole screen as [DispGetScrWidth] and
    [DispGetScrHeight] reported it, also when they reported an error (a
    negative size is committed as it is); in the newer backend the
    configuration is a disabled ARGB layer. It returns [FALSE] exactly
    when the display refused the configuration, leaving the sink as it
    was, and otherwise returns [TRUE] having only set
    [layer_has_scaler]. *)
Theorem reserve_layer_commits_whole_screen (b : build)
    (henv : hardware_env) (s : GstSunxifbsink) :
  let '(r, s1, tr) := gst_sunxifbsink_reserve_layer b henv s in
  exists c,
    tr = [DispSetLayerConfig (framebuffer_id s) (layer_id s) c
            (reserve_config_ret henv)]
    /\ (if SUNXI_DISPLAY2 b
        then (get c info_screen_win_x, get c info_screen_win_y,
              get c info_screen_win_width, get c info_screen_win_height)
        else (get c screen_win_x, get c screen_win_y,
              get c screen_win_width, get c screen_win_height))
       = (0, 0, DispGetScrWidth henv, DispGetScrHeight henv)
    /\ (SUNXI_DISPLAY2 b = true ->
        get c cfg_enable = FALSE /\ get c cfg_layer_id = layer_id s
        /\ get c cfg_channel = framebuffer_id s
        /\ fb_format c = Some DISP_FORMAT_ARGB_8888)
    /\ (r = FALSE <-> reserve_config_ret henv < 0)
    /\ (r = FALSE -> s1 = s)
    /\ (r <> FALSE -> r = TRUE /\ s1 = set_layer_has_scaler true s).
Proof.
  unfold gst_sunxifbsink_reserve_layer.
  destruct (reserve_config_ret henv <? 0) eqn:Er; tests_to_Z;
    eexists; (split; [reflexivity |]);
    (split; [unfold reserve_config; destruct (SUNXI_DISPLAY2 b);
             reflexivity |]);
    (split; [intros Hb; unfold reserve_config; rewrite Hb;
             now repeat split |]).
  - split; [split; [intros _; exact Er | reflexivity] |].
    split; [reflexivity |]. intros H. now contradiction H.
  - split; [split; [discriminate | lia] |].
    split; [discriminate |]. intros _. now split.
Qed.

(** X7. The value [gst_sunxifbsink_open_hardware] returns is [FALSE],
    [TRUE] or -1. It is [FALSE] exactly when the parent class could not
    open the frame buffer. It is -1, which a caller testing the
    [gboolean] takes for success, exactly when the overlay was asked for,
    the display and the transform device opened (the latter with a
    descriptor above 0) and the transform device refused the channel or
    the timeout; in that case the overlay is left unavailable and no
    descriptor has been closed. *)
Theorem open_hardware_result (b : build) (henv : hardware_env)
    (s : GstSunxifbsink) :
  let '(r, s1, tr) := gst_sunxifbsink_open_hardware b henv s in
  (r = FALSE \/ r = TRUE \/ r = -1)
  /\ (r = FALSE <-> fbdev_open_ret henv = 0)
  /\ (r = -1 <->
      fbdev_open_ret henv <> 0 /\ use_hardware_overlay henv <> 0
      /\ 0 <= open_dev_disp henv /\ 0 < open_dev_transform henv
      /\ (tr_request_ret henv < 0 \/ tr_set_timeout_ret henv <> 0))
  /\ (r = -1 ->
      hardware_overlay_available s1 = false /\ closed tr = []
      /\ fd_disp s1 = open_dev_disp henv
      /\ fd_transform s1 = open_dev_transform henv).
Proof.
  unfold gst_sunxifbsink_open_hardware, open_transform, open_g2d,
    open_reserve, gst_sunxifbsink_reserve_layer, FALSE, TRUE.
  repeat match goal with
  | |- context [if ?c then _ else _] => destruct c eqn:?
  end;
    tests_to_Z; sink_fields; cbn [negb] in *; tests_to_Z;
    (split; [lia |]); (split; [lia |]); (split; [lia |]);
    intros Hr; try discriminate Hr; repeat split.
Qed.

(** X8. Once the parent class has opened the frame buffer,
    [gst_sunxifbsink_open_hardware] leaves the overlay available exactly
    when the overlay was asked for, the display opened, the transform
    device, if it opened with a descriptor above 0, granted a channel and
    accepted the timeout, the block-transform engine opened in a build
    that uses it, and the display accepted the reservation; the transform
    device itself may be missing. The overlay is then returned hidden,
    with a scaler, with a zeroed private buffer, after exactly one
    configuration was committed and with every descriptor still open. *)
Theorem open_hardware_overlay_available_iff (b : build)
    (henv : hardware_env) (s : GstSunxifbsink) :
  fbdev_open_ret henv <> 0 ->
  let '(r, s1, tr) := gst_sunxifbsink_open_hardware b henv s in
  (hardware_overlay_available s1 = true <->
   use_hardware_overlay henv <> 0 /\ 0 <= open_dev_disp henv
   /\ (0 < open_dev_transform henv ->
       0 <= tr_request_ret henv /\ tr_set_timeout_ret henv = 0)
   /\ (SUNXI_G2D_ROTATE b = true -> 0 <= open_dev_g2d henv)
   /\ 0 <= reserve_config_ret henv)
  /\ (hardware_overlay_available s1 = true ->
      r = TRUE /\ layer_is_visible s1 = false
      /\ layer_has_scaler s1 = true
      /\ sBuffer s1 = {| pAddrPhyY := 0; pAddrVirY := 0 |}
      /\ closed tr = []
      /\ length (committed (display_calls tr)) = 1%nat).
Proof.
  intros Hopen.
  unfold gst_sunxifbsink_open_hardware, open_transform, open_g2d,
    open_reserve, gst_sunxifbsink_reserve_layer, FALSE, TRUE.
  repeat match goal with
  | |- context [if ?c then _ else _] => destruct c eqn:?
  end;
    tests_to_Z; sink_fields; cbn [negb] in *; tests_to_Z;
    try contradiction;
    (split;
     [split;
      [intros Ha; try discriminate Ha;
       (split; [lia |]); (split; [lia |]); (split; [lia |]);
       (split; [try lia; intros Hg; discriminate Hg | lia])
      | intros (H1 & H2 & H3 & H4 & H5); try reflexivity;
        try lia; try (specialize (H4 eq_refl); lia)]
     | intros Ha; try discriminate Ha; repeat split]).
Qed.

(** X8 on a system where everything succeeds. *)
Lemma open_hardware_overlay_available_iff_witness :
  hardware_overlay_available
    (snd (fst (gst_sunxifbsink_open_hardware display2_g2d sample_hardware
                 closed_sink)))
  = true
  /\ fst (fst (gst_sunxifbsink_open_hardware display2_g2d sample_hardware
                 closed_sink))
     = TRUE.
Proof.
  pose proof (open_hardware_overlay_available_iff display2_g2d
                sample_hardware closed_sink ltac:(discriminate)) as H.
  destruct (gst_sunxifbsink_open_hardware display2_g2d sample_hardware
              closed_sink) as [[r s1] tr].
  destruct H as [Hiff Hthen]. cbn [fst snd].
  assert (Ha : hardware_overlay_available s1 = true).
  { apply Hiff. cbn. repeat split; try lia; discriminate. }
  split; [exact Ha |]. now apply Hthen.
Defined.

Lemma rotate_addr_phy_0 (s : GstSunxifbsink) :
  rotate_addr_phy s 0 = rotate_addr_phy0 s.
Proof. reflexivity. Qed.

Lemma rotate_addr_phy_1 (s : GstSunxifbsink) :
  rotate_addr_phy s 1 = rotate_addr_phy1 s.
Proof. reflexivity. Qed.

(** X9. [gst_sunxifbsink_close_hardware] on a sink whose overlay is
    available always ends with the layer hidden and released, whatever
    the display answers: a visible layer gets one disable command, and a
    second one when the first failed; showing the layer afterwards fails
    without a command. On a sink without overlay nothing is asked of the
    display and the sink is unchanged. The availability flag itself is
    not cleared. *)
Theorem close_hardware_releases_layer (b : build) (env env' : frame_env)
    (use_overlay : Z) (s : GstSunxifbsink) :
  let '(s1, tr) := gst_sunxifbsink_close_hardware b env use_overlay s in
  hardware_overlay_available s1 = hardware_overlay_available s
  /\ (hardware_overlay_available s = true ->
      layer_id s1 = -1 /\ layer_is_visible s1 = false
      /\ layer_has_scaler s1 = false
      /\ gst_sunxifbsink_show_layer env' s1 = (FALSE, s1, []))
  /\ (hardware_overlay_available s = false -> s1 = s)
  /\ committed (display_calls tr) = []
  /\ enables (display_calls tr)
     = (if hardware_overlay_available s && layer_is_visible s
        then if truthy (set_layer_enable_ret env)
             then [(0, set_layer_enable_ret env);
                   (0, set_layer_enable_ret env)]
             else [(0, set_layer_enable_ret env)]
        else []).
Proof.
  unfold gst_sunxifbsink_close_hardware, gst_sunxifbsink_hide_layer,
    gst_sunxifbsink_release_layer, gst_sunxifbsink_show_layer.
  destruct (hardware_overlay_available s) eqn:Ea;
    [destruct (layer_is_visible s) eqn:Ev; cbn [negb andb];
     [destruct (truthy (set_layer_enable_ret env)) eqn:Er |] |];
    sink_fields; rewrite ?Ev; sink_fields;
    rewrite ?rotate_addr_phy_0, ?rotate_addr_phy_1; sink_fields;
    destruct (truthy use_overlay);
    destruct (negb (rotate_addr_phy0 s =? 0));
    destruct (negb (rotate_addr_phy1 s =? 0));
    destruct (0 <=? fd_transform s);
    destruct (SUNXI_G2D_ROTATE b && (0 <=? fd_g2d s));
    cbn; rewrite ?Ea, ?Ev; cbn;
    (split; [reflexivity |]);
    (split; [intros Hd; try discriminate Hd; repeat split |]);
    (split; [intros Hd; try discriminate Hd; reflexivity |]);
    split; reflexivity.
Qed.

(** X10. [gst_sunxifbsink_close_hardware] frees each rotation buffer that
    is not [NULL], once, slot 0 before slot 1, and leaves both pointers in
    the sink as they were. A presenter that rotates afterwards therefore
    allocates nothing and goes on with the pointers that were freed. *)
Theorem close_hardware_keeps_freed_pointers (b : build)
    (env env' : frame_env) (use_overlay : Z) (s : GstSunxifbsink)
    (width_align height_align : Z) :
  let '(s1, tr) := gst_sunxifbsink_close_hardware b env use_overlay s in
  freed tr
  = (if rotate_addr_phy0 s =? 0 then [] else [rotate_addr_phy0 s])
    ++ (if rotate_addr_phy1 s =? 0 then [] else [rotate_addr_phy1 s])
  /\ rotate_addr_phy0 s1 = rotate_addr_phy0 s
  /\ rotate_addr_phy1 s1 = rotate_addr_phy1 s
  /\ (freed tr <> [] ->
      rotation_buffers env' s1 width_align height_align = inl (s1, [])).
Proof.
  unfold gst_sunxifbsink_close_hardware, gst_sunxifbsink_hide_layer,
    gst_sunxifbsink_release_layer, rotation_buffers.
  destruct (hardware_overlay_available s) eqn:Ea;
    [destruct (layer_is_visible s) eqn:Ev; cbn [negb andb];
     [destruct (truthy (set_layer_enable_ret env)) eqn:Er |] |];
    sink_fields; rewrite ?Ev; sink_fields;
    rewrite ?rotate_addr_phy_0, ?rotate_addr_phy_1; sink_fields;
    destruct (truthy use_overlay);
    destruct (rotate_addr_phy0 s =? 0) eqn:E0;
    destruct (rotate_addr_phy1 s =? 0) eqn:E1;
    destruct (0 <=? fd_transform s);
    destruct (SUNXI_G2D_ROTATE b && (0 <=? fd_g2d s));
    cbn -[Z.eqb]; rewrite ?E0, ?E1; cbn [andb];
    (split; [reflexivity |]); (split; [reflexivity |]);
    (split; [reflexivity |]);
    intros Hf; try (now contradiction Hf); reflexivity.
Qed.

(** X10 on a sink with both rotation buffers allocated. *)
Lemma close_hardware_keeps_freed_pointers_witness :
  freed (snd (gst_sunxifbsink_close_hardware display2
                (sample_env 720 480 0 zeroed []) TRUE
                (sample_sink 720 480 1 0 1048576 2097152)))
  = [1048576; 2097152]
  /\ rotation_buffers (sample_env 720 480 0 zeroed [])
       (fst (gst_sunxifbsink_close_hardware display2
               (sample_env 720 480 0 zeroed []) TRUE
               (sample_sink 720 480 1 0 1048576 2097152)))
       736 480
     = inl (fst (gst_sunxifbsink_close_hardware display2
                   (sample_env 720 480 0 zeroed []) TRUE
                   (sample_sink 720 480 1 0 1048576 2097152)), []).
Proof.
  pose proof (close_hardware_keeps_freed_pointers display2
                (sample_env 720 480 0 zeroed [])
                (sample_env 720 480 0 zeroed []) TRUE
                (sample_sink 720 480 1 0 1048576 2097152) 736 480) as H.
  destruct (gst_sunxifbsink_close_hardware display2
              (sample_env 720 480 0 zeroed []) TRUE
              (sample_sink 720 480 1 0 1048576 2097152)) as [s1 tr].
  destruct H as (Hf & _ & _ & Hb). cbn [fst snd].
  split; [exact Hf |]. apply Hb. rewrite Hf. discriminate.
Defined.

(** X11. When the display refuses the reservation,
    [gst_sunxifbsink_open_hardware] closes the display descriptor itself
    and returns [TRUE] with the overlay unavailable; the member
    [fd_disp] keeps the closed descriptor, and
    [gst_sunxifbsink_close_hardware], called with [use_hardware_overlay]
    as it was when the hardware was opened, closes that descriptor a
    second time, before anything else. *)
Theorem failed_reservation_closes_display_twice (b : build)
    (henv : hardware_env) (env : frame_env) (s : GstSunxifbsink) :
  fbdev_open_ret henv <> 0 ->
  use_hardware_overlay henv <> 0 ->
  0 <= open_dev_disp henv ->
  (0 < open_dev_transform henv ->
   0 <= tr_request_ret henv /\ tr_set_timeout_ret henv = 0) ->
  (SUNXI_G2D_ROTATE b = true -> 0 <= open_dev_g2d henv) ->
  reserve_config_ret henv < 0 ->
  let '(r, s1, tr_open) := gst_sunxifbsink_open_hardware b henv s in
  let '(s2, tr_close) :=
    gst_sunxifbsink_close_hardware b env (use_hardware_overlay henv) s1 in
  r = TRUE
  /\ hardware_overlay_available s1 = false
  /\ closed tr_open = [open_dev_disp henv]
  /\ fd_disp s1 = open_dev_disp henv
  /\ (exists rest, closed tr_close = open_dev_disp henv :: rest)
  /\ enables (display_calls tr_close) = [].
Proof.
  intros Hopen Huse Hdisp Htr Hg2d Hres.
  unfold gst_sunxifbsink_open_hardware, open_transform, open_g2d,
    open_reserve, gst_sunxifbsink_reserve_layer,
    gst_sunxifbsink_close_hardware, FALSE, TRUE.
  repeat (match goal with
          | |- context [if ?c then _ else _] => destruct c eqn:?
          end;
          sink_fields; cbv beta iota zeta;
          rewrite ?rotate_addr_phy_0, ?rotate_addr_phy_1; sink_fields);
    tests_to_Z; cbn [negb] in *; tests_to_Z;
    try match goal with
        | H : SUNXI_G2D_ROTATE b = true |- _ => specialize (Hg2d H)
        end;
    try (exfalso; lia);
    cbn;
    (split; [reflexivity |]); (split; [reflexivity |]);
    (split; [reflexivity |]); (split; [reflexivity |]);
    (split; [eexists; reflexivity | reflexivity]).
Qed.

(** X11 on a display that refuses the reservation: descriptor 3 is closed
    when the hardware is opened and again when it is closed. *)
Lemma failed_reservation_closes_display_twice_witness :
  closed (snd (gst_sunxifbsink_open_hardware display2
                 sample_hardware_no_layer closed_sink))
  = [3]
  /\ hd 0 (closed
             (snd (gst_sunxifbsink_close_hardware display2
                     (sample_env 720 480 0 zeroed []) TRUE
                     (snd (fst (gst_sunxifbsink_open_hardware display2
                                  sample_hardware_no_layer closed_sink))))))
     = 3.
Proof.
  pose proof (failed_reservation_closes_display_twice display2
                sample_hardware_no_layer (sample_env 720 480 0 zeroed [])
                closed_sink) as H.
  destruct (gst_sunxifbsink_open_hardware display2
              sample_hardware_no_layer closed_sink) as [[r s1] tr_open].
  cbn [fst snd]. cbn [use_hardware_overlay sample_hardware_no_layer] in H.
  destruct (gst_sunxifbsink_close_hardware display2
              (sample_env 720 480 0 zeroed []) TRUE s1) as [s2 tr_close].
  destruct H as (_ & _ & Hc & _ & (rest & Hr) & _);
    try (cbn; lia); try discriminate;
    try (intros _; cbn; split; [lia | reflexivity]).
  cbn [snd]. rewrite Hr. split; [exact Hc | reflexivity].
Defined.

(** ** The presenters and the memory adapter *)

Section MemoryFacts.

Lemma allocated_app (x y : list event) :
  allocated (x ++ y) = allocated x ++ allocated y.
Proof.
  induction x as [| e x IH]; [reflexivity |].
  destruct e; cbn; rewrite ?IH; reflexivity.
Qed.

Lemma released_app (x y : list event) :
  released (x ++ y) = released x ++ released y.
Proof.
  induction x as [| e x IH]; [reflexivity |].
  destruct e; cbn; rewrite ?IH; reflexivity.
Qed.

Lemma flushed_app (x y : list event) :
  flushed (x ++ y) = flushed x ++ flushed y.
Proof.
  induction x as [| e x IH]; [reflexivity |].
  destruct e; cbn; rewrite ?IH; reflexivity.
Qed.

Lemma enables_app (x y : list event) :
  enables (x ++ y) = enables x ++ enables y.
Proof.
  induction x as [| e x IH]; [reflexivity |].
  destruct e; cbn; rewrite ?IH; reflexivity.
Qed.

Lemma memory_free_app (x y : list event) :
  memory_free x -> memory_free y -> memory_free (x ++ y).
Proof.
  intros (A1 & A2 & A3) (B1 & B2 & B3). unfold memory_free.
  now rewrite allocated_app, released_app, flushed_app, A1, A2, A3.
Qed.

Lemma tr_run_memory_free (channel : Z) (info : tr_info) (script : list Z) :
  forall pc r rest tr,
    tr_run channel info pc script = (r, rest, tr) -> memory_free tr.
Proof.
  induction script as [| resp script IH]; intros pc r rest tr H.
  - destruct pc; cbn in H; inversion H; subst; now repeat split.
  - destruct pc.
    + rewrite tr_run_setup in H.
      destruct (tr_run channel info
                  (if truthy resp then Returned (-1) else AtFirstQuery)
                  script) as [[r0 rest0] tr0] eqn:E.
      cbn in H. inversion H; subst. now apply IH in E.
    + rewrite tr_run_first_query in H.
      destruct (tr_run channel info AtPoll script)
        as [[r0 rest0] tr0] eqn:E.
      cbn in H. inversion H; subst. now apply IH in E.
    + rewrite tr_run_poll in H.
      destruct (resp =? 1);
        [| destruct (resp =? -1)];
        match type of H with
        | after_calls _ (tr_run ?c ?i ?p ?s) = _ =>
            destruct (tr_run c i p s) as [[r0 rest0] tr0] eqn:E
        end;
        cbn in H; inversion H; subst; now apply IH in E.
    + rewrite tr_run_returned in H. inversion H; subst. now repeat split.
Qed.

Lemma submit_job_memory_free (env : frame_env) (s : GstSunxifbsink)
    (trans_info : tr_info) (returned : bool) (tr : list event) :
  submit_job env s trans_info = (returned, tr) -> memory_free tr.
Proof.
  unfold submit_job. destruct (0 <? fd_transform s).
  - destruct (hwRotateVideoPicture (transform_channel s) trans_info
                (tr_script env)) as [[r rest] tr0] eqn:E.
    intros H. inversion H; subst.
    exact (tr_run_memory_free _ _ _ _ _ _ _ E).
  - intros H. inversion H; subst. now repeat split.
Qed.

Lemma commit_and_show_memory_free (env : frame_env) (s s' : GstSunxifbsink)
    (c : luapi_layer_config) (r : Z) (tr : list event) :
  commit_and_show env s c = (r, s', tr) ->
  memory_free tr /\ first_job tr = None
  /\ framebuffersink s' = framebuffersink s.
Proof.
  unfold commit_and_show, gst_sunxifbsink_show_layer.
  destruct (set_layer_config_ret env <? 0).
  - intros H. inversion H; subst. now repeat split.
  - destruct (layer_is_visible s);
      [| destruct (layer_id s <? 0);
         [| destruct (truthy (set_layer_enable_ret env))]];
      intros H; inversion H; subst; now repeat split.
Qed.

Lemma memory_fb_calls_memory_free (b : build) (s : GstSunxifbsink) :
  memory_free (memory_fb_calls b s)
  /\ enables (memory_fb_calls b s) = [].
Proof.
  unfold memory_fb_calls. destruct (SUNXI_DISPLAY2 b); now repeat split.
Qed.

(** With a rotation buffer in place nothing is allocated. *)
Lemma rotation_buffers_present (env : frame_env) (s : GstSunxifbsink)
    (wa ha : Z) :
  rotate_addr_phy0 s <> 0 \/ rotate_addr_phy1 s <> 0 ->
  rotation_buffers env s wa ha = inl (s, []).
Proof.
  intros H. unfold rotation_buffers.
  rewrite rotate_addr_phy_0, rotate_addr_phy_1.
  destruct (rotate_addr_phy0 s =? 0) eqn:E0;
    destruct (rotate_addr_phy1 s =? 0) eqn:E1; try reflexivity.
  apply Z.eqb_eq in E0, E1. lia.
Qed.

Lemma memory_fb_plane0 (b : build) (env : frame_env) (s : GstSunxifbsink)
    (format : GstVideoFormat) (mem : GstMemory) :
  plane_address b (memory_fb b env s format mem) 0
  = address_of_ulong b (phys_of env (mapinfo_data mem)).
Proof.
  unfold plane_address, memory_fb, address_of_ulong, planar_fb_display2,
    planar_fb_legacy.
  destruct (SUNXI_DISPLAY2 b); destruct format; reflexivity.
Qed.

End MemoryFacts.

(** X12. When the zero-copy presenter has to rotate, has no rotation
    buffer yet and the memory adapter cannot give the first or the second
    one, the frame is dropped: the presenter returns [GST_FLOW_ERROR]
    whatever the transform device would answer, having asked nothing of
    the transform device nor of the display, and the slot counter is not
    advanced. After a failure of the second allocation the first buffer
    has been freed and its pointer is still in slot 0, slot 1 being
    [NULL]. *)
Theorem show_memory_drops_frame_without_memory (b : build)
    (env : frame_env) (g : statics) (s : GstSunxifbsink)
    (format : GstVideoFormat) (mem : GstMemory) :
  memory_rotates b s format = true ->
  rotate_addr_phy0 s = 0 ->
  rotate_addr_phy1 s = 0 ->
  palloc_first env = 0 \/ palloc_second env = 0 ->
  exists o,
    gst_sunxifbsink_show_memory_yuv_planar b env g s format mem = Some o
    /\ result o = GST_FLOW_ERROR
    /\ statics_after o = g
    /\ committed (calls o) = [] /\ enables (calls o) = []
    /\ first_job (calls o) = None
    /\ rotate_addr_phy0 (sink_after o) = palloc_first env
    /\ rotate_addr_phy1 (sink_after o) = 0
    /\ released (calls o)
       = (if palloc_first env =? 0 then [] else [palloc_first env]).
Proof.
  intros Hrot H0 H1 Hfail.
  unfold memory_rotates in Hrot.
  apply Bool.andb_true_iff in Hrot as [Hang HY].
  apply Bool.negb_true_iff in HY.
  unfold gst_sunxifbsink_show_memory_yuv_planar, rotate_block,
    rotation_buffers.
  rewrite HY, Hang, rotate_addr_phy_0, rotate_addr_phy_1, H0, H1.
  cbn [Z.eqb andb].
  destruct (memory_fb_calls_quiet b s) as (Qc & Qe & Qb).
  pose proof (no_commit_first_job _ (memory_fb_calls_no_commit b s)) as Qj.
  destruct (memory_fb_calls_memory_free b s) as ((_ & Qr & _) & Qn).
  destruct (palloc_first env =? 0) eqn:E0.
  - eexists. split; [reflexivity |].
    cbn [result statics_after calls sink_after].
    unfold memory_fb_calls in *. sink_fields.
    rewrite committed_app, enables_app, first_job_app, released_app,
      Qc, Qn, Qj, Qr.
    apply Z.eqb_eq in E0. now repeat split.
  - destruct (palloc_second env =? 0) eqn:E1.
    + eexists. split; [reflexivity |].
      cbn [result statics_after calls sink_after].
      unfold memory_fb_calls in *. sink_fields.
      rewrite committed_app, enables_app, first_job_app, released_app,
        Qc, Qn, Qj, Qr.
      apply Z.eqb_eq in E1. now repeat split.
    + apply Z.eqb_neq in E0, E1. lia.
Qed.

(** X12 on a memory adapter that gives the first buffer and not the
    second. *)
Lemma show_memory_drops_frame_without_memory_witness :
  exists o,
    gst_sunxifbsink_show_memory_yuv_planar display2
      (sample_env_no_memory 1048576 0) statics_init
      (sample_sink 720 480 1 0 0 0) GST_VIDEO_FORMAT_I420
      (sample_memory true)
    = Some o
    /\ result o = GST_FLOW_ERROR
    /\ rotate_addr_phy0 (sink_after o) = 1048576
    /\ rotate_addr_phy1 (sink_after o) = 0
    /\ released (calls o) = [1048576].
Proof.
  destruct (show_memory_drops_frame_without_memory display2
              (sample_env_no_memory 1048576 0) statics_init
              (sample_sink 720 480 1 0 0 0) GST_VIDEO_FORMAT_I420
              (sample_memory true))
    as (o & E & Hr & _ & _ & _ & _ & H0 & H1 & Hf);
    [reflexivity | reflexivity | reflexivity | now right |].
  exists o. repeat split; assumption.
Defined.

(** X13. The rotation buffers are allocated once for the life of the
    sink: as soon as one of the two pointers is not [NULL], a presentation
    by the zero-copy presenter neither allocates nor frees, whatever the
    size and the format of the frame, leaves both pointers as they are and
    does not return [GST_FLOW_ERROR]. This includes the state a failed
    second allocation leaves, with slot 0 freed and slot 1 [NULL]. *)
Theorem show_memory_never_reallocates (b : build) (env : frame_env)
    (g : statics) (s : GstSunxifbsink) (format : GstVideoFormat)
    (mem : GstMemory) (o : outcome) :
  gst_sunxifbsink_show_memory_yuv_planar b env g s format mem = Some o ->
  rotate_addr_phy0 s <> 0 \/ rotate_addr_phy1 s <> 0 ->
  allocated (calls o) = [] /\ released (calls o) = []
  /\ flushed (calls o) = []
  /\ rotate_addr_phy0 (sink_after o) = rotate_addr_phy0 s
  /\ rotate_addr_phy1 (sink_after o) = rotate_addr_phy1 s
  /\ result o <> GST_FLOW_ERROR
  /\ length (committed (calls o)) = 1%nat.
Proof.
  intros H Hp.
  pose proof (rotation_buffers_present env s
                (ALIGN_32B (luma_width b (memory_fb b env s format mem)))
                (ALIGN_32B (luma_height b (memory_fb b env s format mem)))
                Hp) as Hb.
  destruct (memory_fb_calls_memory_free b s) as (Mf & _).
  destruct (memory_fb_calls_quiet b s) as (Qc & _).
  assert (Hres : forall env0 s0 c0 r0 s0' tr0,
             commit_and_show env0 s0 c0 = (r0, s0', tr0) ->
             r0 <> GST_FLOW_ERROR).
  { intros env0 s0 c0 r0 s0' tr0. unfold commit_and_show.
    destruct (set_layer_config_ret env0 <? 0).
    - intros E. inversion E. discriminate.
    - destruct (gst_sunxifbsink_show_layer env0 s0) as [[x y] z].
      intros E. inversion E. discriminate. }
  apply show_memory_inversion in H
    as [(_ & r & s' & trc & EC & ->)
       | [(_ & s1 & tra & EB & ->)
         | (_ & s1 & tra & trr & r & s' & trc & EB & ES & EC & ->)]];
    cbn [calls sink_after result].
  - pose proof (Hres _ _ _ _ _ _ EC) as Hr.
    destruct (commit_and_show_memory_free _ _ _ _ _ _ EC) as (Mc & _).
    apply commit_and_show_calls in EC as (Hc & _ & _ & _ & E0 & E1 & _).
    destruct (memory_free_app _ _ Mf
                (memory_free_app [] trc ltac:(now repeat split) Mc))
      as (A & R & F).
    rewrite !committed_app, Qc, Hc.
    now repeat split.
  - rewrite Hb in EB. discriminate EB.
  - rewrite Hb in EB. inversion EB; subst s1 tra.
    pose proof (Hres _ _ _ _ _ _ EC) as Hr.
    destruct (commit_and_show_memory_free _ _ _ _ _ _ EC) as (Mc & _).
    pose proof (submit_job_memory_free _ _ _ _ _ ES) as Ms.
    apply submit_job_calls in ES as ((Qs & _) & _).
    apply commit_and_show_calls in EC as (Hc & _ & _ & _ & E0 & E1 & _).
    destruct (memory_free_app _ _ Mf
                (memory_free_app _ trc
                   (memory_free_app [] trr ltac:(now repeat split) Ms) Mc))
      as (A & R & F).
    rewrite !committed_app, Qc, Qs, Hc.
    now repeat split.
Qed.

(** X13 on a frame rotated into buffers that are in place. *)
Lemma show_memory_never_reallocates_witness :
  exists o,
    gst_sunxifbsink_show_memory_yuv_planar display2
      (sample_env 720 480 0 zeroed [0; 0; 0]) statics_init
      (sample_sink 720 480 1 0 1048576 2097152) GST_VIDEO_FORMAT_I420
      (sample_memory true)
    = Some o
    /\ allocated (calls o) = []
    /\ rotate_addr_phy0 (sink_after o) = 1048576
    /\ rotate_addr_phy1 (sink_after o) = 2097152.
Proof.
  match goal with
  | |- exists o, ?run = Some o /\ _ =>
      assert (Hj : option_map (fun o => result o) run = Some GST_FLOW_OK)
        by evaluated;
      destruct run as [o |] eqn:E; [| discriminate Hj]
  end.
  exists o.
  destruct (show_memory_never_reallocates display2 _ _ _ _ _ o E)
    as (A & _ & _ & H0 & H1 & _); [left; discriminate |].
  repeat split; assumption.
Defined.

(** X14. In the presentation that allocates the rotation buffers and
    submits a job, both buffers are asked for with the same length, and
    when three times the luma area of the destination fits 32 bits this
    length is one and a half times that area, which is exactly the sum
    of the three destination planes of the job, each taken as pitch times
    height: the three planes fill the buffer with no byte to spare. *)
Theorem rotation_buffer_length_is_three_planes (b : build)
    (env : frame_env) (g : statics) (s : GstSunxifbsink)
    (format : GstVideoFormat) (mem : GstMemory) (o : outcome)
    (ch : Z) (job : tr_info) (ret : Z) (len : Z) :
  gst_sunxifbsink_show_memory_yuv_planar b env g s format mem = Some o ->
  In (TR_COMMIT ch job ret) (calls o) ->
  In len (allocated (calls o)) ->
  pitch0 (dst_frame job) * height0 (dst_frame job) * 3 < 2 ^ 32 ->
  allocated (calls o) = [len; len]
  /\ 2 * len = pitch0 (dst_frame job) * height0 (dst_frame job) * 3
  /\ len = pitch0 (dst_frame job) * height0 (dst_frame job)
           + pitch1 (dst_frame job) * height1 (dst_frame job)
           + pitch2 (dst_frame job) * height2 (dst_frame job).
Proof.
  intros H Hin Hlen Hfit.
  destruct (show_memory_job b env g s format mem o ch job ret H Hin)
    as (Hrot & _ & Hjob).
  destruct (memory_fb_calls_memory_free b s) as ((Ma & _) & _).
  apply show_memory_inversion in H
    as [(Hno & _)
       | [(_ & s1 & tra & EB & ->)
         | (_ & s1 & tra & trr & r & s' & trc & EB & ES & EC & ->)]];
    cbn [calls sink_after] in *.
  - congruence.
  - exfalso.
    assert (Hb : no_commit tra).
    { eapply rotation_buffers_calls. right. exact EB. }
    apply in_app_or in Hin as [Hin | Hin];
      [now apply memory_fb_calls_no_commit in Hin | now apply Hb in Hin].
  - destruct (commit_and_show_memory_free _ _ _ _ _ _ EC)
      as ((Mc & _) & _).
    destruct (submit_job_memory_free _ _ _ _ _ ES) as (Ms & _).
    rewrite !allocated_app, Ma, Ms, Mc, app_nil_r in *. cbn [app] in *.
    set (A := ALIGN_32B (luma_width b (memory_fb b env s format mem))) in *.
    set (B := ALIGN_32B (luma_height b (memory_fb b env s format mem))) in *.
    assert (HA : 0 <= A) by apply ALIGN_32B_range.
    assert (HB : 0 <= B) by apply ALIGN_32B_range.
    pose proof (ALIGN_32B_half
                  (luma_width b (memory_fb b env s format mem))) as HA2.
    pose proof (ALIGN_32B_half
                  (luma_height b (memory_fb b env s format mem))) as HB2.
    fold A in HA2. fold B in HB2.
    assert (Hjob' :
      (pitch0 (dst_frame job), height0 (dst_frame job)) = (A, B)
      /\ (pitch1 (dst_frame job), height1 (dst_frame job)) = (A / 2, B / 2)
      /\ (pitch2 (dst_frame job), height2 (dst_frame job)) = (A / 2, B / 2)
      \/ (pitch0 (dst_frame job), height0 (dst_frame job)) = (B, A)
         /\ (pitch1 (dst_frame job), height1 (dst_frame job))
            = (B / 2, A / 2)
         /\ (pitch2 (dst_frame job), height2 (dst_frame job))
            = (B / 2, A / 2)).
    { rewrite Hjob. unfold job_of_config, rotation_job.
      destruct (_ =? TR_ROT_180);
        cbn [dst_frame pitch0 pitch1 pitch2 height0 height1 height2];
        [left | right]; repeat split. }
    assert (Hdims :
      pitch0 (dst_frame job) * height0 (dst_frame job) = A * B
      /\ pitch1 (dst_frame job) * height1 (dst_frame job)
         = (A / 2) * (B / 2)
      /\ pitch2 (dst_frame job) * height2 (dst_frame job)
         = (A / 2) * (B / 2)).
    { destruct Hjob' as [(E0 & E1 & E2) | (E0 & E1 & E2)];
        injection E0 as P0 G0; injection E1 as P1 G1;
        injection E2 as P2 G2; rewrite P0, G0, P1, G1, P2, G2;
        repeat split; ring. }
    destruct Hdims as (D0 & D1 & D2). rewrite D0, D1, D2 in *.
    assert (Harea : A * B = 4 * ((A / 2) * (B / 2))) by nia.
    assert (Hq : 0 <= (A / 2) * (B / 2)) by nia.
    assert (Hlen0 : u32 (u32 (A * B) * 3) / 2 = 6 * ((A / 2) * (B / 2))).
    { rewrite (u32_small (A * B)) by lia.
      rewrite (u32_small (A * B * 3)) by lia.
      rewrite Harea.
      replace (4 * (A / 2 * (B / 2)) * 3)
        with (6 * (A / 2 * (B / 2)) * 2) by lia.
      apply Z.div_mul. lia. }
    unfold rotation_buffers in EB. fold A B in EB.
    destruct ((rotate_addr_phy s 0 =? 0) && (rotate_addr_phy s 1 =? 0)).
    + destruct (palloc_first env =? 0); [discriminate EB |].
      destruct (palloc_second env =? 0); [discriminate EB |].
      inversion EB; subst s1 tra. cbn [allocated] in *.
      rewrite Hlen0 in *.
      destruct Hlen as [<- | [<- | []]]; (split; [reflexivity | lia]).
    + inversion EB; subst s1 tra. destruct Hlen.
Qed.

(** X14 on a 720x480 frame rotated by 90 degrees by a sink without
    buffers: 736 x 480 x 3 / 2 = 529920 bytes are asked for twice, and
    the planes of the job take 353280 + 88320 + 88320 bytes. *)
Lemma rotation_buffer_length_is_three_planes_witness :
  exists o ch job ret,
    gst_sunxifbsink_show_memory_yuv_planar display2
      (sample_env 720 480 0 zeroed [0; 0; 0]) statics_init
      (sample_sink 720 480 1 0 0 0) GST_VIDEO_FORMAT_I420
      (sample_memory true)
    = Some o
    /\ In (TR_COMMIT ch job ret) (calls o)
    /\ allocated (calls o) = [529920; 529920]
    /\ 529920 = pitch0 (dst_frame job) * height0 (dst_frame job)
                + pitch1 (dst_frame job) * height1 (dst_frame job)
                + pitch2 (dst_frame job) * height2 (dst_frame job).
Proof.
  match goal with
  | |- exists o ch job ret, ?run = Some o /\ _ =>
      assert (Hj : option_map
                     (fun o =>
                        (allocated (calls o),
                         option_map
                           (fun j => pitch0 (dst_frame j)
                                     * height0 (dst_frame j))
                           (first_job (calls o)))) run
                   = Some ([529920; 529920], Some 353280)) by evaluated;
      destruct run as [o |] eqn:E; [| discriminate Hj]
  end.
  cbn [option_map] in Hj.
  destruct (first_job (calls o)) as [job |] eqn:Ej; [| discriminate Hj].
  cbn [option_map] in Hj. inversion Hj as [[Ha Harea]].
  destruct (first_job_In _ _ Ej) as (ch & ret & Hin).
  exists o, ch, job, ret.
  destruct (rotation_buffer_length_is_three_planes display2 _ _ _ _ _ o
              ch job ret 529920 E Hin) as (_ & _ & Hsum).
  - rewrite Ha. now left.
  - rewrite Harea. lia.
  - repeat split; assumption.
Defined.

(** X15. Without rotation (the rotate-angle property is not positive, or
    the newer backend is given Y444, which it never rotates) the
    zero-copy presenter always returns: it commits one configuration,
    whose plane 0 is the physical address of the mapped memory, submits
    no job, leaves the memory adapter, the slot counter and the rotation
    buffers alone, and does not depend on the transform device. *)
Theorem show_memory_without_rotation (b : build) (env : frame_env)
    (g : statics) (s : GstSunxifbsink) (format : GstVideoFormat)
    (mem : GstMemory) :
  memory_rotates b s format = false ->
  exists o c,
    gst_sunxifbsink_show_memory_yuv_planar b env g s format mem = Some o
    /\ committed (calls o) = [c]
    /\ plane_address b c 0
       = address_of_ulong b (phys_of env (mapinfo_data mem))
    /\ statics_after o = g
    /\ first_job (calls o) = None
    /\ memory_free (calls o)
    /\ rotate_addr_phy0 (sink_after o) = rotate_addr_phy0 s
    /\ rotate_addr_phy1 (sink_after o) = rotate_addr_phy1 s.
Proof.
  intros Hrot. unfold memory_rotates in Hrot.
  unfold gst_sunxifbsink_show_memory_yuv_planar.
  assert (Hre :
    (if SUNXI_DISPLAY2 b && format_eqb format GST_VIDEO_FORMAT_Y444
     then false else 0 <? rotate_angle_property (framebuffersink s))
    = false).
  { destruct (SUNXI_DISPLAY2 b && format_eqb format GST_VIDEO_FORMAT_Y444);
      [reflexivity |]. cbn [negb] in Hrot.
    now rewrite Bool.andb_true_r in Hrot. }
  rewrite Hre.
  destruct (commit_and_show env s
              (memory_layer_info b env s false trans_info_zero
                 (memory_fb b env s format mem)))
    as [[r s'] trc] eqn:EC.
  exists {| result := r; sink_after := s'; statics_after := g;
            calls := memory_fb_calls b s ++ [] ++ trc |},
    (memory_layer_info b env s false trans_info_zero
       (memory_fb b env s format mem)).
  split; [reflexivity |]. cbn [calls statics_after sink_after app].
  destruct (memory_fb_calls_memory_free b s) as (Mf & _).
  destruct (memory_fb_calls_quiet b s) as (Qc & _).
  pose proof (no_commit_first_job _ (memory_fb_calls_no_commit b s)) as Qj.
  destruct (commit_and_show_memory_free _ _ _ _ _ _ EC) as (Mc & Jc & _).
  apply commit_and_show_calls in EC as (Hc & _ & _ & _ & E0 & E1 & _).
  rewrite committed_app, first_job_app, Qc, Qj, Hc, Jc.
  split; [reflexivity |].
  split; [now rewrite memory_layer_info_planes, memory_fb_plane0 |].
  split; [reflexivity |]. split; [reflexivity |].
  split; [now apply memory_free_app |]. now split.
Qed.

(** X15 on a Y444 frame given to the newer backend with a rotate-angle
    of 90 degrees, and no answer at all from the transform device. *)
Lemma show_memory_without_rotation_witness :
  exists o c,
    gst_sunxifbsink_show_memory_yuv_planar display2
      (sample_env 720 480 0 zeroed []) statics_init
      (sample_sink 720 480 1 0 0 0) GST_VIDEO_FORMAT_Y444
      (sample_memory true)
    = Some o
    /\ committed (calls o) = [c]
    /\ plane_address display2 c 0 = 1076887552
    /\ first_job (calls o) = None.
Proof.
  destruct (show_memory_without_rotation display2
              (sample_env 720 480 0 zeroed []) statics_init
              (sample_sink 720 480 1 0 0 0) GST_VIDEO_FORMAT_Y444
              (sample_memory true))
    as (o & c & E & Hc & Hp & _ & Hj & _); [reflexivity |].
  exists o, c. repeat split; assumption.
Defined.

(** ** The presenters of frames addressed by offset *)

Section OverlayFacts.

Variable b : build.
Variable env : frame_env.

(** What the end of a presenter leaves, from the calls made before it. *)
Lemma outcome_of_facts (g1 : statics) (s1 : GstSunxifbsink)
    (c : luapi_layer_config) (before : list event) :
  let o := outcome_of g1 (commit_and_show env s1 c) before in
  statics_after o = g1
  /\ committed (calls o) = committed before ++ [c]
  /\ (memory_free before -> memory_free (calls o))
  /\ (first_job before = None -> first_job (calls o) = None)
  /\ (first_blit before = None -> first_blit (calls o) = None)
  /\ framebuffersink (sink_after o) = framebuffersink s1
  /\ rotate_addr_phy0 (sink_after o) = rotate_addr_phy0 s1
  /\ rotate_addr_phy1 (sink_after o) = rotate_addr_phy1 s1.
Proof.
  unfold outcome_of.
  destruct (commit_and_show env s1 c) as [[r s'] tr] eqn:EC.
  cbn [statics_after calls sink_after].
  destruct (commit_and_show_memory_free _ _ _ _ _ _ EC) as (Mc & Jc & Fc).
  apply commit_and_show_calls in EC as (Hc & _ & Hb & _ & E0 & E1 & _).
  split; [reflexivity |].
  split; [now rewrite committed_app, Hc |].
  split; [intros Mb; now apply memory_free_app |].
  split; [intros Hj; now rewrite first_job_app, Hj |].
  split; [intros Hj; now rewrite first_blit_app, Hj |].
  now repeat split.
Qed.

Lemma outcome_of_committed (g1 : statics) (s1 : GstSunxifbsink)
    (c : luapi_layer_config) (before : list event) :
  committed (calls (outcome_of g1 (commit_and_show env s1 c) before))
  = committed before ++ [c].
Proof. apply outcome_of_facts. Qed.

Lemma outcome_of_statics (g1 : statics)
    (r : Z * GstSunxifbsink * list event) (before : list event) :
  statics_after (outcome_of g1 r before) = g1.
Proof. destruct r as [[x y] z]. reflexivity. Qed.

Lemma outcome_of_framebuffersink (g1 : statics) (s1 : GstSunxifbsink)
    (c : luapi_layer_config) (before : list event) :
  framebuffersink
    (sink_after (outcome_of g1 (commit_and_show env s1 c) before))
  = framebuffersink s1.
Proof. apply outcome_of_facts. Qed.

(** The value returned and the visibility after a commit that the
    display accepted. *)
Lemma commit_and_show_accepted (s1 s' : GstSunxifbsink)
    (c : luapi_layer_config) (r : Z) (tr : list event) :
  commit_and_show env s1 c = (r, s', tr) ->
  0 <= set_layer_config_ret env ->
  r = GST_FLOW_OK
  /\ (set_layer_enable_ret env <> 0 ->
      layer_is_visible s' = layer_is_visible s1)
  /\ (layer_is_visible s1 = false -> 0 <= layer_id s1 ->
      enables tr = [(1, set_layer_enable_ret env)]).
Proof.
  intros H Hc. unfold commit_and_show, gst_sunxifbsink_show_layer in H.
  replace (set_layer_config_ret env <? 0) with false in H
    by (symmetry; apply Z.ltb_ge; lia).
  destruct (layer_is_visible s1) eqn:Ev;
    [| destruct (layer_id s1 <? 0) eqn:El;
       [| destruct (truthy (set_layer_enable_ret env)) eqn:Er]];
    inversion H; subst; tests_to_Z; cbn [negb] in *; tests_to_Z;
    sink_fields;
    (split; [reflexivity |]);
    (split; [intros Hn; try assumption; try reflexivity; try contradiction
            | intros Hv Hl; try discriminate Hv; try lia; reflexivity]).
Qed.

(** The planar presenter when the block-transform engine does not
    rotate: one configuration, built from the frame buffer description
    of the format. *)
Lemma show_overlay_yuv_planar_plain (g : statics) (s : GstSunxifbsink)
    (framebuffer_offset : Z) (format : GstVideoFormat) :
  g2d_rotates b s = false ->
  gst_sunxifbsink_show_overlay_yuv_planar b env g s framebuffer_offset
    format
  = outcome_of g
      (commit_and_show env s
         (if SUNXI_DISPLAY2 b
          then layer_info_display2 (framebuffersink s) s
                 (videosink_width (framebuffersink s))
                 (videosink_height (framebuffersink s))
                 (planar_fb_display2 (target b) (framebuffersink s) format
                    framebuffer_offset zeroed)
          else layer_info_legacy (framebuffersink s)
                 (planar_fb_legacy (framebuffersink s) format
                    framebuffer_offset (layer_config_read env))))
      (if SUNXI_DISPLAY2 b then []
       else [DispGetLayerConfig (framebuffer_id s) (layer_id s)
               (framebuffer_id s)]).
Proof.
  unfold g2d_rotates, gst_sunxifbsink_show_overlay_yuv_planar.
  destruct (SUNXI_DISPLAY2 b); [| reflexivity].
  cbn [andb]. intros ->. reflexivity.
Qed.

Lemma planar_plane0 (f : GstFramebufferSink) (s : GstSunxifbsink)
    (format : GstVideoFormat) (base w h : Z) :
  plane_address b
    (if SUNXI_DISPLAY2 b
     then layer_info_display2 f s w h
            (planar_fb_display2 (target b) f format base zeroed)
     else layer_info_legacy f
            (planar_fb_legacy f format base (layer_config_read env))) 0
  = address_of_ulong b base.
Proof.
  unfold plane_address, address_of_ulong, planar_fb_display2,
    planar_fb_legacy.
  destruct (SUNXI_DISPLAY2 b); destruct format; reflexivity.
Qed.

End OverlayFacts.

(** X16. The two packed presenters do not know the rotate-angle
    property: whatever its value, they leave the slot counters, the
    rotation buffers, the memory adapter, the transform device and the
    block-transform engine alone, and commit exactly one configuration
    whose plane 0 is the offset they were given and whose source
    rectangle is the size of the video as it is, not transposed. *)
Theorem packed_presenters_never_rotate (b : build) (env : frame_env)
    (g : statics) (s : GstSunxifbsink) (framebuffer_offset : Z)
    (format : GstVideoFormat) :
  Forall
    (fun o =>
       statics_after o = g
       /\ memory_free (calls o)
       /\ first_job (calls o) = None
       /\ first_blit (calls o) = None
       /\ framebuffersink (sink_after o) = framebuffersink s
       /\ rotate_addr_phy0 (sink_after o) = rotate_addr_phy0 s
       /\ rotate_addr_phy1 (sink_after o) = rotate_addr_phy1 s
       /\ exists c,
           committed (calls o) = [c]
           /\ plane_address b c 0 = address_of_ulong b framebuffer_offset
           /\ source_size b c
              = (if SUNXI_DISPLAY2 b
                 then (fixed32 (videosink_width (framebuffersink s)),
                       fixed32 (videosink_height (framebuffersink s)))
                 else (videosink_width (framebuffersink s),
                       videosink_height (framebuffersink s))))
    [ gst_sunxifbsink_show_overlay_yuv_packed b env g s framebuffer_offset
        format;
      gst_sunxifbsink_show_overlay_bgrx32 b env g s framebuffer_offset ].
Proof.
  unfold gst_sunxifbsink_show_overlay_yuv_packed,
    gst_sunxifbsink_show_overlay_bgrx32, plane_address, source_size,
    address_of_ulong.
  repeat constructor;
    destruct (SUNXI_DISPLAY2 b);
    match goal with
    | |- context [outcome_of ?g1 (commit_and_show ?e ?s1 ?c) ?pre] =>
        destruct (outcome_of_facts e g1 s1 c pre)
          as (H1 & H2 & H3 & H4 & H5 & H6 & H7 & H8)
    end;
    try exact H1; try exact H6; try exact H7; try exact H8;
    try (apply H3; now repeat split);
    try (now apply H4); try (now apply H5);
    (eexists; split; [exact H2 |]);
    try (destruct (format_eqb format GST_VIDEO_FORMAT_AYUV));
    split; reflexivity.
Qed.

(** X17. The planar presenter, when the block-transform engine does not
    rotate, gives YV12 the configuration of I420 with the addresses of
    planes 1 and 2 exchanged and nothing else changed: plane 1 of I420 is
    at the second plane offset and plane 2 at the third, plane 1 of YV12
    is at the third plane offset and plane 2 at the second. *)
Theorem yv12_exchanges_the_chroma_planes (b : build) (env : frame_env)
    (g : statics) (s : GstSunxifbsink) (framebuffer_offset : Z) :
  g2d_rotates b s = false ->
  let plane i :=
    address_of_pointer b
      (framebuffer_offset + overlay_plane_offset (framebuffersink s) i) in
  exists c_yv12 c_i420,
    committed
      (calls (gst_sunxifbsink_show_overlay_yuv_planar b env g s
                framebuffer_offset GST_VIDEO_FORMAT_YV12))
    = [c_yv12]
    /\ committed
         (calls (gst_sunxifbsink_show_overlay_yuv_planar b env g s
                   framebuffer_offset GST_VIDEO_FORMAT_I420))
       = [c_i420]
    /\ plane_address b c_i420 1 = plane 1
    /\ plane_address b c_i420 2 = plane 2
    /\ plane_address b c_yv12 1 = plane 2
    /\ plane_address b c_yv12 2 = plane 1
    /\ fb_format c_yv12 = Some DISP_FORMAT_YUV420_P
    /\ fb_format c_i420 = Some DISP_FORMAT_YUV420_P
    /\ (forall m,
           m <> info_fb_addr 1 -> m <> info_fb_addr 2 ->
           m <> fb_addr 1 -> m <> fb_addr 2 ->
           get c_yv12 m = get c_i420 m).
Proof.
  intros Hg plane. subst plane.
  rewrite !(show_overlay_yuv_planar_plain b env g s _ _ Hg).
  assert (Hpre : committed
                   (if SUNXI_DISPLAY2 b then []
                    else [DispGetLayerConfig (framebuffer_id s) (layer_id s)
                            (framebuffer_id s)]) = [])
    by (destruct (SUNXI_DISPLAY2 b); reflexivity).
  rewrite !outcome_of_committed, Hpre. cbn [app].
  do 2 eexists.
  split; [reflexivity |]. split; [reflexivity |].
  unfold plane_address, address_of_pointer, planar_fb_display2,
    planar_fb_legacy.
  destruct (SUNXI_DISPLAY2 b);
    cbn [format_eqb orb];
    (split; [reflexivity |]); (split; [reflexivity |]);
    (split; [reflexivity |]); (split; [reflexivity |]);
    (split; [reflexivity |]); (split; [reflexivity |]);
    intros m Hn1 Hn2 Hl1 Hl2;
    cbv [get layer_info_display2 layer_info_legacy assign assign_format
         assign_mode assign_flags assign_scan assign_color_space ints];
    repeat match goal with
    | |- (if member_eq_dec m ?x then _ else _) = _ =>
        destruct (member_eq_dec m x) as [? | ?]; cbv beta iota;
        [first [ reflexivity | contradiction ] |]
    end;
    reflexivity.
Qed.

(** X17 on the legacy backend: with the planes of a 720x480 frame one
    after the other from 0x500000, YV12 puts plane 1 at the third
    offset. *)
Lemma yv12_exchanges_the_chroma_planes_witness :
  exists c_yv12 c_i420,
    committed
      (calls (gst_sunxifbsink_show_overlay_yuv_planar legacy
                (sample_env 720 480 0 zeroed []) statics_init
                (sample_sink 720 480 0 0 0 0) 5242880
                GST_VIDEO_FORMAT_YV12))
    = [c_yv12]
    /\ committed
         (calls (gst_sunxifbsink_show_overlay_yuv_planar legacy
                   (sample_env 720 480 0 zeroed []) statics_init
                   (sample_sink 720 480 0 0 0 0) 5242880
                   GST_VIDEO_FORMAT_I420))
       = [c_i420]
    /\ plane_address legacy c_i420 1 = 5242880 + 345600
    /\ plane_address legacy c_yv12 1 = 5242880 + 432000.
Proof.
  destruct (yv12_exchanges_the_chroma_planes legacy
              (sample_env 720 480 0 zeroed []) statics_init
              (sample_sink 720 480 0 0 0 0) 5242880)
    as (c1 & c2 & H1 & H2 & Hi1 & _ & Hy1 & _); [reflexivity |].
  exists c1, c2.
  split; [exact H1 |]. split; [exact H2 |].
  split; [rewrite Hi1 | rewrite Hy1]; reflexivity.
Defined.

(** ** The dispatcher *)

Section DispatchFacts.

Variable b : build.
Variable env : frame_env.
Variable g : statics.
Variable s : GstSunxifbsink.

Lemma show_overlay_yuv_planar_once (framebuffer_offset : Z)
    (format : GstVideoFormat) :
  g2d_rotates b s = false ->
  exists c,
    committed
      (calls (gst_sunxifbsink_show_overlay_yuv_planar b env g s
                framebuffer_offset format))
    = [c]
    /\ plane_address b c 0 = address_of_ulong b framebuffer_offset
    /\ memory_free
         (calls (gst_sunxifbsink_show_overlay_yuv_planar b env g s
                   framebuffer_offset format)).
Proof.
  intros Hg. rewrite (show_overlay_yuv_planar_plain b env g s _ _ Hg).
  exists (if SUNXI_DISPLAY2 b
          then layer_info_display2 (framebuffersink s) s
                 (videosink_width (framebuffersink s))
                 (videosink_height (framebuffersink s))
                 (planar_fb_display2 (target b) (framebuffersink s) format
                    framebuffer_offset zeroed)
          else layer_info_legacy (framebuffersink s)
                 (planar_fb_legacy (framebuffersink s) format
                    framebuffer_offset (layer_config_read env))).
  split; [| split].
  - rewrite outcome_of_committed.
    destruct (SUNXI_DISPLAY2 b); reflexivity.
  - apply planar_plane0.
  - apply outcome_of_facts. destruct (SUNXI_DISPLAY2 b); now repeat split.
Qed.

Lemma show_overlay_yuv_packed_once (framebuffer_offset : Z)
    (format : GstVideoFormat) :
  exists c,
    committed
      (calls (gst_sunxifbsink_show_overlay_yuv_packed b env g s
                framebuffer_offset format))
    = [c]
    /\ plane_address b c 0 = address_of_ulong b framebuffer_offset
    /\ memory_free
         (calls (gst_sunxifbsink_show_overlay_yuv_packed b env g s
                   framebuffer_offset format)).
Proof.
  unfold gst_sunxifbsink_show_overlay_yuv_packed, plane_address,
    address_of_ulong.
  destruct (SUNXI_DISPLAY2 b);
    (eexists; split; [rewrite outcome_of_committed; reflexivity |]);
    (split; [destruct (format_eqb format GST_VIDEO_FORMAT_AYUV);
             reflexivity
            | apply outcome_of_facts; now repeat split]).
Qed.

Lemma show_overlay_bgrx32_once (framebuffer_offset : Z) :
  exists c,
    committed
      (calls (gst_sunxifbsink_show_overlay_bgrx32 b env g s
                framebuffer_offset))
    = [c]
    /\ plane_address b c 0 = address_of_ulong b framebuffer_offset
    /\ memory_free
         (calls (gst_sunxifbsink_show_overlay_bgrx32 b env g s
                   framebuffer_offset)).
Proof.
  unfold gst_sunxifbsink_show_overlay_bgrx32, plane_address,
    address_of_ulong.
  destruct (SUNXI_DISPLAY2 b);
    (eexists; split; [rewrite outcome_of_committed; reflexivity |]);
    (split; [reflexivity | apply outcome_of_facts; now repeat split]).
Qed.

End DispatchFacts.

(** The dispatcher on a frame that is not physically contiguous, when the
    block-transform engine does not rotate: either the format is in the
    table of supported formats and one presenter is called with the
    translated offset, or it is not and nothing is presented. *)
Lemma show_overlay_offset_cases (b : build) (env : frame_env)
    (g : statics) (s : GstSunxifbsink) (mem : GstMemory) :
  physically_contiguous mem = false ->
  g2d_rotates b s = false ->
  let f := framebuffersink s in
  let offset :=
    if max_video_memory_property f <=? 0
    then ulong (target b)
           (pAddrPhyY (private_buffer mem) + fixinfo_smem_start f)
    else pAddrPhyY (private_buffer mem) in
  let tr :=
    if max_video_memory_property f <=? 0 then []
    else [SunxiMemFlushCache (pAddrVirY (private_buffer mem))
            (info_size (video_info f))] in
  (In (overlay_format s) sunxifbsink_supported_overlay_formats_table
   /\ exists o1 c,
       gst_sunxifbsink_show_overlay b env g s mem
       = Some {| result := result o1; sink_after := sink_after o1;
                 statics_after := statics_after o1;
                 calls := tr ++ calls o1 |}
       /\ committed (calls o1) = [c]
       /\ plane_address b c 0 = address_of_ulong b offset
       /\ memory_free (calls o1))
  \/ (~ In (overlay_format s) sunxifbsink_supported_overlay_formats_table
      /\ gst_sunxifbsink_show_overlay b env g s mem
         = Some {| result := GST_FLOW_ERROR;
                   sink_after := set_sBuffer (private_buffer mem) s;
                   statics_after := g; calls := tr |}).
Proof.
  intros Hc Hg f offset tr. subst f offset tr.
  unfold gst_sunxifbsink_show_overlay. rewrite Hc. sink_fields.
  assert (Hg' : g2d_rotates b (set_sBuffer (private_buffer mem) s) = false)
    by exact Hg.
  destruct (max_video_memory_property (framebuffersink s) <=? 0);
    destruct (overlay_format s) eqn:Ef; cbn [format_eqb orb];
    try (right; split;
         [cbn; intuition discriminate | reflexivity]);
    left; (split; [cbn; tauto |]);
    match goal with
    | |- context [gst_sunxifbsink_show_overlay_yuv_planar ?b0 ?e0 ?g0 ?s0
                    ?off ?fmt] =>
        destruct (show_overlay_yuv_planar_once b0 e0 g0 s0 off fmt Hg')
          as (c & H1 & H2 & H3);
        exists (gst_sunxifbsink_show_overlay_yuv_planar b0 e0 g0 s0 off
                  fmt), c
    | |- context [gst_sunxifbsink_show_overlay_yuv_packed ?b0 ?e0 ?g0 ?s0
                    ?off ?fmt] =>
        destruct (show_overlay_yuv_packed_once b0 e0 g0 s0 off fmt)
          as (c & H1 & H2 & H3);
        exists (gst_sunxifbsink_show_overlay_yuv_packed b0 e0 g0 s0 off
                  fmt), c
    | |- context [gst_sunxifbsink_show_overlay_bgrx32 ?b0 ?e0 ?g0 ?s0
                    ?off] =>
        destruct (show_overlay_bgrx32_once b0 e0 g0 s0 off)
          as (c & H1 & H2 & H3);
        exists (gst_sunxifbsink_show_overlay_bgrx32 b0 e0 g0 s0 off), c
    end;
    (split; [reflexivity |]); (split; [exact H1 |]);
    (split; [exact H2 | exact H3]).
Qed.

(** X18. For frames that are not physically contiguous, and when the
    block-transform engine does not rotate, the dispatcher and the table
    of supported overlay formats agree: a configuration is committed,
    exactly one, exactly when the overlay format is one of the table; for
    every other format the dispatcher returns [GST_FLOW_ERROR] without a
    call on the display, having changed nothing but the copy of the
    private buffer. *)
Theorem show_overlay_presents_exactly_the_table (b : build)
    (env : frame_env) (g : statics) (s : GstSunxifbsink)
    (mem : GstMemory) :
  physically_contiguous mem = false ->
  g2d_rotates b s = false ->
  exists o,
    gst_sunxifbsink_show_overlay b env g s mem = Some o
    /\ (length (committed (calls o)) = 1%nat <->
        In (overlay_format s) sunxifbsink_supported_overlay_formats_table)
    /\ (~ In (overlay_format s) sunxifbsink_supported_overlay_formats_table ->
        result o = GST_FLOW_ERROR
        /\ committed (calls o) = [] /\ enables (calls o) = []
        /\ statics_after o = g
        /\ sink_after o = set_sBuffer (private_buffer mem) s).
Proof.
  intros Hc Hg.
  destruct (show_overlay_offset_cases b env g s mem Hc Hg)
    as [(Hin & o1 & c & E & H1 & _ & _) | (Hnot & E)];
    rewrite E; eexists; (split; [reflexivity |]);
    cbn [calls result statics_after sink_after].
  - assert (Hl : length
                   (committed
                      ((if max_video_memory_property (framebuffersink s)
                           <=? 0
                        then []
                        else [SunxiMemFlushCache
                                (pAddrVirY (private_buffer mem))
                                (info_size
                                   (video_info (framebuffersink s)))])
                       ++ calls o1)) = 1%nat).
    { rewrite committed_app, H1.
      destruct (max_video_memory_property (framebuffersink s) <=? 0);
        reflexivity. }
    split; [split; [intros _; exact Hin | intros _; exact Hl] |].
    intros Hn. contradiction.
  - destruct (max_video_memory_property (framebuffersink s) <=? 0);
      cbn [committed enables length];
      (split; [split; [discriminate | intros Hin; contradiction] |]);
      intros _; now repeat split.
Qed.

(** X18 on the sample sink, whose overlay format is I420. *)
Lemma show_overlay_presents_exactly_the_table_witness :
  exists o,
    gst_sunxifbsink_show_overlay display2 (sample_env 720 480 0 zeroed [])
      statics_init (sample_sink 720 480 0 0 0 0) (sample_memory false)
    = Some o
    /\ length (committed (calls o)) = 1%nat.
Proof.
  destruct (show_overlay_presents_exactly_the_table display2
              (sample_env 720 480 0 zeroed []) statics_init
              (sample_sink 720 480 0 0 0 0) (sample_memory false))
    as (o & E & Hiff & _); [reflexivity | reflexivity |].
  exists o. split; [exact E |]. apply Hiff. cbn. tauto.
Defined.

(** X19. The offset the dispatcher hands to a presenter is the physical
    address of the private buffer, to which the start of the frame buffer
    memory is added, in [guintptr] arithmetic, exactly when the
    max-video-memory property is not positive; in the other case the
    cache is flushed instead, once, over the size of the video frame from
    the virtual address of the buffer. Every configuration committed for
    such a frame has that offset as the address of plane 0. *)
Theorem show_overlay_translates_the_offset (b : build) (env : frame_env)
    (g : statics) (s : GstSunxifbsink) (mem : GstMemory) (o : outcome) :
  physically_contiguous mem = false ->
  g2d_rotates b s = false ->
  gst_sunxifbsink_show_overlay b env g s mem = Some o ->
  let f := framebuffersink s in
  (forall c,
      In c (committed (calls o)) ->
      plane_address b c 0
      = address_of_ulong b
          (if max_video_memory_property f <=? 0
           then ulong (target b)
                  (pAddrPhyY (private_buffer mem) + fixinfo_smem_start f)
           else pAddrPhyY (private_buffer mem)))
  /\ flushed (calls o)
     = (if max_video_memory_property f <=? 0 then []
        else [(pAddrVirY (private_buffer mem), info_size (video_info f))]).
Proof.
  intros Hc Hg H f. subst f.
  destruct (show_overlay_offset_cases b env g s mem Hc Hg)
    as [(Hin & o1 & c & E & H1 & H2 & (_ & _ & H3)) | (Hnot & E)];
    rewrite E in H; inversion H; subst o; cbn [calls].
  - rewrite committed_app, flushed_app, H1, H3.
    destruct (max_video_memory_property (framebuffersink s) <=? 0);
      cbn [committed flushed app];
      (split; [intros c' [<- | []]; exact H2 | reflexivity]).
  - destruct (max_video_memory_property (framebuffersink s) <=? 0);
      cbn [committed flushed];
      (split; [intros c' [] | reflexivity]).
Qed.

(** X19 on the sample sink, whose max-video-memory property is 0 and
    whose frame buffer memory starts at 0x40000000: the buffer at
    0x500000 is committed at 0x40500000. *)
Lemma show_overlay_translates_the_offset_witness :
  exists o,
    gst_sunxifbsink_show_overlay display2 (sample_env 720 480 0 zeroed [])
      statics_init (sample_sink 720 480 0 0 0 0) (sample_memory false)
    = Some o
    /\ map (fun c => plane_address display2 c 0) (committed (calls o))
       = [1078984704]
    /\ flushed (calls o) = [].
Proof.
  match goal with
  | |- exists o, ?run = Some o /\ _ =>
      assert (Hj : option_map
                     (fun o => length (committed (calls o))) run
                   = Some 1%nat) by evaluated;
      destruct run as [o |] eqn:E; [| discriminate Hj]
  end.
  cbn [option_map] in Hj. exists o.
  pose proof (show_overlay_translates_the_offset display2
                (sample_env 720 480 0 zeroed []) statics_init
                (sample_sink 720 480 0 0 0 0) (sample_memory false) o
                eq_refl eq_refl E) as H.
  cbv zeta in H. destruct H as (Hp & Hf).
  split; [reflexivity |]. split; [| exact Hf].
  destruct (committed (calls o)) as [| c [| c' l]]; try discriminate Hj.
  cbn [map]. rewrite (Hp c (or_introl eq_refl)). reflexivity.
Defined.

(** ** What the presenters report *)

(** A presenter whose commit the display accepted returns [GST_FLOW_OK]
    and, when the enable command fails, leaves the layer as visible as it
    was. *)
Lemma presents_enable_failure (b : build) (env : frame_env)
    (s : GstSunxifbsink) (o : outcome) :
  presents b env s o ->
  0 <= set_layer_config_ret env ->
  set_layer_enable_ret env <> 0 ->
  committed (calls o) <> [] ->
  result o = GST_FLOW_OK
  /\ layer_is_visible (sink_after o) = layer_is_visible s.
Proof.
  intros [(_ & (Hc & _) & _) | (c & s1 & tr & trc & EC & _ & _ & Hv & _)]
    Hcfg Hen Hne.
  - contradiction.
  - destruct (commit_and_show_accepted env _ _ _ _ _ EC Hcfg)
      as (Hr & Hkeep & _).
    split; [exact Hr |]. now rewrite (Hkeep Hen).
Qed.

(** X20. A presenter does not look at what
    [gst_sunxifbsink_show_layer] returns: when the display accepts the
    configuration and refuses to enable the layer, each of the four
    presenters that committed a configuration returns [GST_FLOW_OK], with
    the layer exactly as visible as before. *)
Theorem failed_enable_is_not_reported (b : build) (env : frame_env)
    (g : statics) (s : GstSunxifbsink) (framebuffer_offset : Z)
    (format : GstVideoFormat) :
  0 <= set_layer_config_ret env ->
  set_layer_enable_ret env <> 0 ->
  (forall mem o,
      gst_sunxifbsink_show_memory_yuv_planar b env g s format mem = Some o ->
      committed (calls o) <> [] ->
      result o = GST_FLOW_OK
      /\ layer_is_visible (sink_after o) = layer_is_visible s)
  /\ Forall
       (fun o =>
          committed (calls o) <> [] ->
          result o = GST_FLOW_OK
          /\ layer_is_visible (sink_after o) = layer_is_visible s)
       [ gst_sunxifbsink_show_overlay_yuv_planar b env g s
           framebuffer_offset format;
         gst_sunxifbsink_show_overlay_yuv_packed b env g s
           framebuffer_offset format;
         gst_sunxifbsink_show_overlay_bgrx32 b env g s
           framebuffer_offset ].
Proof.
  intros Hcfg Hen. split.
  - intros mem o H.
    apply presents_enable_failure with (b := b) (env := env);
      [eapply show_memory_presents; exact H | assumption | assumption].
  - apply Forall_cons; [| apply Forall_cons; [| apply Forall_cons;
                                                   [| apply Forall_nil]]];
      apply presents_enable_failure with (b := b) (env := env);
      try assumption.
    + apply show_overlay_yuv_planar_presents.
    + apply show_overlay_yuv_packed_presents.
    + apply show_overlay_bgrx32_presents.
Qed.

(** X20 on a hidden layer and a display that refuses to enable it: the
    packed presenter returns [GST_FLOW_OK] and the layer stays hidden. *)
Lemma failed_enable_is_not_reported_witness :
  result
    (gst_sunxifbsink_show_overlay_yuv_packed display2
       (sample_env_enable_fails 720 480) statics_init
       (sample_sink 720 480 0 0 0 0) 5242880 GST_VIDEO_FORMAT_YUY2)
  = GST_FLOW_OK
  /\ layer_is_visible
       (sink_after
          (gst_sunxifbsink_show_overlay_yuv_packed display2
             (sample_env_enable_fails 720 480) statics_init
             (sample_sink 720 480 0 0 0 0) 5242880 GST_VIDEO_FORMAT_YUY2))
     = false.
Proof.
  destruct (failed_enable_is_not_reported display2
              (sample_env_enable_fails 720 480) statics_init
              (sample_sink 720 480 0 0 0 0) 5242880 GST_VIDEO_FORMAT_YUY2)
    as (_ & Hall); [cbn; lia | cbn; lia |].
  inversion Hall as [| o1 l1 _ Hrest]. inversion Hrest as [| o2 l2 Hp _].
  apply Hp.
  intros Hn. apply (f_equal (@length _)) in Hn. vm_compute in Hn.
  discriminate Hn.
Defined.

(** ** The block-transform rotation *)

Section G2dFacts.

Variable b : build.
Variable env : frame_env.

Lemma format_eqb_refl (format : GstVideoFormat) :
  format_eqb format format = true.
Proof. destruct format; reflexivity. Qed.

Lemma format_eqb_neq (x y : GstVideoFormat) :
  x <> y -> format_eqb x y = false.
Proof.
  intros H. destruct x, y; try reflexivity; now contradiction H.
Qed.

Lemma g2d_rotates_true (s : GstSunxifbsink) :
  g2d_rotates b s = true ->
  SUNXI_DISPLAY2 b = true /\ SUNXI_G2D_ROTATE b = true
  /\ (0 <? rotate_angle_property (framebuffersink s)) = true.
Proof.
  unfold g2d_rotates. intros H.
  apply Bool.andb_true_iff in H as [H H3].
  apply Bool.andb_true_iff in H as [H1 H2]. now repeat split.
Qed.

(** What the rotation buffers leave of the sink. *)
Lemma rotation_buffers_frame (s s' : GstSunxifbsink) (wa ha : Z)
    (tr : list event) :
  rotation_buffers env s wa ha = inl (s', tr)
  \/ rotation_buffers env s wa ha = inr (s', tr) ->
  framebuffersink s' = framebuffersink s
  /\ committed tr = [] /\ enables tr = [] /\ first_blit tr = None
  /\ first_job tr = None.
Proof.
  unfold rotation_buffers.
  destruct ((rotate_addr_phy s 0 =? 0) && (rotate_addr_phy s 1 =? 0));
    [destruct (palloc_first env =? 0);
     [| destruct (palloc_second env =? 0)] |];
    intros [H | H]; inversion H; subst; now repeat split.
Qed.

(** The sink, the flag and the calls a block-transform rotation
    leaves. *)
Lemma g2d_block_frame (g : statics) (s : GstSunxifbsink)
    (c : luapi_layer_config) (format : GstVideoFormat) (n : Z) :
  match g2d_block (target b) env g s c format n with
  | BlitFailed s1 g1 tr =>
      framebuffersink s1 = framebuffersink s
      /\ reset_video_rectangle_flag g1 = reset_video_rectangle_flag g
      /\ committed tr = [] /\ enables tr = []
  | Blitted _ blit s1 g1 tr =>
      framebuffersink s1 = framebuffersink s
      /\ reset_video_rectangle_flag g1 = reset_video_rectangle_flag g
      /\ committed tr = [] /\ enables tr = []
      /\ flag_h blit = flag_of_degree n
  end.
Proof.
  unfold g2d_block.
  destruct (rotation_buffers env s _ _) as [[s1 tra] | [s1 tra]] eqn:EB.
  - destruct (rotation_buffers_frame s s1 _ _ tra (or_introl EB))
      as (Hf & Hc & He & _).
    destruct (format_eqb format GST_VIDEO_FORMAT_YV12);
      [| destruct (format_eqb format GST_VIDEO_FORMAT_NV21)];
      try (destruct (g2d_bitblt_ret env <? 0));
      rewrite ?committed_app, ?enables_app, ?Hc, ?He;
      now repeat split.
  - destruct (rotation_buffers_frame s s1 _ _ tra (or_intror EB))
      as (Hf & Hc & He & _).
    now repeat split.
Qed.

End G2dFacts.

(** X21. When the block-transform engine rotates, the planar presenter
    accepts YV12 and NV21 only: for every other format, I420, NV12 and
    Y444 among them, it returns [GST_FLOW_ERROR] without a blit and
    without a call on the display, and the slot counter is not advanced.
    The format is looked at after the rotation buffers: a sink without
    buffers has allocated both of them for the frame it rejects. *)
Theorem g2d_rotation_rejects_other_formats (b : build) (env : frame_env)
    (g : statics) (s : GstSunxifbsink) (framebuffer_offset : Z)
    (format : GstVideoFormat) :
  g2d_rotates b s = true ->
  format <> GST_VIDEO_FORMAT_YV12 ->
  format <> GST_VIDEO_FORMAT_NV21 ->
  let o := gst_sunxifbsink_show_overlay_yuv_planar b env g s
             framebuffer_offset format in
  result o = GST_FLOW_ERROR
  /\ statics_after o = g
  /\ committed (calls o) = [] /\ enables (calls o) = []
  /\ first_blit (calls o) = None
  /\ (rotate_addr_phy0 s = 0 -> rotate_addr_phy1 s = 0 ->
      palloc_first env <> 0 -> palloc_second env <> 0 ->
      length (allocated (calls o)) = 2%nat
      /\ rotate_addr_phy0 (sink_after o) = palloc_first env
      /\ rotate_addr_phy1 (sink_after o) = palloc_second env).
Proof.
  intros Hg Hy Hn.
  destruct (g2d_rotates_true b s Hg) as (Hd & Hr & Ha).
  unfold gst_sunxifbsink_show_overlay_yuv_planar, g2d_block.
  rewrite Hd, Hr, Ha. cbn [andb].
  rewrite (format_eqb_neq _ _ Hy), (format_eqb_neq _ _ Hn).
  unfold rotation_buffers.
  rewrite rotate_addr_phy_0, rotate_addr_phy_1.
  destruct (rotate_addr_phy0 s =? 0) eqn:E0;
    [destruct (rotate_addr_phy1 s =? 0) eqn:E1 |]; cbn [andb];
    [destruct (palloc_first env =? 0) eqn:P0;
     [| destruct (palloc_second env =? 0) eqn:P1] | |];
    cbn; tests_to_Z;
    do 5 (split; [reflexivity |]);
    intros Hz0 Hz1 Hq0 Hq1; try lia; now repeat split.
Qed.

(** X21 on an I420 frame given to a sink without rotation buffers. *)
Lemma g2d_rotation_rejects_other_formats_witness :
  result
    (gst_sunxifbsink_show_overlay_yuv_planar display2_g2d
       (sample_env 720 480 0 zeroed []) statics_init
       (sample_sink 720 480 1 0 0 0) 5242880 GST_VIDEO_FORMAT_I420)
  = GST_FLOW_ERROR
  /\ length
       (allocated
          (calls
             (gst_sunxifbsink_show_overlay_yuv_planar display2_g2d
                (sample_env 720 480 0 zeroed []) statics_init
                (sample_sink 720 480 1 0 0 0) 5242880
                GST_VIDEO_FORMAT_I420)))
     = 2%nat.
Proof.
  destruct (g2d_rotation_rejects_other_formats display2_g2d
              (sample_env 720 480 0 zeroed []) statics_init
              (sample_sink 720 480 1 0 0 0) 5242880 GST_VIDEO_FORMAT_I420)
    as (Hr & _ & _ & _ & _ & Ha);
    [reflexivity | discriminate | discriminate |].
  split; [exact Hr |].
  apply Ha; [reflexivity | reflexivity | cbn; lia | cbn; lia].
Defined.

(** X22. When the block-transform engine fails on a YV12 or NV21 frame,
    the planar presenter returns [GST_FLOW_ERROR] without a call on the
    display, and the slot counter has been advanced all the same: the
    frame after a failed one goes to the other rotation buffer. *)
Theorem failed_blit_still_advances_the_slot (b : build) (env : frame_env)
    (g : statics) (s : GstSunxifbsink) (framebuffer_offset : Z)
    (format : GstVideoFormat) :
  g2d_rotates b s = true ->
  format = GST_VIDEO_FORMAT_YV12 \/ format = GST_VIDEO_FORMAT_NV21 ->
  rotate_addr_phy0 s <> 0 \/ rotate_addr_phy1 s <> 0 ->
  g2d_bitblt_ret env < 0 ->
  let o := gst_sunxifbsink_show_overlay_yuv_planar b env g s
             framebuffer_offset format in
  result o = GST_FLOW_ERROR
  /\ committed (calls o) = [] /\ enables (calls o) = []
  /\ show_overlay_m (statics_after o) = next_m (show_overlay_m g)
  /\ sink_after o = s
  /\ exists blit,
      calls o = [G2D_CMD_BITBLT_H blit (g2d_bitblt_ret env)]
      /\ g2d_laddr0 (dst_image_h blit)
         = ulong (target b)
             (phys_of env
                (rotate_addr_phy s (parity (next_m (show_overlay_m g))))).
Proof.
  intros Hg Hf Hp Hret.
  destruct (g2d_rotates_true b s Hg) as (Hd & Hr & Ha).
  unfold gst_sunxifbsink_show_overlay_yuv_planar, g2d_block.
  rewrite Hd, Hr, Ha. cbn [andb].
  rewrite (rotation_buffers_present env s _ _ Hp).
  replace (g2d_bitblt_ret env <? 0) with true
    by (symmetry; now apply Z.ltb_lt).
  destruct Hf as [-> | ->]; cbn [format_eqb];
    cbn [result calls statics_after sink_after app committed enables];
    (split; [reflexivity |]); (split; [reflexivity |]);
    (split; [reflexivity |]); (split; [reflexivity |]);
    (split; [reflexivity |]); eexists; split; reflexivity.
Qed.

(** X22 on a YV12 frame and an engine that fails: the counter goes from
    0 to 1. *)
Lemma failed_blit_still_advances_the_slot_witness :
  result
    (gst_sunxifbsink_show_overlay_yuv_planar display2_g2d
       sample_env_blit_fails statics_init
       (sample_sink 720 480 1 0 1048576 2097152) 5242880
       GST_VIDEO_FORMAT_YV12)
  = GST_FLOW_ERROR
  /\ show_overlay_m
       (statics_after
          (gst_sunxifbsink_show_overlay_yuv_planar display2_g2d
             sample_env_blit_fails statics_init
             (sample_sink 720 480 1 0 1048576 2097152) 5242880
             GST_VIDEO_FORMAT_YV12))
     = 1.
Proof.
  destruct (failed_blit_still_advances_the_slot display2_g2d
              sample_env_blit_fails statics_init
              (sample_sink 720 480 1 0 1048576 2097152) 5242880
              GST_VIDEO_FORMAT_YV12)
    as (Hr & _ & _ & Hm & _);
    [reflexivity | now left | left; cbn; lia | cbn; lia |].
  split; [exact Hr |]. rewrite Hm. reflexivity.
Defined.

(** X23. The planar presenter moves the video rectangle at most once in
    the life of the process: it recentres it on the screen in the first
    presentation that the block-transform engine rotates by 90 or 270
    degrees, and clears the flag that allowed it; the flag is never set
    again, and in every other presentation the parent instance is left
    exactly as it was. The recentred rectangle fits the screen. *)
Theorem video_rectangle_is_recentred_once (b : build) (env : frame_env)
    (g : statics) (s : GstSunxifbsink) (framebuffer_offset : Z)
    (format : GstVideoFormat) :
  let o := gst_sunxifbsink_show_overlay_yuv_planar b env g s
             framebuffer_offset format in
  let f := framebuffersink s in
  (framebuffersink (sink_after o) = f
   /\ reset_video_rectangle_flag (statics_after o)
      = reset_video_rectangle_flag g)
  \/ (reset_video_rectangle_flag g = true
      /\ reset_video_rectangle_flag (statics_after o) = false
      /\ g2d_rotates b s = true
      /\ (rotate_angle_property f = 1 \/ rotate_angle_property f = 3)
      /\ exists r,
          framebuffersink (sink_after o) = set_video_rectangle r f
          /\ rect_w r <= info_width (screen_info f)
          /\ rect_h r <= info_height (screen_info f)
          /\ exists c,
              committed (calls o) = [c] /\ screen_window b c = r).
Proof.
  intros o f. subst o f.
  unfold gst_sunxifbsink_show_overlay_yuv_planar, g2d_rotates.
  destruct (SUNXI_DISPLAY2 b) eqn:Hd; cbn [andb].
  2: { left. now rewrite outcome_of_statics, outcome_of_framebuffersink. }
  destruct (SUNXI_G2D_ROTATE b
            && (0 <? rotate_angle_property (framebuffersink s))) eqn:Hg.
  2: { cbn [andb]. left.
       now rewrite outcome_of_statics, outcome_of_framebuffersink. }
  pose proof (g2d_block_frame b env g s
                (planar_fb_display2 (target b) (framebuffersink s) format
                   framebuffer_offset zeroed)
                format (rotate_angle_property (framebuffersink s)))
    as Hblock.
  destruct (g2d_block _ _ _ _ _ _ _) as [s1 g1 tr | c blit s1 g1 tr].
  - destruct Hblock as (Hf & Hflag & _). left. now split.
  - destruct Hblock as (Hf & Hflag & Hc & He & Hfl). cbn [andb].
    destruct (is_rot_90_or_270 (flag_h blit)) eqn:Erot.
    + destruct (reset_video_rectangle_flag g1) eqn:Eflag.
      * right. rewrite <- Hflag.
        split; [reflexivity |].
        split; [now rewrite outcome_of_statics |].
        split; [reflexivity |].
        split.
        { rewrite Hfl in Erot. unfold flag_of_degree in Erot.
          repeat match type of Erot with
                 | context [if ?n =? ?k then _ else _] =>
                     destruct (n =? k) eqn:?
                 end;
            try discriminate Erot; tests_to_Z; lia. }
        eexists.
        split; [rewrite outcome_of_framebuffersink; reflexivity |].
        split; [cbn; lia |]. split; [cbn; lia |].
        eexists. split.
        { rewrite outcome_of_committed, Hc. reflexivity. }
        unfold screen_window. rewrite Hd. reflexivity.
      * left. rewrite <- Hflag, <- Hf.
        now rewrite outcome_of_statics, outcome_of_framebuffersink.
    + left. rewrite <- Hflag, <- Hf.
      now rewrite outcome_of_statics, outcome_of_framebuffersink.
Qed.

(** X23 on the first YV12 frame the block-transform engine rotates by 90
    degrees: the flag is cleared and the 480 by 736 picture is recentred
    on the 1280 by 720 screen. *)
Lemma video_rectangle_is_recentred_once_witness :
  reset_video_rectangle_flag
    (statics_after
       (gst_sunxifbsink_show_overlay_yuv_planar display2_g2d
          (sample_env 720 480 0 zeroed []) statics_init
          (sample_sink 720 480 1 0 1048576 2097152) 5242880
          GST_VIDEO_FORMAT_YV12))
  = false
  /\ exists r,
      framebuffersink
        (sink_after
           (gst_sunxifbsink_show_overlay_yuv_planar display2_g2d
              (sample_env 720 480 0 zeroed []) statics_init
              (sample_sink 720 480 1 0 1048576 2097152) 5242880
              GST_VIDEO_FORMAT_YV12))
      = set_video_rectangle r (sample_framebuffersink 720 480 1)
      /\ rect_w r <= 1280 /\ rect_h r <= 720.
Proof.
  pose proof (video_rectangle_is_recentred_once display2_g2d
                (sample_env 720 480 0 zeroed []) statics_init
                (sample_sink 720 480 1 0 1048576 2097152) 5242880
                GST_VIDEO_FORMAT_YV12) as H.
  cbv zeta in H.
  assert (Hflag : reset_video_rectangle_flag
                    (statics_after
                       (gst_sunxifbsink_show_overlay_yuv_planar display2_g2d
                          (sample_env 720 480 0 zeroed []) statics_init
                          (sample_sink 720 480 1 0 1048576 2097152) 5242880
                          GST_VIDEO_FORMAT_YV12))
                  = false) by evaluated.
  destruct H as [[_ Hsame] | (_ & _ & _ & _ & r & Hr & Hw & Hh & _)].
  - rewrite Hflag in Hsame. discriminate Hsame.
  - split; [exact Hflag |]. exists r.
    split; [exact Hr |]. split; [exact Hw | exact Hh].
Defined.

(** ** Fixed point and alignment *)

Section FixedPointFacts.

Lemma fixed32_nonneg (v : Z) :
  0 <= v < 2 ^ 32 -> fixed32 v = v * 2 ^ 32.
Proof.
  intros H. unfold fixed32, u64.
  rewrite Z.shiftl_mul_pow2 by lia.
  rewrite (Z.mod_small v) by lia. apply Z.mod_small. lia.
Qed.

Lemma fixed32_negative (v : Z) :
  - 2 ^ 31 <= v < 0 -> fixed32 v = (2 ^ 32 + v) * 2 ^ 32.
Proof.
  intros H. unfold fixed32, u64.
  rewrite Z.shiftl_mul_pow2 by lia.
  assert (E : v mod 2 ^ 64 = v + 2 ^ 64).
  { symmetry. apply Z.mod_unique with (q := -1); lia. }
  rewrite E. symmetry.
  apply Z.mod_unique with (q := 2 ^ 32 - 1); lia.
Qed.

End FixedPointFacts.

(** X24. In the newer backend the crop of the reserved layer is the
    screen size in 32.32 fixed point: a size the display reported has its
    integer part in the upper 32 bits and no fraction. A negative value,
    which is what [DispGetScrWidth] and [DispGetScrHeight] return on
    error, is converted to [unsigned long long] before the shift, so that
    -1 is committed as a crop of 4294967295 pixels. *)
Theorem reserve_layer_crop_is_fixed_point (b : build)
    (henv : hardware_env) (s : GstSunxifbsink) (c : luapi_layer_config) :
  SUNXI_DISPLAY2 b = true ->
  In c (committed (snd (gst_sunxifbsink_reserve_layer b henv s))) ->
  (0 <= DispGetScrWidth henv < 2 ^ 31 ->
   get c info_fb_crop_width = DispGetScrWidth henv * 2 ^ 32
   /\ Z.shiftr (get c info_fb_crop_width) 32 = DispGetScrWidth henv)
  /\ (- 2 ^ 31 <= DispGetScrWidth henv < 0 ->
      Z.shiftr (get c info_fb_crop_width) 32
      = 2 ^ 32 + DispGetScrWidth henv)
  /\ (0 <= DispGetScrHeight henv < 2 ^ 31 ->
      get c info_fb_crop_height = DispGetScrHeight henv * 2 ^ 32
      /\ Z.shiftr (get c info_fb_crop_height) 32 = DispGetScrHeight henv)
  /\ (- 2 ^ 31 <= DispGetScrHeight henv < 0 ->
      Z.shiftr (get c info_fb_crop_height) 32
      = 2 ^ 32 + DispGetScrHeight henv).
Proof.
  intros Hd Hin.
  assert (Hc : c = reserve_config b s (DispGetScrWidth henv)
                     (DispGetScrHeight henv)).
  { unfold gst_sunxifbsink_reserve_layer in Hin.
    destruct (reserve_config_ret henv <? 0); cbn in Hin;
      destruct Hin as [<- | []]; reflexivity. }
  assert (Hw : get c info_fb_crop_width = fixed32 (DispGetScrWidth henv)).
  { rewrite Hc. unfold reserve_config. rewrite Hd. reflexivity. }
  assert (Hh : get c info_fb_crop_height = fixed32 (DispGetScrHeight henv)).
  { rewrite Hc. unfold reserve_config. rewrite Hd. reflexivity. }
  rewrite Hw, Hh.
  split; [| split; [| split]]; intros Hr.
  - rewrite fixed32_nonneg by lia. split; [reflexivity |].
    rewrite Z.shiftr_div_pow2 by lia. apply Z.div_mul. lia.
  - rewrite fixed32_negative by lia.
    rewrite Z.shiftr_div_pow2 by lia. apply Z.div_mul. lia.
  - rewrite fixed32_nonneg by lia. split; [reflexivity |].
    rewrite Z.shiftr_div_pow2 by lia. apply Z.div_mul. lia.
  - rewrite fixed32_negative by lia.
    rewrite Z.shiftr_div_pow2 by lia. apply Z.div_mul. lia.
Qed.

(** X24 on a display that does not tell the size of its screen. *)
Lemma reserve_layer_crop_is_fixed_point_witness :
  exists c,
    In c (committed
            (snd (gst_sunxifbsink_reserve_layer display2
                    sample_hardware_no_layer closed_sink)))
    /\ Z.shiftr (get c info_fb_crop_width) 32 = 4294967295.
Proof.
  exists (reserve_config display2 closed_sink (-1) (-1)).
  assert (Hin : In (reserve_config display2 closed_sink (-1) (-1))
                  (committed
                     (snd (gst_sunxifbsink_reserve_layer display2
                             sample_hardware_no_layer closed_sink))))
    by (left; reflexivity).
  split; [exact Hin |].
  destruct (reserve_layer_crop_is_fixed_point display2
              sample_hardware_no_layer closed_sink _ eq_refl Hin)
    as (_ & Hneg & _).
  rewrite Hneg; [reflexivity | cbn; lia].
Defined.

(** X25. [ALIGN_32B], computed in [unsigned int] as the source does,
    rounds up to a multiple of 32: for a value that leaves room for the
    addition it gives the least multiple of 32 that is not below the
    value, it leaves multiples of 32 alone and applying it twice changes
    nothing; for the 31 largest values of the type the addition wraps
    and the result is 0. *)
Theorem ALIGN_32B_rounds_up (x : Z) :
  0 <= x < 2 ^ 32 ->
  (x + 31 < 2 ^ 32 ->
   ALIGN_32B x mod 32 = 0
   /\ x <= ALIGN_32B x < x + 32
   /\ (forall y, x <= y -> y mod 32 = 0 -> ALIGN_32B x <= y)
   /\ (x mod 32 = 0 -> ALIGN_32B x = x)
   /\ ALIGN_32B (ALIGN_32B x) = ALIGN_32B x)
  /\ (2 ^ 32 <= x + 31 -> ALIGN_32B x = 0).
Proof.
  intros Hx. split.
  - intros Hfit.
    assert (E : ALIGN_32B x = 32 * ((x + 31) / 32)).
    { rewrite ALIGN_32B_eq, u32_small by lia. reflexivity. }
    assert (Hm : ALIGN_32B x mod 32 = 0).
    { rewrite E, Z.mul_comm. apply Z.mod_mul. lia. }
    assert (Hb : x <= ALIGN_32B x < x + 32).
    { rewrite E. pose proof (Z.div_mod (x + 31) 32 ltac:(lia)).
      pose proof (Z.mod_pos_bound (x + 31) 32 ltac:(lia)). lia. }
    assert (Hleast : forall y, x <= y -> y mod 32 = 0 -> ALIGN_32B x <= y).
    { intros y Hy Hy32. rewrite E.
      pose proof (Z.div_mod y 32 ltac:(lia)) as Dy.
      pose proof (Z.div_mod (x + 31) 32 ltac:(lia)) as Dx.
      pose proof (Z.mod_pos_bound (x + 31) 32 ltac:(lia)). lia. }
    assert (Hfix : forall z, 0 <= z -> z + 31 < 2 ^ 32 -> z mod 32 = 0 ->
                             ALIGN_32B z = z).
    { intros z Hz Hzf Hz32.
      rewrite ALIGN_32B_eq, u32_small by lia.
      pose proof (Z.div_mod z 32 ltac:(lia)) as Dz.
      pose proof (Z.div_mod (z + 31) 32 ltac:(lia)) as Dz'.
      pose proof (Z.mod_pos_bound (z + 31) 32 ltac:(lia)). lia. }
    split; [exact Hm |]. split; [exact Hb |]. split; [exact Hleast |].
    split; [intros H32; apply Hfix; lia |].
    apply Hfix; [lia | | exact Hm].
    assert (ALIGN_32B x <= 2 ^ 32 - 32); [| lia].
    rewrite E.
    pose proof (Z.div_mod (x + 31) 32 ltac:(lia)).
    pose proof (Z.mod_pos_bound (x + 31) 32 ltac:(lia)).
    change (2 ^ 32) with (32 * 134217728) in *. lia.
  - intros Hwrap. rewrite ALIGN_32B_eq.
    assert (E : u32 (x + 31) = x + 31 - 2 ^ 32).
    { unfold u32. symmetry. apply Z.mod_unique with (q := 1); lia. }
    rewrite E. rewrite Z.div_small by lia. reflexivity.
Qed.

(** X25 on the width 720, aligned to 736, and on the largest
    [unsigned int], aligned to 0. *)
Lemma ALIGN_32B_rounds_up_witness :
  ALIGN_32B 720 = 736 /\ ALIGN_32B 736 = 736 /\ ALIGN_32B 4294967295 = 0.
Proof.
  destruct (ALIGN_32B_rounds_up 720 ltac:(lia)) as (H720 & _).
  destruct (ALIGN_32B_rounds_up 736 ltac:(lia)) as (H736 & _).
  destruct (ALIGN_32B_rounds_up 4294967295 ltac:(lia)) as (_ & Hmax).
  destruct (H736 ltac:(lia)) as (_ & _ & _ & Hfix & _).
  destruct (H720 ltac:(lia)) as (_ & Hb & Hleast & _).
  split; [| split; [apply Hfix; reflexivity | apply Hmax; lia]].
  destruct (H720 ltac:(lia)) as (Hm & _).
  pose proof (Z.div_mod (ALIGN_32B 720) 32 ltac:(lia)) as D.
  rewrite Hm in D. lia.
Defined.

(** X26. [ALIGNMENT_GET_ALIGNED (offset, align)], for a mask [align] one
    less than a power of two, is the least multiple of that power that is
    not below [offset]: it is a multiple of [align + 1], it exceeds
    [offset] by at most [align], and an aligned [offset] is returned
    unchanged. [ALIGNMENT_GET_ALIGN_BYTES] is the distance, between 0 and
    [align]. *)
Theorem ALIGNMENT_GET_ALIGNED_rounds_up (offset align k : Z) :
  0 <= k ->
  align = 2 ^ k - 1 ->
  0 <= ALIGNMENT_GET_ALIGN_BYTES offset align <= align
  /\ ALIGNMENT_GET_ALIGNED offset align mod (align + 1) = 0
  /\ offset <= ALIGNMENT_GET_ALIGNED offset align <= offset + align
  /\ (offset mod (align + 1) = 0 ->
      ALIGNMENT_GET_ALIGNED offset align = offset).
Proof.
  intros Hk ->.
  unfold ALIGNMENT_GET_ALIGNED, ALIGNMENT_GET_ALIGN_BYTES.
  replace (2 ^ k - 1) with (Z.ones k) by (rewrite Z.ones_equiv; lia).
  rewrite !Z.land_ones by lia.
  replace (Z.ones k + 1) with (2 ^ k) by (rewrite Z.ones_equiv; lia).
  assert (Hp : 0 < 2 ^ k) by (apply Z.pow_pos_nonneg; lia).
  pose proof (Z.mod_pos_bound offset (2 ^ k) Hp) as Hr.
  pose proof (Z.mod_pos_bound (2 ^ k - offset mod 2 ^ k) (2 ^ k) Hp) as Hb.
  rewrite Z.ones_equiv.
  split; [lia |]. split; [| split; [lia |]].
  - rewrite Z.add_mod_idemp_r by lia.
    replace (offset + (2 ^ k - offset mod 2 ^ k))
      with (offset - offset mod 2 ^ k + 1 * 2 ^ k) by lia.
    rewrite Z.mod_add by lia.
    rewrite Zminus_mod_idemp_r, Z.sub_diag. apply Z.mod_0_l. lia.
  - intros H0. rewrite H0, Z.sub_0_r, Z.mod_same by lia. lia.
Qed.

(** X26 with the mask 15 that the alignment query of the sink answers:
    offset 13 is aligned to 16. *)
Lemma ALIGNMENT_GET_ALIGNED_rounds_up_witness :
  ALIGNMENT_GET_ALIGNED 13 15 mod 16 = 0
  /\ 13 <= ALIGNMENT_GET_ALIGNED 13 15 <= 28.
Proof.
  destruct (ALIGNMENT_GET_ALIGNED_rounds_up 13 15 4 ltac:(lia) eq_refl)
    as (_ & Hm & Hb & _).
  split; [exact Hm | exact Hb].
Defined.

(** ** Rotation results the presenters do not look at *)

(** X27. The zero-copy presenter does not look at what
    [hwRotateVideoPicture] returns: when the transform device refuses the
    job, the presenter has issued the one [TR_COMMIT] and no query, and
    goes on as after a rotation, advancing the slot counter, committing a
    configuration whose plane 0 is the rotation buffer of slot 0, and
    returning [GST_FLOW_OK] when the display accepts it. *)
Theorem failed_rotation_is_not_reported (b : build) (env : frame_env)
    (g : statics) (s : GstSunxifbsink) (format : GstVideoFormat)
    (mem : GstMemory) (resp : Z) (rest : list Z) :
  memory_rotates b s format = true ->
  rotate_addr_phy0 s <> 0 \/ rotate_addr_phy1 s <> 0 ->
  0 < fd_transform s ->
  tr_script env = resp :: rest ->
  resp <> 0 ->
  0 <= set_layer_config_ret env ->
  exists o c job,
    gst_sunxifbsink_show_memory_yuv_planar b env g s format mem = Some o
    /\ result o = GST_FLOW_OK
    /\ show_memory_m (statics_after o) = next_m (show_memory_m g)
    /\ filter (fun e => match e with
                        | TR_COMMIT _ _ _ | TR_QUERY _ _ => true
                        | _ => false
                        end) (calls o)
       = [TR_COMMIT (transform_channel s) job resp]
    /\ committed (calls o) = [c]
    /\ plane_address b c 0
       = address_of_pointer b (phys_of env (rotate_addr_phy s 0)).
Proof.
  intros Hrot Hp Hfd Hscript Hresp Hcfg.
  unfold memory_rotates in Hrot.
  apply Bool.andb_true_iff in Hrot as [Hang HY].
  apply Bool.negb_true_iff in HY.
  unfold gst_sunxifbsink_show_memory_yuv_planar, rotate_block.
  rewrite HY, Hang, (rotation_buffers_present env s _ _ Hp).
  unfold submit_job, hwRotateVideoPicture.
  replace (0 <? fd_transform s) with true by (symmetry; now apply Z.ltb_lt).
  rewrite Hscript, tr_run_setup.
  replace (truthy resp) with true
    by (unfold truthy; symmetry; apply Bool.negb_true_iff;
        now apply Z.eqb_neq).
  rewrite tr_run_returned. cbn [after_calls negb app].
  match goal with
  | |- context [commit_and_show env s ?c] =>
      destruct (commit_and_show env s c) as [[r s'] trc] eqn:EC;
      exists {| result := r; sink_after := s';
                statics_after :=
                  set_show_memory_m (next_m (show_memory_m g)) g;
                calls := memory_fb_calls b s
                         ++ ([] ++ [TR_COMMIT (transform_channel s)
                                      (job_of_config b env s
                                         (memory_fb b env s format mem)
                                         (phys_of env (mapinfo_data mem))
                                         (rotate_angle_property
                                            (framebuffersink s))
                                         (next_m (show_memory_m g)))
                                      resp]) ++ trc |}, c,
        (job_of_config b env s (memory_fb b env s format mem)
           (phys_of env (mapinfo_data mem))
           (rotate_angle_property (framebuffersink s))
           (next_m (show_memory_m g)))
  end.
  split; [reflexivity |].
  cbn [result statics_after calls sink_after show_memory_m
       set_show_memory_m app].
  destruct (commit_and_show_accepted env _ _ _ _ _ EC Hcfg) as (Hr & _).
  destruct (memory_fb_calls_quiet b s) as (Qc & _).
  assert (Hfb : filter (fun e => match e with
                                 | TR_COMMIT _ _ _ | TR_QUERY _ _ => true
                                 | _ => false
                                 end) (memory_fb_calls b s) = []).
  { unfold memory_fb_calls. destruct (SUNXI_DISPLAY2 b); reflexivity. }
  assert (Hcs : filter (fun e => match e with
                                 | TR_COMMIT _ _ _ | TR_QUERY _ _ => true
                                 | _ => false
                                 end) trc = []).
  { unfold commit_and_show, gst_sunxifbsink_show_layer in EC.
    destruct (set_layer_config_ret env <? 0);
      [| destruct (layer_is_visible s);
         [| destruct (layer_id s <? 0);
            [| destruct (truthy (set_layer_enable_ret env))]]];
      inversion EC; reflexivity. }
  apply commit_and_show_calls in EC as (Hc & _).
  split; [exact Hr |]. split; [reflexivity |].
  split; [rewrite filter_app, Hfb; cbn [app filter]; now rewrite Hcs |].
  split; [rewrite committed_app, Qc; cbn [app committed]; exact Hc |].
  rewrite memory_layer_info_planes.
  apply point_at_rotated_planes.
Qed.

(** X27 on a transform device that answers -1 to the [TR_COMMIT]. *)
Lemma failed_rotation_is_not_reported_witness :
  exists o,
    gst_sunxifbsink_show_memory_yuv_planar display2
      (sample_env 720 480 0 zeroed [-1]) statics_init
      (sample_sink 720 480 1 0 1048576 2097152) GST_VIDEO_FORMAT_I420
      (sample_memory true)
    = Some o
    /\ result o = GST_FLOW_OK
    /\ length (committed (calls o)) = 1%nat.
Proof.
  destruct (failed_rotation_is_not_reported display2
              (sample_env 720 480 0 zeroed [-1]) statics_init
              (sample_sink 720 480 1 0 1048576 2097152)
              GST_VIDEO_FORMAT_I420 (sample_memory true) (-1) [])
    as (o & c & job & E & Hr & _ & _ & Hc & _);
    [reflexivity | left; cbn; lia | cbn; lia | reflexivity | lia
    | cbn; lia |].
  exists o. rewrite Hc. repeat split; assumption.
Defined.

(** ** The geometry of the block-transform rotation *)

Section G2dGeometry.

Lemma is_rot_90_or_270_iff (n : Z) :
  is_rot_90_or_270 (flag_of_degree n) = true <-> n = 1 \/ n = 3.
Proof.
  unfold flag_of_degree.
  destruct (n =? 0) eqn:E0; [apply Z.eqb_eq in E0; cbn; split;
                             [discriminate | lia] |].
  destruct (n =? 1) eqn:E1; [apply Z.eqb_eq in E1; cbn; split; auto |].
  destruct (n =? 2) eqn:E2; [apply Z.eqb_eq in E2; cbn; split;
                             [discriminate | lia] |].
  destruct (n =? 3) eqn:E3; [apply Z.eqb_eq in E3; cbn; split; auto |].
  apply Z.eqb_neq in E1, E3.
  destruct (n =? 4); [cbn; split; [discriminate | lia] |].
  destruct (n =? 6); cbn; (split; [discriminate | lia]).
Qed.

End G2dGeometry.

(** X28. The blit the planar presenter asks of the block-transform engine
    has as source the frame buffer description of the frame, its plane-0
    size aligned to 32 with the unaligned size as clip, and as destination
    the same size, transposed exactly when the rotate-angle is 1 or 3 (90
    or 270 degrees). The plane-0 height is the height of the video for
    YV12; for NV21 the description never received one, and the blit is
    asked with a height of 0. *)
Theorem g2d_blit_geometry (b : build) (env : frame_env) (g : statics)
    (s : GstSunxifbsink) (framebuffer_offset : Z)
    (format : GstVideoFormat) (blit : g2d_blt_h) :
  g2d_rotates b s = true ->
  first_blit
    (calls (gst_sunxifbsink_show_overlay_yuv_planar b env g s
              framebuffer_offset format))
  = Some blit ->
  let f := framebuffersink s in
  let w := u32 (stride_in_pixels f) in
  let h := if format_eqb format GST_VIDEO_FORMAT_YV12
           then u32 (videosink_height f) else 0 in
  (format = GST_VIDEO_FORMAT_YV12 \/ format = GST_VIDEO_FORMAT_NV21)
  /\ flag_h blit = flag_of_degree (rotate_angle_property f)
  /\ (g2d_width (src_image_h blit), g2d_height (src_image_h blit))
     = (ALIGN_32B w, ALIGN_32B h)
  /\ (clip_rect_w (src_image_h blit), clip_rect_h (src_image_h blit))
     = (w, h)
  /\ (rotate_angle_property f = 1 \/ rotate_angle_property f = 3 ->
      (g2d_width (dst_image_h blit), g2d_height (dst_image_h blit))
      = (ALIGN_32B h, ALIGN_32B w)
      /\ (clip_rect_w (dst_image_h blit), clip_rect_h (dst_image_h blit))
         = (h, w))
  /\ (rotate_angle_property f <> 1 -> rotate_angle_property f <> 3 ->
      (g2d_width (dst_image_h blit), g2d_height (dst_image_h blit))
      = (ALIGN_32B w, ALIGN_32B h)
      /\ (clip_rect_w (dst_image_h blit), clip_rect_h (dst_image_h blit))
         = (w, h)).
Proof.
  intros Hg Hblit f w h. subst f w h.
  destruct (g2d_rotates_true b s Hg) as (Hd & Hr & Ha).
  pose proof (is_rot_90_or_270_iff
                (rotate_angle_property (framebuffersink s))) as Hrot.
  unfold gst_sunxifbsink_show_overlay_yuv_planar, g2d_block in Hblit.
  rewrite Hd, Hr, Ha in Hblit. cbn [andb] in Hblit.
  destruct (rotation_buffers env s _ _) as [[s1 tra] | [s1 tra]] eqn:EB.
  2: { destruct (rotation_buffers_frame env s s1 _ _ tra (or_intror EB))
         as (_ & _ & _ & Hnb & _).
       cbn [calls] in Hblit. congruence. }
  destruct (rotation_buffers_frame env s s1 _ _ tra (or_introl EB))
    as (_ & _ & _ & Hnb & _).
  assert (Hfirst : forall g1 s2 c2 bl r,
             first_blit
               (calls (outcome_of g1 (commit_and_show env s2 c2)
                         (tra ++ [G2D_CMD_BITBLT_H bl r])))
             = Some bl).
  { intros g1 s2 c2 bl r. unfold outcome_of.
    destruct (commit_and_show env s2 c2) as [[r0 s0] trc].
    cbn [calls]. now rewrite !first_blit_app, Hnb. }
  destruct format; cbn [format_eqb] in Hblit;
    try (cbn [calls] in Hblit; congruence);
    (destruct (g2d_bitblt_ret env <? 0);
     [cbn [calls] in Hblit; rewrite first_blit_app, Hnb in Hblit;
      cbn [first_blit] in Hblit
     | cbn [andb flag_h] in Hblit;
       destruct (is_rot_90_or_270
                   (flag_of_degree
                      (rotate_angle_property (framebuffersink s))));
       [destruct (reset_video_rectangle_flag _) |];
       rewrite Hfirst in Hblit]);
    injection Hblit as <-;
    cbn [format_eqb flag_h src_image_h dst_image_h g2d_width g2d_height
         clip_rect_w clip_rect_h];
    (split; [auto |]); (split; [reflexivity |]);
    unfold planar_fb_display2; cbn [format_eqb orb];
    (split; [reflexivity |]); (split; [reflexivity |]);
    destruct (is_rot_90_or_270
                (flag_of_degree (rotate_angle_property (framebuffersink s))))
      eqn:Erot;
    (split;
     [intros Hang; try (now split);
      apply Hrot in Hang; discriminate Hang
     | intros Hn1 Hn3; try (now split);
       destruct (proj1 Hrot eq_refl); contradiction]).
Qed.

(** X28 on a 720x480 YV12 frame rotated by 90 degrees: the source is
    736 by 480 and the destination 480 by 736. *)
Lemma g2d_blit_geometry_witness :
  exists blit,
    first_blit
      (calls (gst_sunxifbsink_show_overlay_yuv_planar display2_g2d
                (sample_env 720 480 0 zeroed []) statics_init
                (sample_sink 720 480 1 0 1048576 2097152) 5242880
                GST_VIDEO_FORMAT_YV12))
    = Some blit
    /\ (g2d_width (src_image_h blit), g2d_height (src_image_h blit))
       = (736, 480)
    /\ (g2d_width (dst_image_h blit), g2d_height (dst_image_h blit))
       = (480, 736).
Proof.
  match goal with
  | |- exists blit, ?fb = Some blit /\ _ =>
      assert (Hj : option_map (fun bl => g2d_width (src_image_h bl)) fb
                   = Some 736) by evaluated;
      destruct fb as [blit |] eqn:E; [| discriminate Hj]
  end.
  exists blit.
  destruct (g2d_blit_geometry display2_g2d
              (sample_env 720 480 0 zeroed []) statics_init
              (sample_sink 720 480 1 0 1048576 2097152) 5242880
              GST_VIDEO_FORMAT_YV12 blit eq_refl E)
    as (_ & _ & Hs & _ & H90 & _).
  split; [reflexivity |]. split; [rewrite Hs; reflexivity |].
  destruct (H90 (or_introl eq_refl)) as [Hd _]. rewrite Hd. reflexivity.
Defined.

(** X29. For the semi-planar formats NV12 and NV21 the planar presenter
    never gives plane 0 a height in the newer backend, which commits 0,
    and gives the one size of the legacy backend half the height of the
    video; the width is the scanline stride in pixels in both. *)
Theorem semi_planar_luma_height (b : build) (env : frame_env)
    (g : statics) (s : GstSunxifbsink) (framebuffer_offset : Z)
    (format : GstVideoFormat) :
  format = GST_VIDEO_FORMAT_NV12 \/ format = GST_VIDEO_FORMAT_NV21 ->
  g2d_rotates b s = false ->
  exists c,
    committed
      (calls (gst_sunxifbsink_show_overlay_yuv_planar b env g s
                framebuffer_offset format))
    = [c]
    /\ luma_width b c = u32 (stride_in_pixels (framebuffersink s))
    /\ luma_height b c
       = (if SUNXI_DISPLAY2 b then 0
          else u32 (Z.quot (videosink_height (framebuffersink s)) 2)).
Proof.
  intros Hf Hg. rewrite (show_overlay_yuv_planar_plain b env g s _ _ Hg).
  rewrite outcome_of_committed.
  unfold luma_width, luma_height, planar_fb_display2, planar_fb_legacy.
  destruct (SUNXI_DISPLAY2 b); destruct Hf as [-> | ->];
    cbn [format_eqb orb committed app];
    (eexists; split; [reflexivity |]); split; reflexivity.
Qed.

(** X29 on a 720x480 NV12 frame in either backend. *)
Lemma semi_planar_luma_height_witness :
  (exists c,
      committed
        (calls (gst_sunxifbsink_show_overlay_yuv_planar display2
                  (sample_env 720 480 0 zeroed []) statics_init
                  (sample_sink 720 480 0 0 0 0) 5242880
                  GST_VIDEO_FORMAT_NV12))
      = [c]
      /\ luma_height display2 c = 0)
  /\ (exists c,
         committed
           (calls (gst_sunxifbsink_show_overlay_yuv_planar legacy
                     (sample_env 720 480 0 zeroed []) statics_init
                     (sample_sink 720 480 0 0 0 0) 5242880
                     GST_VIDEO_FORMAT_NV12))
         = [c]
         /\ luma_height legacy c = 240).
Proof.
  split.
  - destruct (semi_planar_luma_height display2
                (sample_env 720 480 0 zeroed []) statics_init
                (sample_sink 720 480 0 0 0 0) 5242880 GST_VIDEO_FORMAT_NV12)
      as (c & Hc & _ & Hh); [now left | reflexivity |].
    exists c. split; [exact Hc | exact Hh].
  - destruct (semi_planar_luma_height legacy
                (sample_env 720 480 0 zeroed []) statics_init
                (sample_sink 720 480 0 0 0 0) 5242880 GST_VIDEO_FORMAT_NV12)
      as (c & Hc & _ & Hh); [now left | reflexivity |].
    exists c. split; [exact Hc | rewrite Hh; reflexivity].
Defined.
